(** * HackPad firmware: display driver, encoder, switches and HID dispatcher

    A shallow embedding of the MicroPython firmware (display.py,
    encoder.py, hid_control.py, main.py, pins.py) together with the
    properties of its input-capture and rendering pipeline.

    Python integers are unbounded, so they are embedded as [Z]; a
    [bytearray] is a [list Z] whose stores are range-checked; methods that
    mutate [self] and may raise are functions in a state-and-exception
    monad in which the state survives a raised exception, as it does in
    Python. *)

From Stdlib Require Import ZArith Lia List Bool Ascii String.
From stdpp Require Import base list strings gmap.
Import ListNotations.

Local Open Scope Z_scope.

(** ** Python prelude *)

Module Py.

(** The exception classes the firmware can meet. [OSError] stands for
    any exception that is an [Exception] but none of the others. *)
Inductive exn : Type :=
| IndexError
| ValueError
| KeyError
| AttributeError
| OSError.

Inductive result (A : Type) : Type :=
| Ok (a : A)
| Raise (e : exn).
Arguments Ok {A} a.
Arguments Raise {A} e.

(** A method over a mutable object of type [S]. *)
Definition M (S A : Type) : Type := S -> result A * S.

Definition ret {S A} (a : A) : M S A := fun s => (Ok a, s).

Definition raise {S A} (e : exn) : M S A := fun s => (Raise e, s).

Definition bind {S A B} (m : M S A) (k : A -> M S B) : M S B :=
  fun s =>
    match m s with
    | (Ok a, s') => k a s'
    | (Raise e, s') => (Raise e, s')
    end.

Definition get {S} : M S S := fun s => (Ok s, s).

Definition gets {S A} (f : S -> A) : M S A := fun s => (Ok (f s), s).

Definition modify {S} (f : S -> S) : M S unit := fun s => (Ok tt, f s).

(** A method of an object run on the first or on the second component
    of a pair of objects. *)
Definition on_fst {S W A} (m : M S A) : M (S * W) A :=
  fun sw => let '(r, s') := m (fst sw) in (r, (s', snd sw)).

Definition on_snd {S W A} (m : M W A) : M (S * W) A :=
  fun sw => let '(r, w') := m (snd sw) in (r, (fst sw, w')).

(** [lift] turns a pure, fallible computation into a method. *)
Definition lift {S A} (r : result A) : M S A := fun s => (r, s).

(** [try: body / except <classes>: handler]. An exception outside
    [classes] propagates. *)
Definition try_except {S A} (body : M S A) (classes : exn -> bool)
    (handler : exn -> M S A) : M S A :=
  fun s =>
    match body s with
    | (Ok a, s') => (Ok a, s')
    | (Raise e, s') => if classes e then handler e s' else (Raise e, s')
    end.

(** [except Exception] catches every class of [exn]. *)
Definition Exception (_ : exn) : bool := true.

Definition is_AttributeError (e : exn) : bool :=
  match e with AttributeError => true | _ => false end.

(** [for x in l: body x]. *)
Fixpoint for_each {S A} (l : list A) (body : A -> M S unit) : M S unit :=
  match l with
  | [] => ret tt
  | x :: l' => bind (body x) (fun _ => for_each l' body)
  end.

(** [range(n)]: empty when [n <= 0]. *)
Definition range (n : Z) : list Z := map Z.of_nat (seq 0 (Z.to_nat n)).

Definition is_byte (b : Z) : bool := (0 <=? b) && (b <? 256).

(** [bytes(l)] and [bytearray(l)] over a list of integers: [ValueError]
    unless every element is in [range(256)]. *)
Definition bytes (l : list Z) : result (list Z) :=
  if forallb is_byte l then Ok l else Raise ValueError.

(** [bytearray(n)]: [n] zero bytes, [ValueError] for a negative count. *)
Definition bytearray (n : Z) : result (list Z) :=
  if n <? 0 then Raise ValueError else Ok (repeat 0 (Z.to_nat n)).

(** Index normalisation of a sequence of length [len]: a negative index
    counts from the end. *)
Definition index (len : nat) (i : Z) : result nat :=
  if (0 <=? i) && (i <? Z.of_nat len) then Ok (Z.to_nat i)
  else if (- Z.of_nat len <=? i) && (i <? 0) then Ok (Z.to_nat (Z.of_nat len + i))
  else Raise IndexError.

(** [b[i]] *)
Definition getitem (b : list Z) (i : Z) : result Z :=
  match index (length b) i with
  | Ok n => match b !! n with Some v => Ok v | None => Raise IndexError end
  | Raise e => Raise e
  end.

(** [b[i] = v] on a bytearray. *)
Definition setitem (b : list Z) (i : Z) (v : Z) : result (list Z) :=
  match index (length b) i with
  | Ok n => if is_byte v then Ok (<[n := v]> b) else Raise ValueError
  | Raise e => Raise e
  end.

(** Bound normalisation of a slice [b[lo:hi]]. *)
Definition slice_bound (len : nat) (i : Z) : nat :=
  if i <? 0 then Z.to_nat (Z.max (Z.of_nat len + i) 0)
  else Z.to_nat (Z.min i (Z.of_nat len)).

(** [b[lo:hi]] *)
Definition slice (b : list Z) (lo hi : Z) : list Z :=
  let s := slice_bound (length b) lo in
  let e := slice_bound (length b) hi in
  take (e - s) (drop s b).

(** A [dict] whose iteration order matters: keys in insertion order;
    storing under a key that is present keeps its position. *)
Fixpoint dict_set {V} (k : string) (v : V) (d : list (string * V))
    : list (string * V) :=
  match d with
  | [] => [(k, v)]
  | (k', v') :: d' =>
      if String.eqb k k' then (k, v) :: d' else (k', v') :: dict_set k v d'
  end.

Fixpoint dict_get {V} (k : string) (d : list (string * V)) : option V :=
  match d with
  | [] => None
  | (k', v') :: d' => if String.eqb k k' then Some v' else dict_get k d'
  end.

(** Truth value of an integer. *)
Definition truthy (z : Z) : bool := negb (z =? 0).

End Py.

Declare Scope py_scope.
Delimit Scope py_scope with py.
Notation "x <- m ;; k" := (Py.bind m (fun x => k))
  (at level 100, m at next level, right associativity) : py_scope.
Notation "m ;;; k" := (Py.bind m (fun _ => k))
  (at level 100, right associativity) : py_scope.

(** ** pins.py *)

Module Pins.

Definition SWITCH_PINS : list (string * Z) :=
  [("switch_1"%string, 0); ("switch_2"%string, 1); ("switch_3"%string, 2);
   ("switch_4"%string, 3); ("switch_5"%string, 4); ("switch_6"%string, 5)].

Definition OLED_WIDTH : Z := 128.
Definition OLED_HEIGHT : Z := 64.
Definition OLED_ADDR : Z := 0x3C.

(** Debounce time in milliseconds (switches). *)
Definition DEBOUNCE_TIME : Z := 20.

(** ms for encoder contacts. *)
Definition ENCODER_DEBOUNCE_TIME : Z := 2.

End Pins.

(** ** display.py: class SSD1306 *)

Module Display.
Import Py.
Local Open Scope py_scope.

(** One [i2c.writeto(addr, data)] call. *)
Definition frame : Type := (Z * list Z)%type.

Record SSD1306 : Type := mkSSD1306 {
  width : Z;
  height : Z;
  addr : Z;
  pages : Z;
  buf : list Z;
  (** the bus: every [writeto] call so far, oldest first *)
  i2c : list frame
}.

Definition set_buf (b : list Z) (self : SSD1306) : SSD1306 :=
  mkSSD1306 (width self) (height self) (addr self) (pages self) b (i2c self).

Definition CONTRAST : Z := 0x81.
Definition ENTIRE_ON : Z := 0xA4.
Definition NORMAL : Z := 0xA6.
Definition INVERT : Z := 0xA7.
Definition DISPLAY_OFF : Z := 0xAE.
Definition DISPLAY_ON : Z := 0xAF.
Definition SETPAGE : Z := 0xB0.
Definition LOWER_COLUMN_START : Z := 0x00.
Definition HIGHER_COLUMN_START : Z := 0x10.
Definition SET_START_LINE : Z := 0x40.

(** [self.i2c.writeto(self.addr, data)]: the peripheral acknowledges
    and the frame is appended to the bus log. *)
Definition i2c_writeto (data : list Z) : M SSD1306 unit :=
  modify (fun self =>
    mkSSD1306 (width self) (height self) (addr self) (pages self) (buf self)
              (i2c self ++ [(addr self, data)])).

(** The argument of [write_cmd]: a single int or a bytes object. *)
Inductive cmd_arg : Type :=
| CmdInt (c : Z)
| CmdBytes (cs : list Z).

Definition write_cmd (cmd : cmd_arg) : M SSD1306 unit :=
  cmd' <- match cmd with
          | CmdInt c => lift (bytes [c])
          | CmdBytes cs => ret cs
          end ;;
  i2c_writeto ([0x00] ++ cmd').

Definition write_data (data : list Z) : M SSD1306 unit :=
  i2c_writeto ([0x40] ++ data).

Definition init_commands : list Z :=
  [ DISPLAY_OFF;
    0xD5; 0x80;
    0xA8; 0x3F;
    0xD3; 0x00;
    SET_START_LINE;
    0x8D; 0x14;
    0x20; 0x00;
    0xA1;
    0xC8;
    0xDA; 0x12;
    CONTRAST; 0xCF;
    0xD9; 0xF1;
    0xDB; 0x40;
    ENTIRE_ON;
    NORMAL;
    DISPLAY_ON ].

Definition init_display : M SSD1306 unit :=
  cs <- lift (bytes init_commands) ;;
  write_cmd (CmdBytes cs).

(** [SSD1306.__init__]; the geometry and the address are its arguments,
    the bus starts with an empty log. *)
Definition new (width height addr : Z) : result unit * SSD1306 :=
  let pages := height / 8 in
  match bytearray (pages * width) with
  | Ok b => init_display (mkSSD1306 width height addr pages b [])
  | Raise e => (Raise e, mkSSD1306 width height addr pages [] [])
  end.

Definition show_page (page : Z) : M SSD1306 unit :=
  write_cmd (CmdInt (Z.lor SETPAGE page)) ;;;
  write_cmd (CmdInt 0x00) ;;;
  write_cmd (CmdInt 0x10) ;;;
  self <- get ;;
  let page_start := page * width self in
  let page_end := page_start + width self in
  write_data (slice (buf self) page_start page_end).

Definition show : M SSD1306 unit :=
  self <- get ;;
  for_each (range (pages self)) show_page.

Definition clear : M SSD1306 unit :=
  self <- get ;;
  b <- lift (bytearray (Z.of_nat (length (buf self)))) ;;
  modify (set_buf b) ;;;
  show.

Definition fill (color : Z) : M SSD1306 unit :=
  self <- get ;;
  let fill_byte := if truthy color then 0xFF else 0x00 in
  b <- lift (bytes (repeat fill_byte (length (buf self)))) ;;
  modify (set_buf b) ;;;
  show.

Definition pixel (x y state : Z) : M SSD1306 unit :=
  self <- get ;;
  if negb ((0 <=? x) && (x <? width self) && ((0 <=? y) && (y <? height self)))
  then ret tt
  else
    let page := y / 8 in
    let bit := y mod 8 in
    let index := page * width self + x in
    if truthy state then
      old <- lift (getitem (buf self) index) ;;
      b <- lift (setitem (buf self) index (Z.lor old (Z.shiftl 1 bit))) ;;
      modify (set_buf b)
    else
      old <- lift (getitem (buf self) index) ;;
      b <- lift (setitem (buf self) index (Z.land old (Z.lnot (Z.shiftl 1 bit)))) ;;
      modify (set_buf b).

(** The object after [fs] more frames went over the bus. *)
Definition push_frames (fs : list frame) (self : SSD1306) : SSD1306 :=
  mkSSD1306 (width self) (height self) (addr self) (pages self) (buf self)
            (i2c self ++ fs).

(** The four frames [show] writes for page [p]. *)
Definition page_frames (self : SSD1306) (p : Z) : list frame :=
  [ (addr self, [0x00; Z.lor 0xB0 p]);
    (addr self, [0x00; 0x00]);
    (addr self, [0x00; 0x10]);
    (addr self, 0x40 :: slice (buf self) (p * width self) (p * width self + width self)) ].

(** The geometry [__init__] establishes and every method keeps. *)
Definition well_formed (self : SSD1306) : Prop :=
  pages self = height self / 8 /\
  Z.of_nat (length (buf self)) = pages self * width self.

(** A bytearray holds bytes. *)
Definition bytes_ok (self : SSD1306) : Prop :=
  Forall (fun b => 0 <= b < 256) (buf self).

(** Where [pixel] finds the byte of an in-range coordinate: the value
    of its local [index], as a position in the buffer. *)
Definition pixel_index (self : SSD1306) (x y : Z) : nat :=
  Z.to_nat (y / 8 * width self + x).

(** The 128x64 panel of pins.py right after construction, and the same
    panel with the top-left pixel already lit. *)
Definition fresh_panel : SSD1306 :=
  snd (new Pins.OLED_WIDTH Pins.OLED_HEIGHT Pins.OLED_ADDR).

Definition lit_panel : SSD1306 :=
  set_buf (<[0%nat := 1]> (buf fresh_panel)) fresh_panel.

(** *** The drawing primitives *)

Definition hline (x y width color : Z) : M SSD1306 unit :=
  for_each (range width) (fun i => pixel (x + i) y color).

Definition vline (x y height color : Z) : M SSD1306 unit :=
  for_each (range height) (fun i => pixel x (y + i) color).

Definition rect (x y width height color : Z) (fill : bool) : M SSD1306 unit :=
  if fill then
    for_each (range height) (fun i => hline x (y + i) width color)
  else
    hline x y width color ;;;
    hline x (y + height - 1) width color ;;;
    vline x y height color ;;;
    vline (x + width - 1) y height color.

(** The 5x8 font of [text]: one column byte per glyph column, bit 0 on
    top. *)
Definition font_data : list (ascii * list Z) :=
  [ (" "%char, [0x00; 0x00; 0x00; 0x00; 0x00]);
    ("0"%char, [0x3E; 0x51; 0x49; 0x45; 0x3E]);
    ("1"%char, [0x00; 0x41; 0x7F; 0x40; 0x00]);
    ("2"%char, [0x72; 0x49; 0x49; 0x49; 0x46]);
    ("3"%char, [0x22; 0x49; 0x49; 0x49; 0x36]);
    ("4"%char, [0x0F; 0x08; 0x08; 0x08; 0x7E]);
    ("5"%char, [0x27; 0x45; 0x45; 0x45; 0x39]);
    ("6"%char, [0x3C; 0x4A; 0x49; 0x49; 0x30]);
    ("7"%char, [0x41; 0x21; 0x11; 0x09; 0x07]);
    ("8"%char, [0x36; 0x49; 0x49; 0x49; 0x36]);
    ("9"%char, [0x06; 0x49; 0x49; 0x29; 0x1E]);
    ("A"%char, [0x7E; 0x09; 0x09; 0x09; 0x7E]);
    ("B"%char, [0x7F; 0x49; 0x49; 0x49; 0x36]);
    ("C"%char, [0x3E; 0x41; 0x41; 0x41; 0x22]);
    ("D"%char, [0x7F; 0x41; 0x41; 0x41; 0x3E]);
    ("E"%char, [0x7F; 0x49; 0x49; 0x49; 0x41]);
    ("F"%char, [0x7F; 0x09; 0x09; 0x09; 0x01]);
    ("G"%char, [0x3E; 0x41; 0x49; 0x49; 0x32]);
    ("H"%char, [0x7F; 0x08; 0x08; 0x08; 0x7F]);
    ("I"%char, [0x00; 0x41; 0x7F; 0x41; 0x00]);
    ("J"%char, [0x20; 0x40; 0x41; 0x3F; 0x01]);
    ("K"%char, [0x7F; 0x08; 0x14; 0x22; 0x41]);
    ("L"%char, [0x7F; 0x40; 0x40; 0x40; 0x40]);
    ("M"%char, [0x7F; 0x02; 0x04; 0x02; 0x7F]);
    ("N"%char, [0x7F; 0x04; 0x08; 0x10; 0x7F]);
    ("O"%char, [0x3E; 0x41; 0x41; 0x41; 0x3E]);
    ("P"%char, [0x7F; 0x09; 0x09; 0x09; 0x06]);
    ("Q"%char, [0x3E; 0x41; 0x51; 0x21; 0x5E]);
    ("R"%char, [0x7F; 0x09; 0x19; 0x29; 0x46]);
    ("S"%char, [0x26; 0x49; 0x49; 0x49; 0x32]);
    ("T"%char, [0x01; 0x01; 0x7F; 0x01; 0x01]);
    ("U"%char, [0x3F; 0x40; 0x40; 0x40; 0x3F]);
    ("V"%char, [0x1F; 0x20; 0x40; 0x20; 0x1F]);
    ("W"%char, [0x7F; 0x20; 0x10; 0x20; 0x7F]);
    ("X"%char, [0x63; 0x14; 0x08; 0x14; 0x63]);
    ("Y"%char, [0x07; 0x08; 0x70; 0x08; 0x07]);
    ("Z"%char, [0x61; 0x51; 0x49; 0x45; 0x43]);
    (":"%char, [0x00; 0x36; 0x36; 0x00; 0x00]);
    ("."%char, [0x00; 0x60; 0x60; 0x00; 0x00]);
    ("-"%char, [0x08; 0x08; 0x08; 0x08; 0x08]) ].

(** [font_data[char]], [None] when [char not in font_data]. *)
Fixpoint font_get (table : list (ascii * list Z)) (char : ascii) : option (list Z) :=
  match table with
  | [] => None
  | (c, cols) :: table' => if Ascii.eqb char c then Some cols else font_get table' char
  end.

(** [enumerate(l)] *)
Definition enumerate {A} (l : list A) : list (Z * A) :=
  combine (range (Z.of_nat (length l))) l.

(** The body of [text]'s loop over the columns of one glyph. *)
Definition draw_glyph (cols : list Z) (current_x y color : Z) : M SSD1306 unit :=
  for_each (enumerate cols) (fun '(bit_col, col_data) =>
    for_each (range 8) (fun bit_row =>
      if truthy (Z.land col_data (Z.shiftl 1 bit_row))
      then pixel (current_x + bit_col) (y + bit_row) color
      else ret tt)).

(** [text]'s loop over the characters, [current_x] being its cursor. A
    string is the sequence of its characters, each an [ascii] (code
    points below 256). *)
Fixpoint text_from (str : string) (current_x y color : Z) : M SSD1306 unit :=
  match str with
  | EmptyString => ret tt
  | String char rest =>
      match font_get font_data char with
      | Some cols => draw_glyph cols current_x y color
      | None => ret tt
      end ;;;
      text_from rest (current_x + 6) y color
  end.

Definition text (str : string) (x y color : Z) : M SSD1306 unit :=
  text_from str x y color.

(** *** Reading the framebuffer *)

(** What the panel and [pixel] need of the object: the constructor's
    geometry, bytes in the buffer, whole pages only. *)
Definition drawable (self : SSD1306) : Prop :=
  well_formed self /\ bytes_ok self /\ height self mod 8 = 0.

(** Everything but the buffer contents is the same. *)
Definition same_panel (self self' : SSD1306) : Prop :=
  width self' = width self /\ height self' = height self /\
  addr self' = addr self /\ pages self' = pages self /\ i2c self' = i2c self.

Definition in_range (self : SSD1306) (x y : Z) : Prop :=
  0 <= x < width self /\ 0 <= y < height self.

(** Whether the pixel at [(x, y)] is lit in the buffer. *)
Definition pixel_at (self : SSD1306) (x y : Z) : bool :=
  match buf self !! pixel_index self x y with
  | Some b => Z.testbit b (y mod 8)
  | None => false
  end.

(** One [pixel] call with the same colour per coordinate of a list. *)
Definition draw_all (coords : list (Z * Z)) (color : Z) : M SSD1306 unit :=
  for_each coords (fun c => pixel (fst c) (snd c) color).

(** The coordinates the primitives pass to [pixel], in call order. *)
Definition hline_coords (x y width : Z) : list (Z * Z) :=
  map (fun i => (x + i, y)) (range width).

Definition vline_coords (x y height : Z) : list (Z * Z) :=
  map (fun i => (x, y + i)) (range height).

Definition rect_coords (x y width height : Z) (fill : bool) : list (Z * Z) :=
  if fill then flat_map (fun i => hline_coords x (y + i) width) (range height)
  else hline_coords x y width ++ hline_coords x (y + height - 1) width
       ++ vline_coords x y height ++ vline_coords (x + width - 1) y height.

Definition glyph_coords (cols : list Z) (current_x y : Z) : list (Z * Z) :=
  flat_map (fun '(bit_col, col_data) =>
    flat_map (fun bit_row =>
      if truthy (Z.land col_data (Z.shiftl 1 bit_row))
      then [(current_x + bit_col, y + bit_row)] else [])
      (range 8))
    (enumerate cols).

Fixpoint text_coords (str : string) (current_x y : Z) : list (Z * Z) :=
  match str with
  | EmptyString => []
  | String char rest =>
      match font_get font_data char with
      | Some cols => glyph_coords cols current_x y
      | None => []
      end ++ text_coords rest (current_x + 6) y
  end.

(** [text] paints [(x', y')] when some character [k] of the string has
    a glyph whose column [x' - x - 6k] has bit [y' - y] set. *)
Definition painted (str : string) (x y x' y' : Z) : Prop :=
  exists (k : nat) (char : ascii) (cols : list Z) (col : Z),
    String.get k str = Some char
    /\ font_get font_data char = Some cols
    /\ 0 <= x' - x - 6 * Z.of_nat k
    /\ cols !! Z.to_nat (x' - x - 6 * Z.of_nat k) = Some col
    /\ 0 <= y' - y < 8
    /\ Z.testbit col (y' - y) = true.

(** A character without a glyph becomes a space. *)
Fixpoint blank_unsupported (str : string) : string :=
  match str with
  | EmptyString => EmptyString
  | String char rest =>
      String (match font_get font_data char with
              | Some _ => char
              | None => " "%char
              end)
             (blank_unsupported rest)
  end.

(** *** class Display: the part the main loop relies on *)

Record Display : Type := mkDisplay {
  oled : option SSD1306;
  initialized : bool
}.

(** [Display.__init__]: a failure of the driver's constructor is caught
    and leaves the object uninitialised. *)
Definition Display_new : Display :=
  match new Pins.OLED_WIDTH Pins.OLED_HEIGHT Pins.OLED_ADDR with
  | (Ok _, o) => mkDisplay (Some o) true
  | (Raise _, _) => mkDisplay None false
  end.

(** [self.oled.<method>(...)] *)
Definition with_oled {A} (m : M SSD1306 A) : M Display A :=
  fun self =>
    match oled self with
    | Some o => let '(r, o') := m o in (r, mkDisplay (Some o') (initialized self))
    | None => (Raise AttributeError, self)
    end.

(** [Display.clear] *)
Definition Display_clear : M Display unit :=
  self <- get ;;
  if initialized self then with_oled clear else ret tt.

(** [Display.show_welcome] *)
Definition show_welcome : M Display unit :=
  self <- get ;;
  if negb (initialized self) then ret tt
  else
    with_oled clear ;;;
    with_oled (text "MICROPAD v1.0" 20 5 1) ;;;
    with_oled (text "XIAO RP2040" 25 20 1) ;;;
    with_oled (hline 0 35 128 1) ;;;
    with_oled (text "6 Keys + Encoder" 15 42 1) ;;;
    with_oled show.

End Display.

(** ** encoder.py: class EC11Encoder *)

Module Encoder.
Import Py.
Local Open Scope py_scope.

Section WithWorld.
(** [W] is whatever the registered callbacks act on: a callback is an
    arbitrary method of it. *)
Context {W : Type}.

Record EC11Encoder : Type := mkEC11Encoder {
  callback_rotate : option (Z -> M W unit);
  callback_button : option (M W unit);
  last_clk : Z;
  last_dt : Z;
  last_sw : Z;
  last_interrupt_time : Z;
  button_press_time : Z
}.

Definition set_last_interrupt_time (t : Z) (self : EC11Encoder) : EC11Encoder :=
  mkEC11Encoder (callback_rotate self) (callback_button self) (last_clk self)
    (last_dt self) (last_sw self) t (button_press_time self).

Definition set_button_press_time (t : Z) (self : EC11Encoder) : EC11Encoder :=
  mkEC11Encoder (callback_rotate self) (callback_button self) (last_clk self)
    (last_dt self) (last_sw self) (last_interrupt_time self) t.

Definition set_last_clk_dt (c d : Z) (self : EC11Encoder) : EC11Encoder :=
  mkEC11Encoder (callback_rotate self) (callback_button self) c d
    (last_sw self) (last_interrupt_time self) (button_press_time self).

(** [EC11Encoder.__init__]; [clk], [dt] and [sw] are the levels the
    three pins read at construction. *)
Definition new (cb_rotate : option (Z -> M W unit)) (cb_button : option (M W unit))
    (clk dt sw : Z) : EC11Encoder :=
  mkEC11Encoder cb_rotate cb_button clk dt sw 0 0.

(** [if self.callback_rotate: self.callback_rotate(direction)] *)
Definition call_rotate (self : EC11Encoder) (direction : Z) : M (EC11Encoder * W) unit :=
  match callback_rotate self with
  | Some cb => on_snd (cb direction)
  | None => ret tt
  end.

(** [_handle_rotation]; [current_time] is what [time.ticks_ms()]
    returns, [clk_val] and [dt_val] what the two pins read. *)
Definition _handle_rotation (current_time clk_val dt_val : Z)
    : M (EC11Encoder * W) unit :=
  self <- gets fst ;;
  if current_time - last_interrupt_time self <? Pins.ENCODER_DEBOUNCE_TIME
  then ret tt
  else
    on_fst (modify (set_last_interrupt_time current_time)) ;;;
    self <- gets fst ;;
    (if negb (clk_val =? last_clk self) then
       if clk_val =? 0 then
         if dt_val =? 1 then call_rotate self 1
         else call_rotate self (-1)
       else ret tt
     else ret tt) ;;;
    on_fst (modify (set_last_clk_dt clk_val dt_val)).

(** [_handle_button]; [sw_val] is what the button pin reads. *)
Definition _handle_button (current_time sw_val : Z) : M (EC11Encoder * W) unit :=
  self <- gets fst ;;
  if current_time - button_press_time self <? 50
  then ret tt
  else
    on_fst (modify (set_button_press_time current_time)) ;;;
    self <- gets fst ;;
    if sw_val =? 0 then
      match callback_button self with
      | Some cb => on_snd cb
      | None => ret tt
      end
    else ret tt.

End WithWorld.
Arguments EC11Encoder W : clear implicits.

(** Callbacks that only write down what they are called with, to
    observe what the encoder emits. *)
Inductive emitted : Type :=
| Tick (direction : Z)
| Press.

Definition record_tick (direction : Z) : M (list emitted) unit :=
  modify (fun seen => seen ++ [Tick direction]).

Definition record_press : M (list emitted) unit :=
  modify (fun seen => seen ++ [Press]).

(** An encoder with both recording callbacks whose last accepted
    rotation and button edges were at tick [t], CLK and DT high. *)
Definition idle_at (t : Z) : EC11Encoder (list emitted) :=
  set_button_press_time t
    (set_last_interrupt_time t (new (Some record_tick) (Some record_press) 1 1 1)).

End Encoder.

(** ** The debounce decision as the specification words it *)

Module Spec.

(** "accepts the edge iff [now_tick - last_accepted_tick >= threshold]
    (unsigned subtraction, tolerant of tick-counter wraparound via
    modular arithmetic)", for a tick counter that wraps at [period]. *)
Definition modular_accept (period now_tick last_accepted_tick threshold : Z) : bool :=
  threshold <=? (now_tick - last_accepted_tick) mod period.

End Spec.

(** ** hid_control.py: class MediaControl *)

Module Hid.
Import Py.
Local Open Scope py_scope.

(** What the dispatcher does to the outside: a call of the device's
    [send], a call of its [write], and [time.sleep] (in milliseconds). *)
Inductive event : Type :=
| EvSend (report : list Z)
| EvWrite (report : list Z)
| EvSleep (ms : Z).

(** The behaviour of one write primitive of a device: given the events
    so far and the report, it returns ([None]) or raises. *)
Definition primitive : Type := list event -> list Z -> option exn.

(** A HID device object. A primitive that is [None] is an attribute the
    object does not have. *)
Record Device : Type := mkDevice {
  usage_page : Z;
  send : option primitive;
  write : option primitive
}.

Record MediaControl : Type := mkMediaControl {
  enabled : bool;
  keyboard : option Device;
  log : list event
}.

Definition VOLUME_UP : Z := 0xE9.
Definition VOLUME_DOWN : Z := 0xEA.
Definition VOLUME_MUTE : Z := 0xE2.
Definition PLAY_PAUSE : Z := 0xCD.
Definition NEXT_TRACK : Z := 0xB5.
Definition PREV_TRACK : Z := 0xB6.

(** [MediaControl.__init__]; [HID_AVAILABLE] tells whether the import of
    [usb_hid] succeeded and [devices] is [usb_hid.devices]. *)
Definition new (HID_AVAILABLE : bool) (devices : list Device) : MediaControl :=
  if HID_AVAILABLE then
    match devices with
    | [] => mkMediaControl false None []
    | first :: _ =>
        match List.find (fun device => usage_page device =? 0x0C) devices with
        | Some device => mkMediaControl true (Some device) []
        | None => mkMediaControl true (Some first) []
        end
    end
  else mkMediaControl false None [].

Definition record_event (e : event) : M MediaControl unit :=
  modify (fun self => mkMediaControl (enabled self) (keyboard self) (log self ++ [e])).

(** [time.sleep(0.05)] *)
Definition sleep_50ms : M MediaControl unit := record_event (EvSleep 50).

(** [self.keyboard.<name>(report)]: [AttributeError] when the device has
    no such attribute; otherwise the call is made and may itself raise. *)
Definition call_primitive (name : Device -> option primitive)
    (ev : list Z -> event) (report : list Z) : M MediaControl unit :=
  self <- get ;;
  match keyboard self with
  | None => raise AttributeError
  | Some device =>
      match name device with
      | None => raise AttributeError
      | Some f =>
          record_event (ev report) ;;;
          match f (log self) report with
          | None => ret tt
          | Some e => raise e
          end
      end
  end.

Definition report_of (code : Z) : list Z :=
  [Z.land code 0xFF; Z.land (Z.shiftr code 8) 0xFF; 0].

Definition _send_media_command (code : Z) : M MediaControl unit :=
  self <- get ;;
  if negb (enabled self) || negb (bool_decide (is_Some (keyboard self)))
  then ret tt
  else
    let report := report_of code in
    try_except
      (lift (bytes report) ;;;
       call_primitive send EvSend report ;;;
       sleep_50ms ;;;
       call_primitive send EvSend [0; 0; 0])
      Exception
      (fun e =>
         if is_AttributeError e then
           try_except
             (call_primitive write EvWrite report ;;;
              sleep_50ms ;;;
              call_primitive write EvWrite [0; 0; 0])
             Exception
             (fun _ => ret tt)
         else ret tt).

(** The body shared by the six public methods, which differ in the code
    they send (and in what they print). *)
Definition send_action (code : Z) : M MediaControl bool :=
  self <- get ;;
  if negb (enabled self) then ret false
  else
    try_except
      (_send_media_command code ;;; ret true)
      Exception
      (fun _ => ret false).

Definition volume_up : M MediaControl bool := send_action VOLUME_UP.
Definition volume_down : M MediaControl bool := send_action VOLUME_DOWN.
Definition volume_mute : M MediaControl bool := send_action VOLUME_MUTE.
Definition play_pause : M MediaControl bool := send_action PLAY_PAUSE.
Definition next_track : M MediaControl bool := send_action NEXT_TRACK.
Definition prev_track : M MediaControl bool := send_action PREV_TRACK.

(** Three consumer-page devices to run the dispatcher on: one whose
    [send] always returns, one that has only a [write], which always
    returns, and one that has neither primitive. *)
Definition sending_device : Device :=
  mkDevice 0x0C (Some (fun _ _ => None)) None.

Definition write_only_device : Device :=
  mkDevice 0x0C None (Some (fun _ _ => None)).

Definition bare_device : Device :=
  mkDevice 0x0C None None.

(** A device whose [send] raises [OSError] and which has no [write]. *)
Definition failing_device : Device :=
  mkDevice 0x0C (Some (fun _ _ => Some OSError)) None.

End Hid.

(** ** main.py *)

Module Main.
Import Py.
Local Open Scope py_scope.

(** *** class SwitchHandler *)

Section WithWorld.
Context {W : Type}.

Record SwitchHandler : Type := mkSwitchHandler {
  pins : gmap string Z;
  last_press_time : gmap string Z;
  press_callbacks : gmap string (string -> M W unit);
  (** iterated by [get_active_switches], hence ordered *)
  states : list (string * bool)
}.

Definition set_last_press_time (m : gmap string Z) (self : SwitchHandler)
    : SwitchHandler :=
  mkSwitchHandler (pins self) m (press_callbacks self) (states self).

Definition set_press_callbacks (m : gmap string (string -> M W unit))
    (self : SwitchHandler) : SwitchHandler :=
  mkSwitchHandler (pins self) (last_press_time self) m (states self).

Definition set_states (l : list (string * bool)) (self : SwitchHandler)
    : SwitchHandler :=
  mkSwitchHandler (pins self) (last_press_time self) (press_callbacks self) l.

(** [SwitchHandler.__init__] *)
Definition SwitchHandler_new : SwitchHandler :=
  fold_left
    (fun self '(name, pin_num) =>
       mkSwitchHandler
         (<[name := pin_num]> (pins self))
         (<[name := 0]> (last_press_time self))
         (press_callbacks self)
         (dict_set name false (states self)))
    Pins.SWITCH_PINS
    (mkSwitchHandler ∅ ∅ ∅ []).

(** [_handle_switch_press]; [current_time] is [time.ticks_ms()]. *)
Definition _handle_switch_press (switch_name : string) (current_time : Z)
    : M (SwitchHandler * W) unit :=
  self <- gets fst ;;
  last <- lift (match last_press_time self !! switch_name with
                | Some t => Ok t
                | None => Raise KeyError
                end) ;;
  if current_time - last <? Pins.DEBOUNCE_TIME
  then ret tt
  else
    on_fst (modify (fun self =>
      set_last_press_time (<[switch_name := current_time]> (last_press_time self)) self)) ;;;
    on_fst (modify (fun self =>
      set_states (dict_set switch_name true (states self)) self)) ;;;
    self <- gets fst ;;
    match press_callbacks self !! switch_name with
    | Some cb => on_snd (cb switch_name)
    | None => ret tt
    end.

(** The handler object after an accepted press of [name] at [now]. *)
Definition pressed (name : string) (now : Z) (self : SwitchHandler) : SwitchHandler :=
  set_states (dict_set name true (states self))
    (set_last_press_time (<[name := now]> (last_press_time self)) self).

Definition register_callback (switch_name : string) (callback : string -> M W unit)
    (self : SwitchHandler) : SwitchHandler :=
  match pins self !! switch_name with
  | Some _ => set_press_callbacks (<[switch_name := callback]> (press_callbacks self)) self
  | None => self
  end.

Definition get_active_switches (self : SwitchHandler) : list string :=
  map fst (List.filter (fun item => snd item) (states self)).

Definition reset_states (self : SwitchHandler) : SwitchHandler :=
  fold_left
    (fun self name => set_states (dict_set name false (states self)) self)
    (map fst (states self))
    self.

End WithWorld.
Arguments SwitchHandler W : clear implicits.

(** *** The module globals and the callbacks *)

Record Globals : Type := mkGlobals {
  display : option Display.Display;
  media_control : option Hid.MediaControl;
  encoder_value : Z;
  last_display_update : Z
}.

Definition set_display (d : option Display.Display) (g : Globals) : Globals :=
  mkGlobals d (media_control g) (encoder_value g) (last_display_update g).

Definition set_media_control (m : option Hid.MediaControl) (g : Globals) : Globals :=
  mkGlobals (display g) m (encoder_value g) (last_display_update g).

Definition set_encoder_value (v : Z) (g : Globals) : Globals :=
  mkGlobals (display g) (media_control g) v (last_display_update g).

Definition set_last_display_update (t : Z) (g : Globals) : Globals :=
  mkGlobals (display g) (media_control g) (encoder_value g) t.

(** [display.<method>(...)] *)
Definition with_display {A} (m : M Display.Display A) : M Globals A :=
  fun g =>
    match display g with
    | Some d => let '(r, d') := m d in (r, set_display (Some d') g)
    | None => (Raise AttributeError, g)
    end.

(** [media_control.<method>(...)] *)
Definition with_media_control {A} (m : M Hid.MediaControl A) : M Globals A :=
  fun g =>
    match media_control g with
    | Some mc => let '(r, mc') := m mc in (r, set_media_control (Some mc') g)
    | None => (Raise AttributeError, g)
    end.

(** [display and display.initialized] *)
Definition display_ready (g : Globals) : bool :=
  match display g with
  | Some d => Display.initialized d
  | None => false
  end.

(** [media_control and media_control.enabled] *)
Definition media_ready (g : Globals) : bool :=
  match media_control g with
  | Some mc => Hid.enabled mc
  | None => false
  end.

Section WithScreens.
(** The three screens of class [Display] that the main module draws.
    Each is a method of the display object and of nothing else. *)
Variable show_welcome : M Display.Display unit.
Variable show_status : Z -> list string -> M Display.Display unit.
Variable show_key_press : string -> M Display.Display unit.

Definition on_switch_press (switch_name : string) : M Globals unit :=
  g <- get ;;
  if display_ready g then with_display (show_key_press switch_name)
  else ret tt.

Definition on_encoder_rotate (direction : Z) : M Globals unit :=
  modify (fun g => set_encoder_value (encoder_value g + direction) g) ;;;
  g <- get ;;
  if media_ready g then
    if direction >? 0 then
      with_media_control Hid.volume_up ;;; ret tt
    else
      with_media_control Hid.volume_down ;;; ret tt
  else ret tt.

Definition on_encoder_button : M Globals unit :=
  modify (set_encoder_value 0).

(** *** The running system

    The three callbacks above are the ones [main] registers. They read
    and write the globals [display], [media_control] and [encoder_value]
    and never the handler objects, so the handlers hold them as methods
    of [Globals]. *)

Record System : Type := mkSystem {
  switch_handler : SwitchHandler Globals;
  encoder : Encoder.EC11Encoder Globals;
  globals : Globals
}.

Definition on_globals {A} (m : M Globals A) : M System A :=
  fun st =>
    let '(r, g') := m (globals st) in
    (r, mkSystem (switch_handler st) (encoder st) g').

Definition set_switch_handler (sh : SwitchHandler Globals) (st : System) : System :=
  mkSystem sh (encoder st) (globals st).

(** [update_display]; [current_time] is [time.ticks_ms()]. *)
Definition update_display (current_time : Z) : M System unit :=
  st <- get ;;
  if current_time - last_display_update (globals st) >? 500 then
    on_globals (modify (set_last_display_update current_time)) ;;;
    st <- get ;;
    if display_ready (globals st) then
      let active_keys := get_active_switches (switch_handler st) in
      on_globals (with_display
        (show_status (encoder_value (globals st)) active_keys)) ;;;
      modify (fun st => set_switch_handler (reset_states (switch_handler st)) st)
    else ret tt
  else ret tt.

(** The state [main] reaches before its loop: [init_media_control],
    [init_display], [init_switches(on_switch_press)] and
    [init_encoder(on_encoder_rotate, on_encoder_button)]. *)
Definition main_init (HID_AVAILABLE : bool) (devices : list Hid.Device)
    (clk dt sw : Z) : result unit * System :=
  let mc := Hid.new HID_AVAILABLE devices in
  let d := Display.Display_new in
  let '(r, d') := show_welcome d in
  let sh := fold_left
              (fun sh name => register_callback name on_switch_press sh)
              (map fst Pins.SWITCH_PINS) SwitchHandler_new in
  let enc := Encoder.new (Some on_encoder_rotate) (Some on_encoder_button) clk dt sw in
  (r, mkSystem sh enc (mkGlobals (Some d') (Some mc) 0 0)).

(** What the running system reacts to: the three kinds of pin
    interrupt and one turn of the polling loop. A reaction is followed to
    its end; an exception that leaves an interrupt handler is dropped
    with the state as the handler left it. *)
Inductive input : Type :=
| IrqSwitch (switch_name : string) (current_time : Z)
| IrqRotation (current_time clk_val dt_val : Z)
| IrqButton (current_time sw_val : Z)
| Poll (current_time : Z).

Definition is_irq (i : input) : bool :=
  match i with Poll _ => false | _ => true end.

Definition react (i : input) (st : System) : result unit * System :=
  match i with
  | IrqSwitch name t =>
      let '(r, (sh, g)) := _handle_switch_press name t (switch_handler st, globals st) in
      (r, mkSystem sh (encoder st) g)
  | IrqRotation t c d =>
      let '(r, (enc, g)) := Encoder._handle_rotation t c d (encoder st, globals st) in
      (r, mkSystem (switch_handler st) enc g)
  | IrqButton t s =>
      let '(r, (enc, g)) := Encoder._handle_button t s (encoder st, globals st) in
      (r, mkSystem (switch_handler st) enc g)
  | Poll t => update_display t st
  end.

(** The active flag of a switch, as [self.states[name]] holds it. *)
Definition flag (name : string) (st : System) : option bool :=
  dict_get name (states (switch_handler st)).

(** The callbacks are the ones [main] registers. *)
Definition wired (st : System) : Prop :=
  Encoder.callback_rotate (encoder st) = Some on_encoder_rotate
  /\ Encoder.callback_button (encoder st) = Some on_encoder_button
  /\ (forall name cb,
        press_callbacks (switch_handler st) !! name = Some cb -> cb = on_switch_press).

(** The system after a sequence of reactions, results dropped. *)
Definition run_inputs (inputs : list input) (st : System) : System :=
  fold_left (fun st i => snd (react i st)) inputs st.

End WithScreens.

(** The system [main] starts its loop with, for screens that only
    flush the panel, a HID device that works and idle encoder pins. *)
Definition flush_screen : M Display.Display unit := Display.with_oled Display.show.

Definition demo_system : System :=
  snd (main_init flush_screen (fun _ => flush_screen)
         true [Hid.sending_device] 1 1 1).

End Main.

(** * Properties *)

(** ** The display driver *)

Section DisplayFacts.
Import Py Display.
Local Open Scope py_scope.

Lemma write_cmd_int (c : Z) (self : SSD1306) :
  is_byte c = true ->
  write_cmd (CmdInt c) self = (Ok tt, push_frames [(addr self, [0x00; c])] self).
Proof.
  intros Hc. unfold write_cmd, bind, lift, bytes. simpl. rewrite Hc. reflexivity.
Qed.

Lemma push_frames_app (fs gs : list frame) (self : SSD1306) :
  push_frames gs (push_frames fs self) = push_frames (fs ++ gs) self.
Proof. unfold push_frames. simpl. now rewrite <- app_assoc. Qed.

Lemma push_frames_nil (self : SSD1306) : push_frames [] self = self.
Proof. destruct self. unfold push_frames. simpl. now rewrite app_nil_r. Qed.

Lemma show_page_frames (p : Z) (self : SSD1306) :
  is_byte (Z.lor 0xB0 p) = true ->
  show_page p self = (Ok tt, push_frames (page_frames self p) self).
Proof.
  intros Hp. unfold show_page, bind.
  rewrite (write_cmd_int _ _ Hp).
  rewrite write_cmd_int by reflexivity.
  rewrite write_cmd_int by reflexivity.
  unfold get, write_data, i2c_writeto, modify. simpl.
  unfold push_frames, page_frames. simpl.
  repeat rewrite <- app_assoc. reflexivity.
Qed.

Lemma page_frames_push (fs : list frame) (self : SSD1306) (p : Z) :
  page_frames (push_frames fs self) p = page_frames self p.
Proof. reflexivity. Qed.

Lemma for_each_show_page (ps : list Z) (self : SSD1306) :
  Forall (fun p => is_byte (Z.lor 0xB0 p) = true) ps ->
  for_each ps show_page self
  = (Ok tt, push_frames (flat_map (page_frames self) ps) self).
Proof.
  intros Hps. revert self. induction Hps as [|p ps Hp _ IH]; intros self.
  - simpl. unfold ret. now rewrite push_frames_nil.
  - simpl. unfold bind. rewrite (show_page_frames _ _ Hp).
    rewrite IH. rewrite push_frames_app. reflexivity.
Qed.

Lemma range_8 : range 8 = [0; 1; 2; 3; 4; 5; 6; 7].
Proof. reflexivity. Qed.

Lemma show_8_pages (self : SSD1306) :
  pages self = 8 ->
  show self
  = (Ok tt, push_frames (flat_map (page_frames self) [0; 1; 2; 3; 4; 5; 6; 7]) self).
Proof.
  intros H8. unfold show, bind, get. rewrite H8, range_8.
  apply for_each_show_page. repeat constructor.
Qed.

Lemma slice_page (b : list Z) (w p : Z) :
  0 <= w -> 0 <= p -> p * w + w <= Z.of_nat (length b) ->
  slice b (p * w) (p * w + w) = take (Z.to_nat w) (drop (Z.to_nat (p * w)) b)
  /\ length (slice b (p * w) (p * w + w)) = Z.to_nat w.
Proof.
  intros Hw Hp Hlen.
  assert (Hs : slice b (p * w) (p * w + w)
               = take (Z.to_nat w) (drop (Z.to_nat (p * w)) b)).
  { unfold slice, slice_bound.
    assert (0 <= p * w) by nia.
    destruct (Z.ltb_spec (p * w) 0); [lia|].
    destruct (Z.ltb_spec (p * w + w) 0); [lia|].
    rewrite !Z.min_l by lia.
    replace (Z.to_nat (p * w + w) - Z.to_nat (p * w))%nat with (Z.to_nat w) by lia.
    reflexivity. }
  split; [exact Hs|].
  rewrite Hs, length_take, length_drop. nia.
Qed.

(** *** Bytes and single bits *)

Lemma byte_of_low_bits (v : Z) :
  0 <= v -> (forall n, 8 <= n -> Z.testbit v n = false) -> v < 256.
Proof.
  intros Hv Hhigh.
  assert (Hmod : v mod 2 ^ 8 = v).
  { apply Z.bits_inj'. intros n Hn.
    destruct (Z.lt_ge_cases n 8) as [Hlt|Hge].
    - now rewrite Z.mod_pow2_bits_low.
    - rewrite Z.mod_pow2_bits_high by lia. symmetry. now apply Hhigh. }
  rewrite <- Hmod. apply Z.mod_pos_bound. reflexivity.
Qed.

Lemma low_bits_of_byte (v n : Z) :
  0 <= v < 256 -> 8 <= n -> Z.testbit v n = false.
Proof.
  intros Hv Hn. rewrite <- (Z.mod_small v (2 ^ 8)) by (change (2 ^ 8) with 256; lia).
  apply Z.mod_pow2_bits_high. lia.
Qed.

Lemma testbit_one_shifted (bit n : Z) :
  0 <= bit -> Z.testbit (Z.shiftl 1 bit) n = (bit =? n).
Proof. intros Hb. rewrite Z.shiftl_1_l. now apply Z.pow2_bits_eqb. Qed.

Lemma set_bit_is_byte (old bit : Z) :
  0 <= old < 256 -> 0 <= bit < 8 ->
  is_byte (Z.lor old (Z.shiftl 1 bit)) = true.
Proof.
  intros Ho Hb. unfold is_byte.
  assert (H0 : 0 <= Z.lor old (Z.shiftl 1 bit)).
  { apply Z.lor_nonneg. split; [lia|]. apply Z.shiftl_nonneg. lia. }
  assert (H1 : Z.lor old (Z.shiftl 1 bit) < 256).
  { apply byte_of_low_bits; [exact H0|]. intros n Hn.
    rewrite Z.lor_spec, testbit_one_shifted by lia.
    rewrite (low_bits_of_byte old n) by lia.
    destruct (Z.eqb_spec bit n); [lia | reflexivity]. }
  apply andb_true_intro. split; [apply Z.leb_le | apply Z.ltb_lt]; lia.
Qed.

Lemma clear_bit_is_byte (old bit : Z) :
  0 <= old < 256 -> 0 <= bit ->
  is_byte (Z.land old (Z.lnot (Z.shiftl 1 bit))) = true.
Proof.
  intros Ho Hb. unfold is_byte.
  assert (H0 : 0 <= Z.land old (Z.lnot (Z.shiftl 1 bit))).
  { apply Z.land_nonneg. left. lia. }
  assert (H1 : Z.land old (Z.lnot (Z.shiftl 1 bit)) < 256).
  { apply byte_of_low_bits; [exact H0|]. intros n Hn.
    rewrite Z.land_spec, (low_bits_of_byte old n) by lia. reflexivity. }
  apply andb_true_intro. split; [apply Z.leb_le | apply Z.ltb_lt]; lia.
Qed.

Lemma clear_after_set (old m : Z) :
  Z.land (Z.lor old m) (Z.lnot m) = Z.land old (Z.lnot m).
Proof.
  apply Z.bits_inj'. intros n Hn.
  rewrite !Z.land_spec, Z.lor_spec, Z.lnot_spec by exact Hn.
  destruct (Z.testbit old n), (Z.testbit m n); reflexivity.
Qed.

Lemma clear_of_unset (old bit : Z) :
  0 <= bit -> Z.testbit old bit = false ->
  Z.land old (Z.lnot (Z.shiftl 1 bit)) = old.
Proof.
  intros Hb Hoff. apply Z.bits_inj'. intros n Hn.
  rewrite Z.land_spec, Z.lnot_spec, testbit_one_shifted by lia.
  destruct (Z.eqb_spec bit n) as [->|_].
  - rewrite Hoff. reflexivity.
  - apply andb_true_r.
Qed.

Lemma clear_of_set_differs (old bit : Z) :
  0 <= bit -> Z.testbit old bit = true ->
  Z.land old (Z.lnot (Z.shiftl 1 bit)) <> old.
Proof.
  intros Hb Hon Heq.
  assert (H : Z.testbit (Z.land old (Z.lnot (Z.shiftl 1 bit))) bit = true)
    by (rewrite Heq; exact Hon).
  rewrite Z.land_spec, Z.lnot_spec, testbit_one_shifted, Z.eqb_refl in H by lia.
  rewrite andb_false_r in H. discriminate.
Qed.

(** *** [pixel] on an in-range coordinate *)

Lemma pixel_index_in_buffer (self : SSD1306) (x y : Z) :
  well_formed self -> height self mod 8 = 0 ->
  0 <= x < width self -> 0 <= y < height self ->
  0 <= y / 8 * width self + x < Z.of_nat (length (buf self)).
Proof.
  intros [Hp Hl] H8 Hx Hy. rewrite Hl, Hp.
  assert (Hh : height self = 8 * (height self / 8))
    by (rewrite (Z.div_mod (height self) 8) at 1; lia).
  assert (0 <= y / 8) by (apply Z.div_pos; lia).
  assert (y / 8 < height self / 8)
    by (apply Z.div_lt_upper_bound; lia).
  nia.
Qed.

Lemma pixel_in_range (self : SSD1306) (x y state : Z) :
  well_formed self -> bytes_ok self -> height self mod 8 = 0 ->
  0 <= x < width self -> 0 <= y < height self ->
  exists old,
    buf self !! pixel_index self x y = Some old /\ 0 <= old < 256 /\
    pixel x y state self
    = (Ok tt,
       set_buf (<[pixel_index self x y :=
                   if truthy state then Z.lor old (Z.shiftl 1 (y mod 8))
                   else Z.land old (Z.lnot (Z.shiftl 1 (y mod 8)))]> (buf self)) self).
Proof.
  intros Hwf Hb H8 Hx Hy.
  pose proof (pixel_index_in_buffer self x y Hwf H8 Hx Hy) as Hi.
  destruct (lookup_lt_is_Some_2 (buf self) (pixel_index self x y)) as [old Hold].
  { unfold pixel_index. lia. }
  assert (Hrange : 0 <= old < 256).
  { unfold bytes_ok in Hb. rewrite Forall_forall in Hb. apply Hb.
    eapply list_elem_of_lookup_2. exact Hold. }
  assert (Hbit : 0 <= y mod 8 < 8) by (apply Z.mod_pos_bound; lia).
  exists old. split; [exact Hold|]. split; [exact Hrange|].
  assert (Hidx : index (length (buf self)) (y / 8 * width self + x)
                 = Ok (pixel_index self x y)).
  { unfold index.
    destruct (Z.leb_spec 0 (y / 8 * width self + x)); [|lia].
    destruct (Z.ltb_spec (y / 8 * width self + x) (Z.of_nat (length (buf self)))); [|lia].
    reflexivity. }
  unfold pixel, bind, get.
  destruct (Z.leb_spec 0 x); [|lia].
  destruct (Z.ltb_spec x (width self)); [|lia].
  destruct (Z.leb_spec 0 y); [|lia].
  destruct (Z.ltb_spec y (height self)); [|lia].
  cbn [andb negb].
  destruct (truthy state); unfold lift, getitem, setitem; rewrite Hidx, Hold.
  - rewrite set_bit_is_byte by assumption. reflexivity.
  - rewrite clear_bit_is_byte by lia. reflexivity.
Qed.

Lemma fresh_panel_buf : buf fresh_panel = repeat 0 1024%nat.
Proof. reflexivity. Qed.

Lemma fresh_panel_well_formed : well_formed fresh_panel /\ bytes_ok fresh_panel.
Proof.
  split; [split; reflexivity|].
  unfold bytes_ok. rewrite fresh_panel_buf. apply List.Forall_forall.
  intros b Hb. apply repeat_spec in Hb. lia.
Qed.

(** *** Flush *)

(** C1: on a 128x64 display, whatever the framebuffer holds, [show]
    succeeds and writes, for the pages 0 to 7 in ascending order, the
    command frames [0x00, 0xB0 | p], [0x00, 0x00], [0x00, 0x10] and then
    one data frame: 0x40 followed by the 128 buffer bytes of page [p]. *)
Theorem show_flush_sequence (self : SSD1306) :
  width self = 128 -> height self = 64 -> well_formed self ->
  show self
  = (Ok tt,
     push_frames
       (flat_map
          (fun p => [ (addr self, [0x00; Z.lor 0xB0 p]);
                      (addr self, [0x00; 0x00]);
                      (addr self, [0x00; 0x10]);
                      (addr self, 0x40 :: take 128 (drop (Z.to_nat (p * 128)) (buf self))) ])
          [0; 1; 2; 3; 4; 5; 6; 7])
       self)
  /\ Forall (fun p => length (take 128 (drop (Z.to_nat (p * 128)) (buf self))) = 128%nat)
       [0; 1; 2; 3; 4; 5; 6; 7].
Proof.
  intros Hw Hh [Hp Hl]. rewrite Hh in Hp. change (64 / 8) with 8 in Hp.
  rewrite Hp, Hw in Hl.
  assert (Hslice : forall p, 0 <= p < 8 ->
    slice (buf self) (p * 128) (p * 128 + 128)
    = take 128 (drop (Z.to_nat (p * 128)) (buf self))
    /\ length (slice (buf self) (p * 128) (p * 128 + 128)) = 128%nat).
  { intros p Hp8. apply (slice_page (buf self) 128 p); lia. }
  split.
  - rewrite (show_8_pages self Hp). unfold page_frames.
    cbn [flat_map app]. rewrite Hw.
    rewrite !(fun p H => proj1 (Hslice p H)) by lia. reflexivity.
  - repeat constructor;
      match goal with
      | |- length (take 128 (drop (Z.to_nat (?p * 128)) _)) = _ =>
          rewrite <- (proj1 (Hslice p ltac:(lia))); apply (Hslice p); lia
      end.
Qed.

Lemma show_flush_sequence_witness :
  width fresh_panel = 128 /\ height fresh_panel = 64 /\ well_formed fresh_panel /\
  i2c (snd (show fresh_panel))
  = i2c fresh_panel
    ++ flat_map
         (fun p => [ (0x3C, [0x00; Z.lor 0xB0 p]); (0x3C, [0x00; 0x00]);
                     (0x3C, [0x00; 0x10]);
                     (0x3C, 0x40 :: take 128 (drop (Z.to_nat (p * 128)) (buf fresh_panel))) ])
         [0; 1; 2; 3; 4; 5; 6; 7].
Proof.
  split; [reflexivity|]. split; [reflexivity|].
  split; [apply fresh_panel_well_formed|].
  rewrite (proj1 (show_flush_sequence fresh_panel eq_refl eq_refl
                    (proj1 fresh_panel_well_formed))).
  reflexivity.
Defined.

(** *** Initialisation *)

(** C2: [init_display] succeeds and writes one command frame whose
    bytes after the control byte 0x00 are exactly the 25 initialisation
    bytes in their order; the constructor writes nothing else, so on
    the panel of pins.py this frame precedes the frames of the first
    flush. *)
Theorem init_display_sequence :
  (forall self : SSD1306,
     init_display self
     = (Ok tt,
        push_frames
          [ (addr self,
             0x00 :: [ 0xAE; 0xD5; 0x80; 0xA8; 0x3F; 0xD3; 0x00; 0x40; 0x8D; 0x14;
                       0x20; 0x00; 0xA1; 0xC8; 0xDA; 0x12; 0x81; 0xCF; 0xD9; 0xF1;
                       0xDB; 0x40; 0xA4; 0xA6; 0xAF ]) ]
          self))
  /\ i2c fresh_panel
     = [ (0x3C,
          0x00 :: [ 0xAE; 0xD5; 0x80; 0xA8; 0x3F; 0xD3; 0x00; 0x40; 0x8D; 0x14;
                    0x20; 0x00; 0xA1; 0xC8; 0xDA; 0x12; 0x81; 0xCF; 0xD9; 0xF1;
                    0xDB; 0x40; 0xA4; 0xA6; 0xAF ]) ]
  /\ i2c (snd (show fresh_panel))
     = (0x3C,
        0x00 :: [ 0xAE; 0xD5; 0x80; 0xA8; 0x3F; 0xD3; 0x00; 0x40; 0x8D; 0x14;
                  0x20; 0x00; 0xA1; 0xC8; 0xDA; 0x12; 0x81; 0xCF; 0xD9; 0xF1;
                  0xDB; 0x40; 0xA4; 0xA6; 0xAF ])
       :: flat_map (page_frames fresh_panel) [0; 1; 2; 3; 4; 5; 6; 7].
Proof.
  split; [|split].
  - intros self. reflexivity.
  - reflexivity.
  - rewrite (show_8_pages fresh_panel eq_refl). reflexivity.
Qed.

(** *** Clear and fill *)

Lemma clear_is_show (self : SSD1306) :
  clear self = show (set_buf (repeat 0 (length (buf self))) self).
Proof.
  unfold clear, bind, get, lift, bytearray.
  destruct (Z.ltb_spec (Z.of_nat (length (buf self))) 0); [lia|].
  rewrite Nat2Z.id. reflexivity.
Qed.

Lemma forallb_repeat (b : Z) (n : nat) :
  is_byte b = true -> forallb is_byte (repeat b n) = true.
Proof. intros Hb. induction n as [|n IH]; simpl; [reflexivity | now rewrite Hb]. Qed.

Lemma fill_is_show (color : Z) (self : SSD1306) :
  fill color self
  = show (set_buf (repeat (if color =? 0 then 0x00 else 0xFF) (length (buf self))) self).
Proof.
  unfold fill, bind, get, lift, bytes, truthy.
  destruct (color =? 0); cbn [negb]; rewrite forallb_repeat by reflexivity; reflexivity.
Qed.

(** C10: [clear] and [fill] store the new buffer (all 0x00, or all
    0xFF for a non-zero colour and all 0x00 for colour 0) and then run
    [show] in the same call; on a display of 8 pages that is 32 more
    frames on the bus, the 8 data frames carrying the new buffer. *)
Theorem clear_fill_flush (self : SSD1306) (color : Z) :
  (clear self = show (set_buf (repeat 0 (length (buf self))) self)
   /\ fill color self
      = show (set_buf (repeat (if color =? 0 then 0x00 else 0xFF) (length (buf self))) self))
  /\ (pages self = 8 ->
      let cleared := set_buf (repeat 0 (length (buf self))) self in
      let filled :=
        set_buf (repeat (if color =? 0 then 0x00 else 0xFF) (length (buf self))) self in
      clear self
      = (Ok tt, push_frames (flat_map (page_frames cleared) [0; 1; 2; 3; 4; 5; 6; 7]) cleared)
      /\ fill color self
         = (Ok tt, push_frames (flat_map (page_frames filled) [0; 1; 2; 3; 4; 5; 6; 7]) filled)
      /\ length (i2c (snd (clear self))) = (length (i2c self) + 32)%nat
      /\ length (i2c (snd (fill color self))) = (length (i2c self) + 32)%nat).
Proof.
  split; [split; [apply clear_is_show | apply fill_is_show]|].
  intros H8 cleared filled.
  assert (Hc : clear self
               = (Ok tt, push_frames (flat_map (page_frames cleared) [0; 1; 2; 3; 4; 5; 6; 7])
                           cleared))
    by (rewrite clear_is_show; apply show_8_pages; exact H8).
  assert (Hf : fill color self
               = (Ok tt, push_frames (flat_map (page_frames filled) [0; 1; 2; 3; 4; 5; 6; 7])
                           filled))
    by (rewrite fill_is_show; apply show_8_pages; exact H8).
  split; [exact Hc|]. split; [exact Hf|].
  rewrite Hc, Hf. cbn [snd push_frames i2c]. rewrite !length_app.
  split; reflexivity.
Qed.

Lemma clear_fill_flush_witness :
  pages fresh_panel = 8 /\
  length (i2c (snd (clear fresh_panel))) = (length (i2c fresh_panel) + 32)%nat /\
  length (i2c (snd (fill 1 fresh_panel))) = (length (i2c fresh_panel) + 32)%nat.
Proof.
  split; [reflexivity|].
  destruct (proj2 (clear_fill_flush fresh_panel 1) eq_refl) as (_ & _ & Hc & Hf).
  split; [exact Hc | exact Hf].
Defined.

(** *** Set then clear *)

(** C5, as amended: on a display whose height is a multiple of 8, for
    an in-range [(x, y)], [pixel(x,y,1)] followed by [pixel(x,y,0)]
    succeeds and leaves the byte of that pixel equal to its value
    before the two calls with bit [y mod 8] cleared, every other byte
    and the bus untouched; so the byte is back at its value exactly
    when the pixel was off before. *)
Theorem pixel_set_then_clear (self : SSD1306) (x y : Z) :
  well_formed self -> bytes_ok self -> height self mod 8 = 0 ->
  0 <= x < width self -> 0 <= y < height self ->
  exists old s1 s2,
    buf self !! pixel_index self x y = Some old
    /\ pixel x y 1 self = (Ok tt, s1)
    /\ pixel x y 0 s1 = (Ok tt, s2)
    /\ s2 = set_buf (<[pixel_index self x y :=
                        Z.land old (Z.lnot (Z.shiftl 1 (y mod 8)))]> (buf self)) self
    /\ (Z.testbit old (y mod 8) = false -> s2 = self)
    /\ (Z.testbit old (y mod 8) = true ->
        buf s2 !! pixel_index self x y <> buf self !! pixel_index self x y).
Proof.
  intros Hwf Hb H8 Hx Hy.
  assert (Hbit : 0 <= y mod 8 < 8) by (apply Z.mod_pos_bound; lia).
  destruct (pixel_in_range self x y 1 Hwf Hb H8 Hx Hy) as (old & Hold & Hrange & Hset).
  cbn [truthy Z.eqb negb] in Hset.
  set (i := pixel_index self x y) in *.
  set (s1 := set_buf (<[i := Z.lor old (Z.shiftl 1 (y mod 8))]> (buf self)) self) in *.
  assert (Hi : (i < length (buf self))%nat) by (eapply lookup_lt_Some; exact Hold).
  assert (Hwf1 : well_formed s1).
  { destruct Hwf as [Hp Hl]. split; [exact Hp|].
    unfold s1, set_buf. cbn [buf pages width]. rewrite length_insert. exact Hl. }
  assert (Hb1 : bytes_ok s1).
  { unfold bytes_ok, s1, set_buf. cbn [buf]. apply Forall_insert; [exact Hb|].
    pose proof (set_bit_is_byte old (y mod 8) Hrange Hbit) as Hs.
    unfold is_byte in Hs. apply andb_prop in Hs as [H1 H2].
    apply Z.leb_le in H1. apply Z.ltb_lt in H2. lia. }
  destruct (pixel_in_range s1 x y 0 Hwf1 Hb1 H8 Hx Hy) as (mid & Hmid & _ & Hclr).
  cbn [truthy Z.eqb negb] in Hclr.
  change (pixel_index s1 x y) with i in *.
  assert (Hmid' : mid = Z.lor old (Z.shiftl 1 (y mod 8))).
  { unfold s1, set_buf in Hmid. cbn [buf] in Hmid.
    rewrite list_lookup_insert_eq in Hmid by exact Hi. congruence. }
  subst mid. rewrite clear_after_set in Hclr.
  assert (Hs2 : set_buf (<[i := Z.land old (Z.lnot (Z.shiftl 1 (y mod 8)))]> (buf s1)) s1
                = set_buf (<[i := Z.land old (Z.lnot (Z.shiftl 1 (y mod 8)))]> (buf self)) self).
  { unfold s1, set_buf. cbn [buf width height addr pages i2c].
    rewrite list_insert_insert_eq. reflexivity. }
  rewrite Hs2 in Hclr.
  exists old, s1, (set_buf (<[i := Z.land old (Z.lnot (Z.shiftl 1 (y mod 8)))]> (buf self)) self).
  split; [exact Hold|]. split; [exact Hset|]. split; [exact Hclr|].
  split; [reflexivity|]. split.
  - intros Hoff. rewrite clear_of_unset by (lia || exact Hoff).
    rewrite list_insert_id by exact Hold. destruct self; reflexivity.
  - intros Hon. cbn [set_buf buf]. rewrite list_lookup_insert_eq by exact Hi.
    rewrite Hold. intros Heq. injection Heq as Heq.
    exact (clear_of_set_differs old (y mod 8) (proj1 Hbit) Hon Heq).
Qed.

Lemma pixel_set_then_clear_witness :
  well_formed fresh_panel /\ bytes_ok fresh_panel /\ height fresh_panel mod 8 = 0 /\
  exists old s1 s2,
    buf fresh_panel !! pixel_index fresh_panel 3 10 = Some old
    /\ pixel 3 10 1 fresh_panel = (Ok tt, s1)
    /\ pixel 3 10 0 s1 = (Ok tt, s2)
    /\ s2 = set_buf (<[pixel_index fresh_panel 3 10 :=
                        Z.land old (Z.lnot (Z.shiftl 1 (10 mod 8)))]> (buf fresh_panel))
                    fresh_panel
    /\ (Z.testbit old (10 mod 8) = false -> s2 = fresh_panel)
    /\ (Z.testbit old (10 mod 8) = true ->
        buf s2 !! pixel_index fresh_panel 3 10
        <> buf fresh_panel !! pixel_index fresh_panel 3 10).
Proof.
  split; [apply fresh_panel_well_formed|].
  split; [apply fresh_panel_well_formed|].
  split; [reflexivity|].
  apply (pixel_set_then_clear fresh_panel 3 10).
  - apply fresh_panel_well_formed.
  - apply fresh_panel_well_formed.
  - reflexivity.
  - split; [lia | reflexivity].
  - split; [lia | reflexivity].
Defined.

(** C5 as first stated fails: with the top-left pixel lit beforehand,
    its byte is 1 before [pixel(0,0,1); pixel(0,0,0)] and 0 after. *)
Lemma pixel_roundtrip_counterexample :
  well_formed lit_panel /\ bytes_ok lit_panel /\
  0 <= 0 < width lit_panel /\ 0 <= 0 < height lit_panel /\
  exists s1 s2,
    pixel 0 0 1 lit_panel = (Ok tt, s1)
    /\ pixel 0 0 0 s1 = (Ok tt, s2)
    /\ buf lit_panel !! pixel_index lit_panel 0 0 = Some 1
    /\ buf s2 !! pixel_index lit_panel 0 0 = Some 0
    /\ buf s2 !! pixel_index lit_panel 0 0 <> buf lit_panel !! pixel_index lit_panel 0 0.
Proof.
  split; [split; reflexivity|].
  split.
  { unfold bytes_ok. apply Forall_insert; [apply fresh_panel_well_formed | lia]. }
  split; [split; [lia | reflexivity]|].
  split; [split; [lia | reflexivity]|].
  eexists _, _.
  split; [vm_compute; reflexivity|].
  split; [vm_compute; reflexivity|].
  split; [reflexivity|]. split; [reflexivity|].
  discriminate.
Qed.

End DisplayFacts.

(** ** The encoder *)

Section EncoderFacts.
Import Py Encoder.
Local Open Scope py_scope.
Context {W : Type}.
Implicit Types (self : EC11Encoder W) (w : W).

Lemma rotation_rejected self w (now clk dt : Z) :
  now - last_interrupt_time self < Pins.ENCODER_DEBOUNCE_TIME ->
  _handle_rotation now clk dt (self, w) = (Ok tt, (self, w)).
Proof.
  intros H. unfold _handle_rotation, bind, gets. cbn [fst].
  destruct (Z.ltb_spec (now - last_interrupt_time self) Pins.ENCODER_DEBOUNCE_TIME);
    [reflexivity | lia].
Qed.

(** The handler once the filter has let the edge through: the callback,
    if one is registered, runs once on a falling CLK edge, and the
    sampled levels are stored unless it raised. *)
Lemma rotation_accepted self w (now clk dt : Z) :
  Pins.ENCODER_DEBOUNCE_TIME <= now - last_interrupt_time self ->
  _handle_rotation now clk dt (self, w)
  = let stamped := set_last_interrupt_time now self in
    match (if negb (clk =? last_clk self) && (clk =? 0)
           then callback_rotate self else None) with
    | Some cb =>
        match cb (if dt =? 1 then 1 else -1) w with
        | (Ok _, w') => (Ok tt, (set_last_clk_dt clk dt stamped, w'))
        | (Raise e, w') => (Raise e, (stamped, w'))
        end
    | None => (Ok tt, (set_last_clk_dt clk dt stamped, w))
    end.
Proof.
  intros H. unfold _handle_rotation, bind, gets. cbn [fst].
  destruct (Z.ltb_spec (now - last_interrupt_time self) Pins.ENCODER_DEBOUNCE_TIME);
    [lia|].
  unfold call_rotate, on_fst, on_snd, modify, ret.
  cbn [fst snd set_last_interrupt_time last_clk callback_rotate].
  destruct (clk =? last_clk self); cbn [negb andb]; [reflexivity|].
  destruct (clk =? 0); [|reflexivity].
  destruct (callback_rotate self) as [cb|]; [|destruct (dt =? 1); reflexivity].
  destruct (dt =? 1).
  - cbn [fst snd]. destruct (cb 1 w) as [[[]|e] w']; reflexivity.
  - cbn [fst snd]. destruct (cb (-1) w) as [[[]|e] w']; reflexivity.
Qed.

Lemma button_rejected self w (now sw : Z) :
  now - button_press_time self < 50 ->
  _handle_button now sw (self, w) = (Ok tt, (self, w)).
Proof.
  intros H. unfold _handle_button, bind, gets. cbn [fst].
  destruct (Z.ltb_spec (now - button_press_time self) 50); [reflexivity | lia].
Qed.

Lemma button_accepted self w (now sw : Z) :
  50 <= now - button_press_time self ->
  _handle_button now sw (self, w)
  = if sw =? 0 then
      match callback_button self with
      | Some cb => (fst (cb w), (set_button_press_time now self, snd (cb w)))
      | None => (Ok tt, (set_button_press_time now self, w))
      end
    else (Ok tt, (set_button_press_time now self, w)).
Proof.
  intros H. unfold _handle_button, bind, gets. cbn [fst].
  destruct (Z.ltb_spec (now - button_press_time self) 50); [lia|].
  unfold on_fst, on_snd, modify, ret. cbn [fst snd set_button_press_time callback_button].
  destruct (sw =? 0); [|reflexivity].
  destruct (callback_button self) as [cb|]; [|reflexivity].
  cbn [fst snd]. destruct (cb w); reflexivity.
Qed.

End EncoderFacts.

(** ** The switch handler *)

Section SwitchFacts.
Import Py Main.
Local Open Scope py_scope.
Context {W : Type}.
Implicit Types (self : SwitchHandler W) (w : W).

Lemma switch_unknown self w (name : string) (now : Z) :
  last_press_time self !! name = None ->
  _handle_switch_press name now (self, w) = (Raise KeyError, (self, w)).
Proof.
  intros H. unfold _handle_switch_press, bind, gets, lift. cbn [fst].
  rewrite H. reflexivity.
Qed.

Lemma switch_rejected self w (name : string) (now last : Z) :
  last_press_time self !! name = Some last ->
  now - last < Pins.DEBOUNCE_TIME ->
  _handle_switch_press name now (self, w) = (Ok tt, (self, w)).
Proof.
  intros Hl H. unfold _handle_switch_press, bind, gets, lift. cbn [fst].
  rewrite Hl. destruct (Z.ltb_spec (now - last) Pins.DEBOUNCE_TIME); [reflexivity | lia].
Qed.

Lemma switch_accepted self w (name : string) (now last : Z) :
  last_press_time self !! name = Some last ->
  Pins.DEBOUNCE_TIME <= now - last ->
  _handle_switch_press name now (self, w)
  = match press_callbacks self !! name with
    | Some cb => (fst (cb name w), (pressed name now self, snd (cb name w)))
    | None => (Ok tt, (pressed name now self, w))
    end.
Proof.
  intros Hl H. unfold _handle_switch_press, bind, gets, lift. cbn [fst].
  rewrite Hl. destruct (Z.ltb_spec (now - last) Pins.DEBOUNCE_TIME); [lia|].
  unfold on_fst, on_snd, modify, ret, pressed.
  cbn [fst snd set_states set_last_press_time press_callbacks].
  destruct (press_callbacks self !! name) as [cb|]; [|reflexivity].
  cbn [fst snd]. destruct (cb name w); reflexivity.
Qed.

End SwitchFacts.

(** ** Debouncing and decoding *)

Section DebounceFacts.
Import Py Encoder Main.
Local Open Scope py_scope.
Context {W : Type}.

(** C3, as amended: each of the three interrupt handlers compares the
    plain integer difference [now - last] with its threshold; at or
    above it the edge is accepted and the stored tick becomes [now],
    below it the handler changes nothing. That difference is the
    modular one as long as the counter has not wrapped since the last
    accepted edge ([last <= now < period]). *)
Theorem debounce_plain_subtraction (enc : EC11Encoder W) (sh : SwitchHandler W)
    (w : W) (now clk dt sw last : Z) (name : string) :
  last_press_time sh !! name = Some last ->
  ((Pins.ENCODER_DEBOUNCE_TIME <= now - last_interrupt_time enc ->
    last_interrupt_time (fst (snd (_handle_rotation now clk dt (enc, w)))) = now)
   /\ (now - last_interrupt_time enc < Pins.ENCODER_DEBOUNCE_TIME ->
       _handle_rotation now clk dt (enc, w) = (Ok tt, (enc, w))))
  /\ ((50 <= now - button_press_time enc ->
       button_press_time (fst (snd (_handle_button now sw (enc, w)))) = now)
      /\ (now - button_press_time enc < 50 ->
          _handle_button now sw (enc, w) = (Ok tt, (enc, w))))
  /\ ((Pins.DEBOUNCE_TIME <= now - last ->
       last_press_time (fst (snd (_handle_switch_press name now (sh, w)))) !! name
       = Some now)
      /\ (now - last < Pins.DEBOUNCE_TIME ->
          _handle_switch_press name now (sh, w) = (Ok tt, (sh, w))))
  /\ (forall period stored threshold : Z,
        0 <= stored <= now -> now < period ->
        Spec.modular_accept period now stored threshold = (threshold <=? now - stored)).
Proof.
  intros Hlast. repeat split.
  - intros H. rewrite rotation_accepted by exact H. cbn zeta.
    destruct (negb (clk =? last_clk enc) && (clk =? 0)); [|reflexivity].
    destruct (callback_rotate enc) as [cb|]; [|reflexivity].
    destruct (cb _ w) as [[[]|e] w']; reflexivity.
  - apply rotation_rejected.
  - intros H. rewrite button_accepted by exact H.
    destruct (sw =? 0); [|reflexivity].
    destruct (callback_button enc); reflexivity.
  - apply button_rejected.
  - intros H. rewrite (switch_accepted sh w name now last Hlast H).
    destruct (press_callbacks sh !! name);
      cbn [fst snd pressed set_states set_last_press_time last_press_time];
      apply lookup_insert_eq.
  - apply (switch_rejected sh w name now last Hlast).
  - intros period stored threshold Hs Hp. unfold Spec.modular_accept.
    rewrite Z.mod_small by lia. reflexivity.
Qed.

(** C4: once the filter has let the interrupt through, and with a
    rotation callback registered, a change of CLK to 0 with DT reading
    1 runs the callback exactly once with [+1], a change of CLK to 0
    with DT reading 0 runs it exactly once with [-1], and an unchanged
    CLK runs nothing. *)
Theorem rotation_decoding (self : EC11Encoder W) (w : W) (now clk dt : Z)
    (cb : Z -> M W unit) :
  Pins.ENCODER_DEBOUNCE_TIME <= now - last_interrupt_time self ->
  callback_rotate self = Some cb ->
  (clk <> last_clk self -> clk = 0 -> dt = 1 ->
     fst (_handle_rotation now clk dt (self, w)) = fst (cb 1 w)
     /\ snd (snd (_handle_rotation now clk dt (self, w))) = snd (cb 1 w))
  /\ (clk <> last_clk self -> clk = 0 -> dt = 0 ->
        fst (_handle_rotation now clk dt (self, w)) = fst (cb (-1) w)
        /\ snd (snd (_handle_rotation now clk dt (self, w))) = snd (cb (-1) w))
  /\ (clk = last_clk self ->
        _handle_rotation now clk dt (self, w)
        = (Ok tt, (set_last_clk_dt clk dt (set_last_interrupt_time now self), w))).
Proof.
  intros Hpass Hcb. rewrite (rotation_accepted self w now clk dt Hpass). cbn zeta.
  split; [|split].
  - intros Hne -> ->. rewrite (proj2 (Z.eqb_neq 0 (last_clk self)) Hne).
    cbn [negb andb Z.eqb Pos.eqb]. rewrite Hcb.
    destruct (cb 1 w) as [[[]|e] w']; split; reflexivity.
  - intros Hne -> ->. rewrite (proj2 (Z.eqb_neq 0 (last_clk self)) Hne).
    cbn [negb andb Z.eqb Pos.eqb]. rewrite Hcb.
    destruct (cb (-1) w) as [[[]|e] w']; split; reflexivity.
  - intros ->. rewrite Z.eqb_refl. reflexivity.
Qed.

(** Without a registered callback there is nobody to tell: the handler
    only stores the tick and the sampled levels. *)
Lemma rotation_without_callback (self : EC11Encoder W) (w : W) (now clk dt : Z) :
  Pins.ENCODER_DEBOUNCE_TIME <= now - last_interrupt_time self ->
  callback_rotate self = None ->
  _handle_rotation now clk dt (self, w)
  = (Ok tt, (set_last_clk_dt clk dt (set_last_interrupt_time now self), w)).
Proof.
  intros Hpass Hcb. rewrite (rotation_accepted self w now clk dt Hpass). cbn zeta.
  rewrite Hcb. destruct (negb _ && _); reflexivity.
Qed.

(** A rising CLK edge is stored and reported to nobody. *)
Lemma rotation_rising_edge (self : EC11Encoder W) (w : W) (now clk dt : Z) :
  Pins.ENCODER_DEBOUNCE_TIME <= now - last_interrupt_time self ->
  clk <> 0 ->
  _handle_rotation now clk dt (self, w)
  = (Ok tt, (set_last_clk_dt clk dt (set_last_interrupt_time now self), w)).
Proof.
  intros Hpass Hclk. rewrite (rotation_accepted self w now clk dt Hpass). cbn zeta.
  rewrite (proj2 (Z.eqb_neq clk 0) Hclk), andb_false_r. reflexivity.
Qed.

(** C8, as amended: the button's threshold is 50 ms and the rotation
    threshold is [ENCODER_DEBOUNCE_TIME] = 2 ms, so the two differ and
    the button's is the longer one; an accepted button edge on which
    the pin reads 0, with a button callback registered, runs that
    callback once, with no argument, and changes nothing in the encoder
    object but the button's time stamp. *)
Theorem button_threshold_and_event (self : EC11Encoder W) (w : W) (now clk dt sw : Z) :
  Pins.ENCODER_DEBOUNCE_TIME < 50
  /\ ((now - button_press_time self < 50 ->
       _handle_button now sw (self, w) = (Ok tt, (self, w)))
      /\ (50 <= now - button_press_time self ->
          button_press_time (fst (snd (_handle_button now sw (self, w)))) = now))
  /\ ((now - last_interrupt_time self < Pins.ENCODER_DEBOUNCE_TIME ->
       _handle_rotation now clk dt (self, w) = (Ok tt, (self, w)))
      /\ (Pins.ENCODER_DEBOUNCE_TIME <= now - last_interrupt_time self ->
          last_interrupt_time (fst (snd (_handle_rotation now clk dt (self, w)))) = now))
  /\ (forall cb : M W unit,
        50 <= now - button_press_time self ->
        callback_button self = Some cb -> sw = 0 ->
        _handle_button now sw (self, w)
        = (fst (cb w), (set_button_press_time now self, snd (cb w)))).
Proof.
  split; [reflexivity|]. split; [split|split; [split|]].
  - apply button_rejected.
  - intros H. rewrite button_accepted by exact H.
    destruct (sw =? 0); [|reflexivity].
    destruct (callback_button self); reflexivity.
  - apply rotation_rejected.
  - intros H. rewrite rotation_accepted by exact H. cbn zeta.
    destruct (negb (clk =? last_clk self) && (clk =? 0)); [|reflexivity].
    destruct (callback_rotate self) as [cb|]; [|reflexivity].
    destruct (cb _ w) as [[[]|e] w']; reflexivity.
  - intros cb H Hcb ->. rewrite button_accepted by exact H.
    rewrite Hcb. reflexivity.
Qed.

End DebounceFacts.

(** Concrete runs of the three handlers, with recording callbacks. *)

Section DebounceRuns.
Import Py Encoder Main.
Local Open Scope string_scope.

Lemma debounce_plain_subtraction_witness :
  last_press_time (@SwitchHandler_new (list emitted)) !! "switch_1" = Some 0
  /\ last_interrupt_time (fst (snd (_handle_rotation 130 0 1 (idle_at 100, [])))) = 130
  /\ _handle_button 130 0 (idle_at 100, []) = (Ok tt, (idle_at 100, []))
  /\ last_press_time
       (fst (snd (_handle_switch_press "switch_1" 130
                    (@SwitchHandler_new (list emitted), []))))
     !! "switch_1" = Some 130
  /\ Spec.modular_accept (2 ^ 32) 130 100 Pins.ENCODER_DEBOUNCE_TIME = true.
Proof.
  split; [reflexivity|].
  destruct (debounce_plain_subtraction (idle_at 100) (@SwitchHandler_new (list emitted)) []
              130 0 1 0 0 "switch_1" eq_refl) as (Hrot & Hbtn & Hsw & Hmod).
  split; [apply (proj1 Hrot); vm_compute; discriminate|].
  split; [apply (proj2 Hbtn); reflexivity|].
  split; [apply (proj1 Hsw); vm_compute; discriminate|].
  rewrite Hmod; [reflexivity | lia | reflexivity].
Defined.

(** C3 as first stated fails: 15 ms after an edge accepted 10 ticks
    before a 32-bit counter wraps, the modular difference is 15 and the
    specification's filter accepts, but each handler computes a
    negative difference and drops the edge; 110 ms after it, the same
    for the 50 ms and 20 ms thresholds. The same happens for a counter
    that wraps at [2 ^ 30]. *)
Lemma debounce_wraparound_counterexample :
  (Spec.modular_accept (2 ^ 32) 5 (2 ^ 32 - 10) Pins.ENCODER_DEBOUNCE_TIME = true
   /\ _handle_rotation 5 0 1 (idle_at (2 ^ 32 - 10), [])
      = (Ok tt, (idle_at (2 ^ 32 - 10), [])))
  /\ (Spec.modular_accept (2 ^ 32) 100 (2 ^ 32 - 10) 50 = true
      /\ _handle_button 100 0 (idle_at (2 ^ 32 - 10), [])
         = (Ok tt, (idle_at (2 ^ 32 - 10), [])))
  /\ (Spec.modular_accept (2 ^ 32) 100 (2 ^ 32 - 10) Pins.DEBOUNCE_TIME = true
      /\ _handle_switch_press "switch_1" 100
           (pressed "switch_1" (2 ^ 32 - 10) (@SwitchHandler_new (list emitted)), [])
         = (Ok tt, (pressed "switch_1" (2 ^ 32 - 10) SwitchHandler_new, [])))
  /\ (Spec.modular_accept (2 ^ 30) 5 (2 ^ 30 - 10) Pins.ENCODER_DEBOUNCE_TIME = true
      /\ _handle_rotation 5 0 1 (idle_at (2 ^ 30 - 10), [])
         = (Ok tt, (idle_at (2 ^ 30 - 10), []))).
Proof.
  split; [split; [reflexivity | apply rotation_rejected; reflexivity]|].
  split; [split; [reflexivity | apply button_rejected; reflexivity]|].
  split; [split; [reflexivity|]|].
  - apply (switch_rejected _ _ _ _ (2 ^ 32 - 10)); reflexivity.
  - split; [reflexivity | apply rotation_rejected; reflexivity].
Qed.

Lemma rotation_decoding_witness :
  Pins.ENCODER_DEBOUNCE_TIME <= 10 - last_interrupt_time (idle_at 0)
  /\ callback_rotate (idle_at 0) = Some record_tick
  /\ snd (snd (_handle_rotation 10 0 1 (idle_at 0, []))) = [Tick 1]
  /\ snd (snd (_handle_rotation 10 0 0 (idle_at 0, []))) = [Tick (-1)]
  /\ snd (snd (_handle_rotation 10 1 1 (idle_at 0, []))) = [].
Proof.
  assert (Hpass : Pins.ENCODER_DEBOUNCE_TIME <= 10 - last_interrupt_time (idle_at 0))
    by (vm_compute; discriminate).
  split; [exact Hpass|]. split; [reflexivity|].
  split; [|split].
  - destruct (rotation_decoding (idle_at 0) [] 10 0 1 record_tick Hpass eq_refl)
      as (Hcw & _ & _).
    rewrite (proj2 (Hcw ltac:(discriminate) eq_refl eq_refl)). reflexivity.
  - destruct (rotation_decoding (idle_at 0) [] 10 0 0 record_tick Hpass eq_refl)
      as (_ & Hccw & _).
    rewrite (proj2 (Hccw ltac:(discriminate) eq_refl eq_refl)). reflexivity.
  - destruct (rotation_decoding (idle_at 0) [] 10 1 1 record_tick Hpass eq_refl)
      as (_ & _ & Hsame).
    rewrite (Hsame eq_refl). reflexivity.
Defined.

(** C8 as first stated fails: 10 ms after the last accepted edges a
    button edge is dropped while a rotation edge is accepted and
    decoded, so the button's threshold is not the shorter one. *)
Lemma button_threshold_counterexample :
  ~ (50 < Pins.ENCODER_DEBOUNCE_TIME)
  /\ _handle_button 110 0 (idle_at 100, []) = (Ok tt, (idle_at 100, []))
  /\ _handle_rotation 110 0 1 (idle_at 100, [])
     = (Ok tt, (set_last_clk_dt 0 1 (set_last_interrupt_time 110 (idle_at 100)),
                [Tick 1])).
Proof.
  split; [vm_compute; discriminate|].
  split; [apply button_rejected; reflexivity | reflexivity].
Qed.

Lemma button_threshold_and_event_witness :
  50 <= 160 - button_press_time (idle_at 100)
  /\ callback_button (idle_at 100) = Some record_press
  /\ _handle_button 160 0 (idle_at 100, [])
     = (Ok tt, (set_button_press_time 160 (idle_at 100), [Press]))
  /\ _handle_button 110 0 (idle_at 100, []) = (Ok tt, (idle_at 100, [])).
Proof.
  assert (Hpass : 50 <= 160 - button_press_time (idle_at 100))
    by (vm_compute; discriminate).
  split; [exact Hpass|]. split; [reflexivity|].
  split.
  - destruct (button_threshold_and_event (idle_at 100) [] 160 0 1 0)
      as (_ & _ & _ & Hev).
    rewrite (Hev record_press Hpass eq_refl eq_refl). reflexivity.
  - destruct (button_threshold_and_event (idle_at 100) [] 110 0 1 0)
      as (_ & (Hrej & _) & _).
    apply Hrej. reflexivity.
Defined.

End DebounceRuns.

(** ** The HID dispatcher *)

Section HidFacts.
Import Py Hid.
Local Open Scope py_scope.

Ltac step_dispatcher :=
  cbv beta iota zeta;
  cbn [enabled keyboard log send write negb orb Exception is_AttributeError].

Ltac run_dispatcher :=
  unfold volume_up, volume_down, volume_mute, play_pause, next_track, prev_track,
    send_action, _send_media_command, call_primitive, sleep_50ms, record_event,
    try_except, bind, get, lift, bytes, modify, raise, ret;
  step_dispatcher.

Lemma report_of_is_bytes (code : Z) : forallb is_byte (report_of code) = true.
Proof.
  assert (Hlow : forall v, is_byte (Z.land v 0xFF) = true).
  { intros v. change 0xFF with (Z.ones 8). rewrite Z.land_ones by lia.
    pose proof (Z.mod_pos_bound v (2 ^ 8) eq_refl) as Hb.
    change (2 ^ 8) with 256 in *. unfold is_byte.
    apply andb_true_intro. split; [apply Z.leb_le | apply Z.ltb_lt]; lia. }
  unfold report_of. cbn [forallb]. rewrite !Hlow. reflexivity.
Qed.

(** [_send_media_command] swallows every exception. *)
Lemma _send_media_command_never_raises (code : Z) (self : MediaControl) :
  exists self', _send_media_command code self = (Ok tt, self').
Proof.
  destruct self as [en kb lg]. run_dispatcher.
  rewrite report_of_is_bytes.
  destruct en; step_dispatcher; [|eauto].
  destruct kb as [[up snd_p wr_p]|].
  2: { rewrite bool_decide_eq_false_2 by (intros [? ?]; discriminate).
       step_dispatcher. eauto. }
  rewrite bool_decide_eq_true_2 by eauto. step_dispatcher.
  destruct snd_p as [f|]; destruct wr_p as [g|]; step_dispatcher;
    repeat match goal with
      | |- context [match ?f ?l ?r with Some _ => _ | None => _ end] =>
          destruct (f l r) as [[]|]; step_dispatcher
      end; eauto.
Qed.

Lemma send_action_enabled (code : Z) (self : MediaControl) :
  enabled self = true ->
  exists self', send_action code self = (Ok true, self').
Proof.
  intros Hen. destruct (_send_media_command_never_raises code self) as [self' H].
  exists self'. unfold send_action, try_except, bind, get, ret.
  rewrite Hen. cbn [negb]. rewrite H. reflexivity.
Qed.

Lemma send_action_disabled (code : Z) (self : MediaControl) :
  enabled self = false -> send_action code self = (Ok false, self).
Proof.
  intros Hen. unfold send_action, bind, get, ret. rewrite Hen. reflexivity.
Qed.

(** C6: with the transport enabled and a device whose [send] returns on
    both calls, [volume_up] makes exactly two calls of it, the press
    report [0xE9, 0, 0] and then the release report [0, 0, 0], with the
    50 ms sleep between them, and returns [True]; with the transport
    not enabled it makes none and returns [False]. *)
Theorem volume_up_two_writes (self : MediaControl) :
  (forall (device : Device) (f : primitive),
     enabled self = true -> keyboard self = Some device -> send device = Some f ->
     f (log self) [0xE9; 0x00; 0x00] = None ->
     f (log self ++ [EvSend [0xE9; 0x00; 0x00]; EvSleep 50]) [0x00; 0x00; 0x00] = None ->
     volume_up self
     = (Ok true,
        mkMediaControl true (Some device)
          (log self ++ [EvSend [0xE9; 0x00; 0x00]; EvSleep 50; EvSend [0x00; 0x00; 0x00]])))
  /\ (enabled self = false -> volume_up self = (Ok false, self)).
Proof.
  split.
  - intros device f Hen Hkb Hsend H1 H2.
    destruct self as [en kb lg]. cbn [enabled keyboard log] in *. subst en kb.
    run_dispatcher. rewrite report_of_is_bytes.
    rewrite bool_decide_eq_true_2 by eauto. step_dispatcher.
    change (report_of VOLUME_UP) with [0xE9; 0x00; 0x00].
    repeat (first [rewrite Hsend | rewrite H1 | rewrite H2 | rewrite <- app_assoc];
            step_dispatcher; cbn [app]).
    reflexivity.
  - apply send_action_disabled.
Qed.

Lemma volume_up_two_writes_witness :
  volume_up (new true [sending_device])
  = (Ok true,
     mkMediaControl true (Some sending_device)
       [EvSend [0xE9; 0x00; 0x00]; EvSleep 50; EvSend [0x00; 0x00; 0x00]])
  /\ volume_up (new false [sending_device]) = (Ok false, new false [sending_device])
  /\ volume_up (new true []) = (Ok false, new true []).
Proof.
  split; [|split].
  - apply (proj1 (volume_up_two_writes (new true [sending_device]))
             sending_device (fun _ _ => None)); reflexivity.
  - apply (proj2 (volume_up_two_writes (new false [sending_device]))). reflexivity.
  - apply (proj2 (volume_up_two_writes (new true []))). reflexivity.
Defined.

(** The fallback: a device without [send] but with a working [write]
    gets the same two reports through [write]. *)
Lemma fallback_two_writes (code : Z) (self : MediaControl) (device : Device)
    (g : primitive) :
  enabled self = true -> keyboard self = Some device ->
  send device = None -> write device = Some g ->
  g (log self) (report_of code) = None ->
  g (log self ++ [EvWrite (report_of code); EvSleep 50]) [0; 0; 0] = None ->
  send_action code self
  = (Ok true,
     mkMediaControl true (Some device)
       (log self ++ [EvWrite (report_of code); EvSleep 50; EvWrite [0; 0; 0]])).
Proof.
  intros Hen Hkb Hsend Hwrite H1 H2.
  destruct self as [en kb lg]. cbn [enabled keyboard log] in *. subst en kb.
  run_dispatcher. rewrite report_of_is_bytes.
  rewrite bool_decide_eq_true_2 by eauto. step_dispatcher.
  repeat (first [rewrite Hsend | rewrite Hwrite | rewrite H1 | rewrite H2
                | rewrite <- app_assoc];
          step_dispatcher; cbn [app]).
  reflexivity.
Qed.

(** An enabled dispatcher never answers [False], whatever the device
    does. *)
Lemma enabled_never_reports_failure (code : Z) (self : MediaControl) :
  enabled self = true -> fst (send_action code self) = Ok true.
Proof.
  intros Hen. destruct (send_action_enabled code self Hen) as [self' H].
  rewrite H. reflexivity.
Qed.

(** C7, what the code does where the claim asks for [False]: on an
    enabled dispatcher whose device has neither [send] nor [write] each
    of the six operations makes no write and returns [True]; on one whose
    [send] raises, [volume_up] makes the one failed call and returns
    [True]. The fallback half of the claim holds: a device that has only
    [write] gets both reports through it. *)
Theorem send_failure_returns_true :
  (let self := new true [bare_device] in
   enabled self = true
   /\ volume_up self = (Ok true, self) /\ volume_down self = (Ok true, self)
   /\ volume_mute self = (Ok true, self) /\ play_pause self = (Ok true, self)
   /\ next_track self = (Ok true, self) /\ prev_track self = (Ok true, self))
  /\ volume_up (new true [failing_device])
     = (Ok true, mkMediaControl true (Some failing_device) [EvSend [0xE9; 0x00; 0x00]])
  /\ volume_up (new true [write_only_device])
     = (Ok true,
        mkMediaControl true (Some write_only_device)
          [EvWrite [0xE9; 0x00; 0x00]; EvSleep 50; EvWrite [0x00; 0x00; 0x00]]).
Proof.
  split; [repeat split; reflexivity|]. split; reflexivity.
Qed.

End HidFacts.

(** ** The switch flags in the running system *)

Section MainFacts.
Import Py Main.
Local Open Scope py_scope.

Lemma dict_get_set_eq {V} (k : string) (v : V) (d : list (string * V)) :
  dict_get k (dict_set k v d) = Some v.
Proof.
  induction d as [|[k' v'] d IH]; cbn [dict_set dict_get].
  - now rewrite String.eqb_refl.
  - destruct (String.eqb k k') eqn:E; cbn [dict_get].
    + now rewrite String.eqb_refl.
    + rewrite E. exact IH.
Qed.

Lemma dict_get_set_ne {V} (k k' : string) (v : V) (d : list (string * V)) :
  k <> k' -> dict_get k' (dict_set k v d) = dict_get k' d.
Proof.
  intros Hne. induction d as [|[k0 v0] d IH]; cbn [dict_set dict_get].
  - now rewrite (proj2 (String.eqb_neq k' k)) by congruence.
  - destruct (String.eqb_spec k k0) as [->|Hk]; cbn [dict_get].
    + now rewrite !(proj2 (String.eqb_neq k' k0)) by congruence.
    + destruct (String.eqb k' k0); [reflexivity | exact IH].
Qed.

Lemma dict_get_set {V} (k k' : string) (v : V) (d : list (string * V)) :
  dict_get k' (dict_set k v d) = if String.eqb k' k then Some v else dict_get k' d.
Proof.
  destruct (String.eqb_spec k' k) as [->|Hne].
  - apply dict_get_set_eq.
  - apply dict_get_set_ne. congruence.
Qed.

Lemma reset_loop_flag {W} (name : string) (names : list string) (sh : SwitchHandler W) :
  dict_get name
    (states (fold_left
               (fun self n => set_states (dict_set n false (states self)) self)
               names sh))
  = if existsb (String.eqb name) names then Some false
    else dict_get name (states sh).
Proof.
  revert sh. induction names as [|n names IH]; intros sh; cbn [fold_left existsb].
  - reflexivity.
  - rewrite IH. cbn [states set_states]. rewrite dict_get_set.
    destruct (String.eqb name n); cbn [orb]; [|reflexivity].
    destruct (existsb (String.eqb name) names); reflexivity.
Qed.

Lemma existsb_keys {V} (name : string) (d : list (string * V)) :
  existsb (String.eqb name) (map fst d)
  = match dict_get name d with Some _ => true | None => false end.
Proof.
  induction d as [|[k v] d IH]; cbn [map existsb dict_get fst]; [reflexivity|].
  destruct (String.eqb name k); cbn [orb]; [reflexivity | exact IH].
Qed.

(** After [reset_states] every flag that exists is [False]. *)
Lemma reset_states_flag {W} (name : string) (sh : SwitchHandler W) :
  dict_get name (states (reset_states sh))
  = match dict_get name (states sh) with Some _ => Some false | None => None end.
Proof.
  unfold reset_states. rewrite reset_loop_flag, existsb_keys.
  destruct (dict_get name (states sh)); reflexivity.
Qed.

Section WithScreens.
Variable show_status : Z -> list string -> M Display.Display unit.

Lemma react_switch (st : System) (n : string) (t : Z) :
  switch_handler (snd (react show_status (IrqSwitch n t) st)) = switch_handler st
  \/ exists last,
       last_press_time (switch_handler st) !! n = Some last
       /\ Pins.DEBOUNCE_TIME <= t - last
       /\ switch_handler (snd (react show_status (IrqSwitch n t) st))
          = pressed n t (switch_handler st).
Proof.
  unfold react.
  destruct (last_press_time (switch_handler st) !! n) as [last|] eqn:Hl.
  - destruct (Z.lt_ge_cases (t - last) Pins.DEBOUNCE_TIME) as [Hlt|Hge].
    + left. rewrite (switch_rejected _ _ _ _ _ Hl Hlt). reflexivity.
    + right. exists last. split; [reflexivity|]. split; [exact Hge|].
      rewrite (switch_accepted _ _ _ _ _ Hl Hge).
      destruct (press_callbacks (switch_handler st) !! n); reflexivity.
  - left. rewrite (switch_unknown _ _ _ _ Hl). reflexivity.
Qed.

Lemma react_rotation (st : System) (t c d : Z) :
  switch_handler (snd (react show_status (IrqRotation t c d) st)) = switch_handler st.
Proof.
  unfold react.
  destruct (Encoder._handle_rotation t c d (encoder st, globals st)) as [r [enc g]].
  reflexivity.
Qed.

Lemma react_button (st : System) (t s : Z) :
  switch_handler (snd (react show_status (IrqButton t s) st)) = switch_handler st.
Proof.
  unfold react.
  destruct (Encoder._handle_button t s (encoder st, globals st)) as [r [enc g]].
  reflexivity.
Qed.

Ltac step_update :=
  cbv beta iota zeta;
  cbn [globals switch_handler encoder display set_last_display_update set_display
       encoder_value last_display_update media_control fst snd set_switch_handler].

Ltac run_update :=
  unfold react, update_display, bind, get, on_globals, modify, ret,
    display_ready, with_display;
  step_update.

(** One turn of the polling loop, case by case. *)
Lemma poll_too_early (st : System) (t : Z) :
  t - last_display_update (globals st) <= 500 ->
  react show_status (Poll t) st = (Ok tt, st).
Proof.
  intros H. run_update.
  destruct (Z.gtb_spec (t - last_display_update (globals st)) 500); [lia | reflexivity].
Qed.

Lemma poll_no_display (st : System) (t : Z) :
  500 < t - last_display_update (globals st) ->
  display_ready (globals st) = false ->
  react show_status (Poll t) st
  = (Ok tt, mkSystem (switch_handler st) (encoder st)
              (set_last_display_update t (globals st))).
Proof.
  intros H Hd. run_update.
  destruct (Z.gtb_spec (t - last_display_update (globals st)) 500); [|lia].
  step_update. unfold display_ready in Hd.
  destruct (display (globals st)) as [d|]; [rewrite Hd|]; reflexivity.
Qed.

Lemma poll_renders (st : System) (t : Z) (d : Display.Display) :
  500 < t - last_display_update (globals st) ->
  display (globals st) = Some d -> Display.initialized d = true ->
  react show_status (Poll t) st
  = match show_status (encoder_value (globals st))
            (get_active_switches (switch_handler st)) d with
    | (Ok _, d') =>
        (Ok tt, mkSystem (reset_states (switch_handler st)) (encoder st)
                  (set_display (Some d') (set_last_display_update t (globals st))))
    | (Raise e, d') =>
        (Raise e, mkSystem (switch_handler st) (encoder st)
                    (set_display (Some d') (set_last_display_update t (globals st))))
    end.
Proof.
  intros H Hd Hinit. run_update.
  destruct (Z.gtb_spec (t - last_display_update (globals st)) 500); [|lia].
  step_update. repeat (first [rewrite Hd | rewrite Hinit]; step_update).
  destruct (show_status _ _ d) as [[[]|e] d']; step_update; reflexivity.
Qed.

Lemma react_poll (st : System) (t : Z) :
  switch_handler (snd (react show_status (Poll t) st)) = switch_handler st
  \/ exists d d',
       500 < t - last_display_update (globals st)
       /\ display (globals st) = Some d
       /\ Display.initialized d = true
       /\ show_status (encoder_value (globals st))
            (get_active_switches (switch_handler st)) d = (Ok tt, d')
       /\ display (globals (snd (react show_status (Poll t) st))) = Some d'
       /\ switch_handler (snd (react show_status (Poll t) st))
          = reset_states (switch_handler st).
Proof.
  destruct (Z.le_gt_cases (t - last_display_update (globals st)) 500) as [Hle|Hgt].
  { left. now rewrite poll_too_early. }
  destruct (display_ready (globals st)) eqn:Hready.
  2: { left. now rewrite poll_no_display. }
  unfold display_ready in Hready.
  destruct (display (globals st)) as [d|] eqn:Hd; [|discriminate].
  rewrite (poll_renders st t d Hgt Hd Hready).
  destruct (show_status (encoder_value (globals st))
              (get_active_switches (switch_handler st)) d) as [[[]|e] d'] eqn:Hshow.
  - right. exists d, d'. repeat split; try reflexivity; assumption.
  - left. reflexivity.
Qed.

(** C9: in one reaction of the running system, a switch's flag
    becomes true only in the press handler of that switch, and only
    when the tick is at least [DEBOUNCE_TIME] past the last accepted
    press; it stops being true only in a turn of the polling loop in
    which [show_status] has been given the list of active switches
    and has returned, after which [reset_states] ran and the flag is
    false; no interrupt handler takes a true flag away. *)
Theorem switch_flags_set_and_reset (st : System) (i : input) (name : string) :
  let st' := snd (react show_status i st) in
  (flag name st <> Some true -> flag name st' = Some true ->
   exists now last,
     i = IrqSwitch name now
     /\ last_press_time (switch_handler st) !! name = Some last
     /\ Pins.DEBOUNCE_TIME <= now - last)
  /\ (flag name st = Some true -> flag name st' <> Some true ->
      exists now d d',
        i = Poll now
        /\ 500 < now - last_display_update (globals st)
        /\ display (globals st) = Some d
        /\ Display.initialized d = true
        /\ show_status (encoder_value (globals st))
             (get_active_switches (switch_handler st)) d = (Ok tt, d')
        /\ display (globals st') = Some d'
        /\ switch_handler st' = reset_states (switch_handler st)
        /\ flag name st' = Some false)
  /\ (is_irq i = true -> flag name st = Some true -> flag name st' = Some true).
Proof.
  intros st'. subst st'. unfold flag.
  destruct i as [n t | t c d | t s | t].
  - (* a switch interrupt *)
    destruct (react_switch st n t) as [Hsame | (last & Hl & Hge & Hpressed)].
    + rewrite Hsame. repeat split; intros; congruence.
    + rewrite Hpressed. unfold pressed. cbn [states set_states set_last_press_time].
      rewrite dict_get_set.
      destruct (String.eqb_spec name n) as [->|Hne].
      * split; [|split].
        -- intros _ _. exists t, last. repeat split; assumption.
        -- intros _ Hoff. congruence.
        -- reflexivity.
      * repeat split; intros; congruence.
  - rewrite react_rotation. repeat split; intros; congruence.
  - rewrite react_button. repeat split; intros; congruence.
  - (* a turn of the polling loop *)
    destruct (react_poll st t)
      as [Hsame | (d & d' & Hgt & Hd & Hinit & Hshow & Hd' & Hreset)].
    + rewrite Hsame. repeat split; intros; congruence.
    + rewrite Hreset, reset_states_flag. split; [|split].
      * intros _ Hon. destruct (dict_get name (states (switch_handler st)));
          discriminate.
      * intros Hon _. exists t, d, d'. rewrite Hon.
        repeat split; assumption.
      * discriminate.
Qed.

End WithScreens.

Lemma switch_flags_set_and_reset_witness :
  let status := fun (_ : Z) (_ : list string) => flush_screen in
  let st1 := snd (react status (IrqSwitch "switch_1" 25) demo_system) in
  let st2 := snd (react status (Poll 501) st1) in
  flag "switch_1" demo_system = Some false
  /\ flag "switch_1" st1 = Some true
  /\ flag "switch_1" st2 = Some false
  /\ (exists now last,
        IrqSwitch "switch_1" 25 = IrqSwitch "switch_1" now
        /\ last_press_time (switch_handler demo_system) !! "switch_1"%string = Some last
        /\ Pins.DEBOUNCE_TIME <= now - last)
  /\ switch_handler st2 = reset_states (switch_handler st1).
Proof.
  intros status st1 st2.
  assert (H0 : flag "switch_1" demo_system = Some false) by (vm_compute; reflexivity).
  assert (H1 : flag "switch_1" st1 = Some true) by (vm_compute; reflexivity).
  assert (H2 : flag "switch_1" st2 = Some false) by (vm_compute; reflexivity).
  split; [exact H0|]. split; [exact H1|]. split; [exact H2|].
  split.
  - destruct (switch_flags_set_and_reset status demo_system
                (IrqSwitch "switch_1" 25) "switch_1") as (Hset & _ & _).
    apply Hset; [rewrite H0; discriminate | exact H1].
  - destruct (switch_flags_set_and_reset status st1 (Poll 501) "switch_1")
      as (_ & Hreset & _).
    destruct Hreset as (now & d & d' & _ & _ & _ & _ & _ & _ & Hr & _);
      [exact H1 | fold st2; rewrite H2; discriminate | exact Hr].
Defined.

End MainFacts.

(** * Further properties *)

(** ** Loops *)

Section LoopFacts.
Import Py.
Local Open Scope py_scope.

Lemma range_In (i n : Z) : In i (range n) <-> 0 <= i < n.
Proof.
  unfold range. rewrite in_map_iff. split.
  - intros (k & <- & Hk). apply in_seq in Hk. lia.
  - intros Hi. exists (Z.to_nat i). split; [lia|]. apply in_seq. lia.
Qed.

Lemma for_each_app {S A} (l1 l2 : list A) (body : A -> M S unit) (s : S) :
  for_each (l1 ++ l2) body s
  = bind (for_each l1 body) (fun _ => for_each l2 body) s.
Proof.
  revert s. induction l1 as [|a l1 IH]; intros s; cbn [app for_each].
  - reflexivity.
  - unfold bind. destruct (body a s) as [[[]|e] s1]; [|reflexivity].
    rewrite IH. reflexivity.
Qed.

Lemma for_each_ext {S A} (l : list A) (f g : A -> M S unit) (s : S) :
  (forall a s', f a s' = g a s') -> for_each l f s = for_each l g s.
Proof.
  intros Hfg. revert s. induction l as [|a l IH]; intros s; cbn [for_each].
  - reflexivity.
  - unfold bind. rewrite Hfg. destruct (g a s) as [[[]|e] s1]; [apply IH | reflexivity].
Qed.

Lemma for_each_map {S A B} (h : A -> B) (l : list A) (body : B -> M S unit) (s : S) :
  for_each (map h l) body s = for_each l (fun a => body (h a)) s.
Proof.
  revert s. induction l as [|a l IH]; intros s; cbn [map for_each].
  - reflexivity.
  - unfold bind. destruct (body (h a) s) as [[[]|e] s1]; [apply IH | reflexivity].
Qed.

Lemma for_each_flat_map {S A B} (h : A -> list B) (l : list A) (body : B -> M S unit)
    (s : S) :
  for_each l (fun a => for_each (h a) body) s = for_each (flat_map h l) body s.
Proof.
  revert s. induction l as [|a l IH]; intros s; cbn [flat_map for_each].
  - reflexivity.
  - rewrite for_each_app. unfold bind.
    destruct (for_each (h a) body s) as [[[]|e] s1]; [apply IH | reflexivity].
Qed.

End LoopFacts.

(** ** Pixels *)

Section PixelFacts.
Import Py Display.
Local Open Scope py_scope.

Lemma in_range_dec (self : SSD1306) (x y : Z) :
  {in_range self x y} + {~ in_range self x y}.
Proof.
  unfold in_range.
  destruct (Z_le_dec 0 x), (Z_lt_dec x (width self)),
           (Z_le_dec 0 y), (Z_lt_dec y (height self)); (left; lia) || (right; lia).
Qed.

Lemma pixel_outside (self : SSD1306) (x y state : Z) :
  ~ in_range self x y -> pixel x y state self = (Ok tt, self).
Proof.
  unfold in_range. intros Hout. unfold pixel, bind, get, ret.
  destruct (Z.leb_spec 0 x), (Z.ltb_spec x (width self)),
           (Z.leb_spec 0 y), (Z.ltb_spec y (height self));
    cbn [andb negb]; try reflexivity; lia.
Qed.

(** Two in-range coordinates share byte and bit only if they are equal. *)
Lemma pixel_index_inj (self : SSD1306) (x y x' y' : Z) :
  in_range self x y -> in_range self x' y' ->
  pixel_index self x' y' = pixel_index self x y -> y' mod 8 = y mod 8 ->
  x' = x /\ y' = y.
Proof.
  unfold in_range, pixel_index. intros [Hx Hy] [Hx' Hy'] Hidx Hbit.
  assert (0 <= y / 8) by (apply Z.div_pos; lia).
  assert (0 <= y' / 8) by (apply Z.div_pos; lia).
  assert (Hz : y' / 8 * width self + x' = y / 8 * width self + x) by nia.
  assert (Hq : y' / 8 = y / 8) by nia.
  split; [nia|].
  rewrite (Z.div_mod y 8), (Z.div_mod y' 8) by lia. lia.
Qed.

Lemma testbit_set (old bit n : Z) :
  0 <= bit -> 0 <= n ->
  Z.testbit (Z.lor old (Z.shiftl 1 bit)) n = Z.testbit old n || (bit =? n).
Proof.
  intros Hb Hn. rewrite Z.lor_spec, testbit_one_shifted by lia. reflexivity.
Qed.

Lemma testbit_clear (old bit n : Z) :
  0 <= bit -> 0 <= n ->
  Z.testbit (Z.land old (Z.lnot (Z.shiftl 1 bit))) n = Z.testbit old n && negb (bit =? n).
Proof.
  intros Hb Hn. rewrite Z.land_spec, Z.lnot_spec, testbit_one_shifted by lia. reflexivity.
Qed.

(** One [pixel] call on a drawable object. *)
Lemma pixel_step (self : SSD1306) (x y state : Z) :
  drawable self ->
  exists self',
    pixel x y state self = (Ok tt, self')
    /\ drawable self' /\ same_panel self self'
    /\ (forall x' y', in_range self x' y' ->
          pixel_at self' x' y'
          = if (x' =? x) && (y' =? y) then truthy state else pixel_at self x' y').
Proof.
  intros (Hwf & Hb & H8).
  destruct (in_range_dec self x y) as [Hin|Hout].
  - destruct Hin as [Hx Hy].
    destruct (pixel_in_range self x y state Hwf Hb H8 Hx Hy) as (old & Hold & Hrange & Hpix).
    assert (Hbit : 0 <= y mod 8 < 8) by (apply Z.mod_pos_bound; lia).
    set (v := if truthy state then Z.lor old (Z.shiftl 1 (y mod 8))
              else Z.land old (Z.lnot (Z.shiftl 1 (y mod 8)))) in *.
    assert (Hv : 0 <= v < 256).
    { assert (Hvb : is_byte v = true).
      { unfold v. destruct (truthy state);
          [apply set_bit_is_byte | apply clear_bit_is_byte]; lia. }
      unfold is_byte in Hvb. apply andb_prop in Hvb as [H1 H2].
      apply Z.leb_le in H1. apply Z.ltb_lt in H2. lia. }
    assert (Hi : (pixel_index self x y < length (buf self))%nat)
      by (eapply lookup_lt_Some; exact Hold).
    eexists. split; [exact Hpix|]. split; [|split].
    + split; [|split].
      * destruct Hwf as [Hp Hl]. split; [exact Hp|].
        cbn [set_buf buf pages width]. rewrite length_insert. exact Hl.
      * unfold bytes_ok. cbn [set_buf buf]. apply Forall_insert; assumption.
      * exact H8.
    + repeat split.
    + intros x' y' Hin'. unfold pixel_at.
      change (pixel_index (set_buf _ self) x' y') with (pixel_index self x' y').
      cbn [set_buf buf].
      assert (Hbit' : 0 <= y' mod 8 < 8) by (apply Z.mod_pos_bound; lia).
      destruct (Nat.eq_dec (pixel_index self x' y') (pixel_index self x y)) as [Hidx|Hidx].
      * rewrite Hidx. rewrite list_lookup_insert_eq by exact Hi. rewrite Hold.
        destruct (Z.eq_dec (y' mod 8) (y mod 8)) as [Hm|Hm].
        -- destruct (pixel_index_inj self x y x' y' (conj Hx Hy) Hin' Hidx Hm) as [-> ->].
           rewrite !Z.eqb_refl. cbn [andb]. unfold v.
           destruct (truthy state).
           ++ rewrite testbit_set, Z.eqb_refl by lia. apply orb_true_r.
           ++ rewrite testbit_clear, Z.eqb_refl by lia. apply andb_false_r.
        -- assert (Hne : (x' =? x) && (y' =? y) = false).
           { destruct (Z.eqb_spec y' y) as [->|]; [congruence | apply andb_false_r]. }
           rewrite Hne. unfold v. destruct (truthy state).
           ++ rewrite testbit_set by lia.
              rewrite (proj2 (Z.eqb_neq (y mod 8) (y' mod 8))) by congruence.
              apply orb_false_r.
           ++ rewrite testbit_clear by lia.
              rewrite (proj2 (Z.eqb_neq (y mod 8) (y' mod 8))) by congruence.
              apply andb_true_r.
      * rewrite list_lookup_insert_ne by congruence.
        assert (Hne : (x' =? x) && (y' =? y) = false).
        { destruct (Z.eqb_spec x' x) as [->|]; [|reflexivity].
          destruct (Z.eqb_spec y' y) as [->|]; [congruence | reflexivity]. }
        rewrite Hne. reflexivity.
  - exists self. rewrite (pixel_outside self x y state Hout).
    split; [reflexivity|]. split; [exact (conj Hwf (conj Hb H8))|].
    split; [repeat split|].
    intros x' y' Hin'.
    assert (Hne : (x' =? x) && (y' =? y) = false).
    { destruct (Z.eqb_spec x' x) as [->|]; [|reflexivity].
      destruct (Z.eqb_spec y' y) as [->|]; [contradiction | reflexivity]. }
    rewrite Hne. reflexivity.
Qed.

End PixelFacts.

(** ** Lines, rectangles and text as lists of pixels *)

Section DrawingFacts.
Import Py Display.
Local Open Scope py_scope.

Local Abbreviation hits x' y' := (fun c : Z * Z => (x' =? fst c) && (y' =? snd c)).

Lemma same_panel_in_range (self self' : SSD1306) (x y : Z) :
  same_panel self self' -> in_range self x y -> in_range self' x y.
Proof. unfold same_panel, in_range. intros (-> & -> & _). tauto. Qed.

Lemma same_panel_trans (s1 s2 s3 : SSD1306) :
  same_panel s1 s2 -> same_panel s2 s3 -> same_panel s1 s3.
Proof.
  unfold same_panel. intros (? & ? & ? & ? & ?) (? & ? & ? & ? & ?).
  repeat split; congruence.
Qed.

Lemma draw_all_step (coords : list (Z * Z)) (color : Z) (self : SSD1306) :
  drawable self ->
  exists self',
    draw_all coords color self = (Ok tt, self')
    /\ drawable self' /\ same_panel self self'
    /\ (forall x' y', in_range self x' y' ->
          pixel_at self' x' y'
          = if existsb (hits x' y') coords then truthy color else pixel_at self x' y').
Proof.
  revert self. induction coords as [|[x y] coords IH]; intros self Hd.
  - exists self. split; [reflexivity|]. split; [exact Hd|].
    split; [repeat split|]. reflexivity.
  - destruct (pixel_step self x y color Hd) as (s1 & Hpix & Hd1 & Hsame1 & Hat1).
    destruct (IH s1 Hd1) as (s2 & Hrest & Hd2 & Hsame2 & Hat2).
    exists s2. split; [|split; [exact Hd2|split]].
    + unfold draw_all in *. cbn [for_each fst snd]. unfold bind. rewrite Hpix. exact Hrest.
    + eapply same_panel_trans; eassumption.
    + intros x' y' Hin. rewrite Hat2 by (eapply same_panel_in_range; eassumption).
      rewrite Hat1 by exact Hin. cbn [existsb fst snd].
      destruct (existsb (hits x' y') coords);
        [rewrite orb_true_r | rewrite orb_false_r]; reflexivity.
Qed.

(** The primitives are such lists. *)
Lemma hline_as_pixels (x y width color : Z) (self : SSD1306) :
  hline x y width color self = draw_all (hline_coords x y width) color self.
Proof. unfold hline, draw_all, hline_coords. now rewrite for_each_map. Qed.

Lemma vline_as_pixels (x y height color : Z) (self : SSD1306) :
  vline x y height color self = draw_all (vline_coords x y height) color self.
Proof. unfold vline, draw_all, vline_coords. now rewrite for_each_map. Qed.

Lemma draw_all_app (c1 c2 : list (Z * Z)) (color : Z) (self : SSD1306) :
  draw_all (c1 ++ c2) color self
  = bind (draw_all c1 color) (fun _ => draw_all c2 color) self.
Proof. apply for_each_app. Qed.

Lemma rect_as_pixels (x y width height color : Z) (fill : bool) (self : SSD1306) :
  rect x y width height color fill self
  = draw_all (rect_coords x y width height fill) color self.
Proof.
  unfold rect, rect_coords. destruct fill.
  - rewrite (for_each_ext _ _ (fun i => draw_all (hline_coords x (y + i) width) color))
      by (intros; apply hline_as_pixels).
    apply for_each_flat_map.
  - rewrite draw_all_app. unfold bind. rewrite hline_as_pixels.
    destruct (draw_all (hline_coords x y width) color self) as [[[]|e] s1]; [|reflexivity].
    rewrite draw_all_app. unfold bind. rewrite hline_as_pixels.
    destruct (draw_all (hline_coords x (y + height - 1) width) color s1) as [[[]|e] s2];
      [|reflexivity].
    rewrite draw_all_app. unfold bind. rewrite vline_as_pixels.
    destruct (draw_all (vline_coords x y height) color s2) as [[[]|e] s3]; [|reflexivity].
    apply vline_as_pixels.
Qed.

Lemma glyph_as_pixels (cols : list Z) (cx y color : Z) (self : SSD1306) :
  draw_glyph cols cx y color self = draw_all (glyph_coords cols cx y) color self.
Proof.
  unfold draw_glyph, glyph_coords, draw_all.
  rewrite <- for_each_flat_map. apply for_each_ext. intros [bit_col col_data] s.
  rewrite <- for_each_flat_map. apply for_each_ext. intros bit_row s'.
  destruct (truthy _); cbn [for_each fst snd]; [|reflexivity].
  unfold bind, ret. destruct (pixel _ _ _ s') as [[[]|e] s'']; reflexivity.
Qed.

Lemma text_as_pixels (str : string) (cx y color : Z) (self : SSD1306) :
  text_from str cx y color self = draw_all (text_coords str cx y) color self.
Proof.
  revert cx self. induction str as [|char rest IH]; intros cx self;
    cbn [text_from text_coords].
  - reflexivity.
  - rewrite draw_all_app. unfold bind.
    destruct (font_get font_data char) as [cols|].
    + rewrite glyph_as_pixels.
      destruct (draw_all (glyph_coords cols cx y) color self) as [[[]|e] s1];
        [apply IH | reflexivity].
    + cbn. apply IH.
Qed.

(** Which coordinates the lists hold. *)
Lemma existsb_hits (coords : list (Z * Z)) (x' y' : Z) :
  existsb (hits x' y') coords = true <-> In (x', y') coords.
Proof.
  rewrite existsb_exists. split.
  - intros ([x y] & Hin & Hhit). cbn [fst snd] in Hhit.
    apply andb_prop in Hhit as [Hx Hy].
    apply Z.eqb_eq in Hx, Hy. subst. exact Hin.
  - intros Hin. exists (x', y'). split; [exact Hin|]. cbn [fst snd].
    now rewrite !Z.eqb_refl.
Qed.

Lemma hline_coords_In (x y width x' y' : Z) :
  In (x', y') (hline_coords x y width) <-> y' = y /\ x <= x' < x + width.
Proof.
  unfold hline_coords. rewrite in_map_iff. split.
  - intros (i & Heq & Hi). apply range_In in Hi. injection Heq as <- <-. lia.
  - intros [-> Hx]. exists (x' - x). split; [f_equal; lia | apply range_In; lia].
Qed.

Lemma vline_coords_In (x y height x' y' : Z) :
  In (x', y') (vline_coords x y height) <-> x' = x /\ y <= y' < y + height.
Proof.
  unfold vline_coords. rewrite in_map_iff. split.
  - intros (i & Heq & Hi). apply range_In in Hi. injection Heq as <- <-. lia.
  - intros [-> Hy]. exists (y' - y). split; [f_equal; lia | apply range_In; lia].
Qed.

Lemma rect_fill_coords_In (x y width height x' y' : Z) :
  In (x', y') (rect_coords x y width height true)
  <-> x <= x' < x + width /\ y <= y' < y + height.
Proof.
  unfold rect_coords. rewrite in_flat_map. split.
  - intros (i & Hi & Hin). apply range_In in Hi. apply hline_coords_In in Hin. lia.
  - intros [Hx Hy]. exists (y' - y). split; [apply range_In; lia|].
    apply hline_coords_In. lia.
Qed.

Lemma rect_outline_coords_In (x y width height x' y' : Z) :
  In (x', y') (rect_coords x y width height false)
  <-> (y' = y /\ x <= x' < x + width)
      \/ (y' = y + height - 1 /\ x <= x' < x + width)
      \/ (x' = x /\ y <= y' < y + height)
      \/ (x' = x + width - 1 /\ y <= y' < y + height).
Proof.
  unfold rect_coords. rewrite !in_app_iff, !hline_coords_In, !vline_coords_In. tauto.
Qed.

Lemma hits_cond (coords : list (Z * Z)) (x' y' : Z) (cond : bool) :
  (cond = true <-> In (x', y') coords) -> existsb (hits x' y') coords = cond.
Proof.
  intros Hc. apply eq_true_iff_eq. rewrite Hc. apply existsb_hits.
Qed.

End DrawingFacts.

(** ** Glyphs *)

Section GlyphFacts.
Import Py Display.
Local Open Scope py_scope.

Lemma bit_test_truthy (col bit : Z) :
  0 <= bit -> truthy (Z.land col (Z.shiftl 1 bit)) = Z.testbit col bit.
Proof.
  intros Hb. unfold truthy. destruct (Z.testbit col bit) eqn:Hbit.
  - destruct (Z.eqb_spec (Z.land col (Z.shiftl 1 bit)) 0) as [H0|]; [|reflexivity].
    assert (H : Z.testbit (Z.land col (Z.shiftl 1 bit)) bit = true)
      by (rewrite Z.land_spec, testbit_one_shifted, Z.eqb_refl, Hbit by lia; reflexivity).
    rewrite H0, Z.bits_0 in H. discriminate.
  - assert (H0 : Z.land col (Z.shiftl 1 bit) = 0).
    { apply Z.bits_inj'. intros n Hn.
      rewrite Z.land_spec, testbit_one_shifted, Z.bits_0 by lia.
      destruct (Z.eqb_spec bit n) as [<-|]; [now rewrite Hbit | apply andb_false_r]. }
    rewrite H0. reflexivity.
Qed.

Lemma combine_seq_In {A} (l : list A) (k : nat) (i : Z) (a : A) :
  In (i, a) (combine (map Z.of_nat (seq k (length l))) l)
  <-> exists j : nat, i = Z.of_nat (k + j) /\ l !! j = Some a.
Proof.
  revert k. induction l as [|b l IH]; intros k; cbn [length seq map combine In].
  - split; [tauto | intros (j & _ & Hj); discriminate].
  - rewrite IH. split.
    + intros [Heq | (j & -> & Hj)].
      * injection Heq as <- <-. exists 0%nat. split; [f_equal; lia | reflexivity].
      * exists (S j). split; [f_equal; lia | exact Hj].
    + intros ([|j] & -> & Hj).
      * left. cbn in Hj. injection Hj as ->. f_equal. f_equal. lia.
      * right. exists j. split; [f_equal; lia | exact Hj].
Qed.

Lemma enumerate_In {A} (l : list A) (i : Z) (a : A) :
  In (i, a) (enumerate l) <-> 0 <= i /\ l !! Z.to_nat i = Some a.
Proof.
  unfold enumerate, range. rewrite Nat2Z.id, combine_seq_In. split.
  - intros (j & -> & Hj). cbn [Nat.add]. rewrite Nat2Z.id. split; [lia | exact Hj].
  - intros [Hi Hl]. exists (Z.to_nat i). split; [cbn [Nat.add]; lia | exact Hl].
Qed.

Lemma glyph_coords_In (cols : list Z) (cx y x' y' : Z) :
  In (x', y') (glyph_coords cols cx y)
  <-> exists col,
        0 <= x' - cx /\ cols !! Z.to_nat (x' - cx) = Some col
        /\ 0 <= y' - y < 8 /\ Z.testbit col (y' - y) = true.
Proof.
  unfold glyph_coords. rewrite in_flat_map. split.
  - intros ([bit_col col] & Hen & Hin). apply enumerate_In in Hen as [Hc Hl].
    apply in_flat_map in Hin as (bit_row & Hr & Hin). apply range_In in Hr.
    rewrite bit_test_truthy in Hin by lia.
    destruct (Z.testbit col bit_row) eqn:Hbit; [|contradiction].
    destruct Hin as [Heq|[]]. injection Heq as <- <-.
    exists col. replace (cx + bit_col - cx) with bit_col by lia.
    replace (y + bit_row - y) with bit_row by lia. auto.
  - intros (col & Hc & Hl & Hr & Hbit). exists (x' - cx, col). split.
    + apply enumerate_In. auto.
    + apply in_flat_map. exists (y' - y). split; [apply range_In; lia|].
      rewrite bit_test_truthy, Hbit by lia. left. f_equal; lia.
Qed.

Lemma text_coords_In (str : string) (cx y x' y' : Z) :
  In (x', y') (text_coords str cx y) <-> painted str cx y x' y'.
Proof.
  revert cx. induction str as [|char rest IH]; intros cx; cbn [text_coords].
  - split; [contradiction | intros (k & c & cols & col & Hget & _); destruct k; discriminate].
  - rewrite in_app_iff, IH. unfold painted. split.
    + intros [Hg | (k & c & cols & col & Hget & Hf & Hc & Hl & Hr & Hbit)].
      * destruct (font_get font_data char) as [cols|] eqn:Hf; [|contradiction].
        apply glyph_coords_In in Hg as (col & Hc & Hl & Hr & Hbit).
        exists 0%nat, char, cols, col. cbn [String.get].
        replace (x' - cx - 6 * Z.of_nat 0) with (x' - cx) by lia. auto 10.
      * exists (S k), c, cols, col. cbn [String.get].
        replace (x' - cx - 6 * Z.of_nat (S k)) with (x' - (cx + 6) - 6 * Z.of_nat k) by lia.
        auto 10.
    + intros ([|k] & c & cols & col & Hget & Hf & Hc & Hl & Hr & Hbit);
        cbn [String.get] in Hget.
      * injection Hget as ->. left. rewrite Hf. apply glyph_coords_In.
        exists col. replace (x' - cx - 6 * Z.of_nat 0) with (x' - cx) in * by lia. auto.
      * right. exists k, c, cols, col.
        replace (x' - cx - 6 * Z.of_nat (S k)) with (x' - (cx + 6) - 6 * Z.of_nat k)
          in * by lia.
        auto 10.
Qed.

End GlyphFacts.

(** ** What the drawing primitives do to the picture *)

Section PictureFacts.
Import Py Display.
Local Open Scope py_scope.

Lemma fresh_panel_drawable : drawable fresh_panel.
Proof.
  split; [apply fresh_panel_well_formed|]. split; [apply fresh_panel_well_formed|].
  reflexivity.
Qed.

Ltac panel_range :=
  unfold in_range; change (width fresh_panel) with 128;
  change (height fresh_panel) with 64; lia.

(** X1: [pixel] on an object with whole pages never raises, keeps the
    object drawable, leaves geometry and bus alone, and changes the
    picture at [(x, y)] only: that pixel becomes lit for a non-zero
    [state] and dark for 0; outside the panel it changes nothing. *)
Theorem pixel_writes_one_pixel (self : SSD1306) (x y state : Z) :
  drawable self ->
  exists self',
    pixel x y state self = (Ok tt, self')
    /\ drawable self' /\ same_panel self self'
    /\ (forall x' y', in_range self x' y' ->
          pixel_at self' x' y'
          = if (x' =? x) && (y' =? y) then truthy state else pixel_at self x' y')
    /\ (~ in_range self x y -> self' = self).
Proof.
  intros Hd. destruct (pixel_step self x y state Hd) as (self' & Hpix & Hd' & Hsame & Hat).
  exists self'. repeat (split; [assumption|]).
  intros Hout. rewrite (pixel_outside self x y state Hout) in Hpix. congruence.
Qed.

Lemma pixel_writes_one_pixel_witness :
  drawable fresh_panel
  /\ pixel_at (snd (pixel 3 10 1 fresh_panel)) 3 10 = true
  /\ pixel_at (snd (pixel 3 10 1 fresh_panel)) 3 11 = false
  /\ snd (pixel 128 10 1 fresh_panel) = fresh_panel.
Proof.
  split; [exact fresh_panel_drawable|].
  destruct (pixel_writes_one_pixel fresh_panel 3 10 1 fresh_panel_drawable)
    as (s & Hs & _ & _ & Hat & _).
  destruct (pixel_writes_one_pixel fresh_panel 128 10 1 fresh_panel_drawable)
    as (s' & Hs' & _ & _ & _ & Hout).
  rewrite Hs, Hs'. cbn [snd].
  split; [rewrite Hat by panel_range; reflexivity|].
  split; [rewrite Hat by panel_range; reflexivity|].
  apply Hout. panel_range.
Defined.

(** X2: On a display whose height is not a multiple of 8 the rows below the
    last whole page pass the range check but have no byte: [pixel]
    raises [IndexError] there and changes nothing. *)
Theorem pixel_below_last_page_raises (self : SSD1306) (x y state : Z) :
  well_formed self ->
  0 <= x < width self -> 0 <= y < height self -> 8 * pages self <= y ->
  pixel x y state self = (Raise IndexError, self).
Proof.
  intros [Hp Hl] Hx Hy Hlast.
  assert (Hq : pages self <= y / 8) by (apply Z.div_le_lower_bound; lia).
  assert (Hidx : index (length (buf self)) (y / 8 * width self + x) = Raise IndexError).
  { unfold index.
    destruct (Z.leb_spec 0 (y / 8 * width self + x)); [|nia].
    destruct (Z.ltb_spec (y / 8 * width self + x) (Z.of_nat (length (buf self)))); [nia|].
    cbn [andb].
    destruct (Z.ltb_spec (y / 8 * width self + x) 0); [lia|].
    rewrite andb_false_r. reflexivity. }
  unfold pixel, bind, get.
  destruct (Z.leb_spec 0 x); [|lia].
  destruct (Z.ltb_spec x (width self)); [|lia].
  destruct (Z.leb_spec 0 y); [|lia].
  destruct (Z.ltb_spec y (height self)); [|lia].
  cbn [andb negb].
  destruct (truthy state); unfold lift, getitem; rewrite Hidx; reflexivity.
Qed.

Lemma pixel_below_last_page_raises_witness :
  let self := snd (new 4 10 0x3C) in
  well_formed self
  /\ pixel 0 9 1 self = (Raise IndexError, self)
  /\ pixel 0 7 1 self = (Ok tt, set_buf [128; 0; 0; 0] self).
Proof.
  intros self. split; [split; reflexivity|].
  split; [|reflexivity].
  apply (pixel_below_last_page_raises self 0 9 1).
  - split; reflexivity.
  - split; [lia | reflexivity].
  - split; [lia | reflexivity].
  - vm_compute. discriminate.
Defined.

(** X4: [hline] never raises on a drawable object, leaves geometry and bus
    alone, and gives the colour to exactly the pixels of row [y] in the
    columns [x .. x + width - 1] that lie on the panel. *)
Theorem hline_draws (self : SSD1306) (x y width color : Z) :
  drawable self ->
  exists self',
    hline x y width color self = (Ok tt, self')
    /\ drawable self' /\ same_panel self self'
    /\ (forall x' y', in_range self x' y' ->
          pixel_at self' x' y'
          = if (y' =? y) && (x <=? x') && (x' <? x + width)
            then truthy color else pixel_at self x' y').
Proof.
  intros Hd. rewrite hline_as_pixels.
  destruct (draw_all_step (hline_coords x y width) color self Hd)
    as (self' & Hrun & Hd' & Hsame & Hat).
  exists self'. repeat (split; [assumption|]).
  intros x' y' Hin. rewrite (Hat x' y' Hin).
  erewrite hits_cond; [reflexivity|].
  rewrite hline_coords_In, !andb_true_iff, Z.eqb_eq, Z.leb_le, Z.ltb_lt. tauto.
Qed.

Lemma hline_draws_witness :
  drawable fresh_panel
  /\ pixel_at (snd (hline 126 3 5 1 fresh_panel)) 127 3 = true
  /\ pixel_at (snd (hline 126 3 5 1 fresh_panel)) 125 3 = false
  /\ fst (hline 126 3 5 1 fresh_panel) = Ok tt.
Proof.
  split; [exact fresh_panel_drawable|].
  destruct (hline_draws fresh_panel 126 3 5 1 fresh_panel_drawable)
    as (s & Hs & _ & _ & Hat).
  rewrite Hs. cbn [fst snd].
  split; [rewrite Hat by panel_range; reflexivity|].
  split; [rewrite Hat by panel_range; reflexivity | reflexivity].
Defined.

(** X5: [vline] never raises on a drawable object, leaves geometry and bus
    alone, and gives the colour to exactly the pixels of column [x] in the
    rows [y .. y + height - 1] that lie on the panel. *)
Theorem vline_draws (self : SSD1306) (x y height color : Z) :
  drawable self ->
  exists self',
    vline x y height color self = (Ok tt, self')
    /\ drawable self' /\ same_panel self self'
    /\ (forall x' y', in_range self x' y' ->
          pixel_at self' x' y'
          = if (x' =? x) && (y <=? y') && (y' <? y + height)
            then truthy color else pixel_at self x' y').
Proof.
  intros Hd. rewrite vline_as_pixels.
  destruct (draw_all_step (vline_coords x y height) color self Hd)
    as (self' & Hrun & Hd' & Hsame & Hat).
  exists self'. repeat (split; [assumption|]).
  intros x' y' Hin. rewrite (Hat x' y' Hin).
  erewrite hits_cond; [reflexivity|].
  rewrite vline_coords_In, !andb_true_iff, Z.eqb_eq, Z.leb_le, Z.ltb_lt. tauto.
Qed.

Lemma vline_draws_witness :
  drawable fresh_panel
  /\ pixel_at (snd (vline 5 60 10 1 fresh_panel)) 5 63 = true
  /\ pixel_at (snd (vline 5 60 10 1 fresh_panel)) 5 59 = false.
Proof.
  split; [exact fresh_panel_drawable|].
  destruct (vline_draws fresh_panel 5 60 10 1 fresh_panel_drawable)
    as (s & Hs & _ & _ & Hat).
  rewrite Hs. cbn [snd].
  split; rewrite Hat by panel_range; reflexivity.
Defined.

(** X6: A filled [rect] gives the colour to exactly the pixels of the
    [width] x [height] block at [(x, y)] that lie on the panel. *)
Theorem rect_fill_draws (self : SSD1306) (x y width height color : Z) :
  drawable self ->
  exists self',
    rect x y width height color true self = (Ok tt, self')
    /\ drawable self' /\ same_panel self self'
    /\ (forall x' y', in_range self x' y' ->
          pixel_at self' x' y'
          = if (x <=? x') && (x' <? x + width) && (y <=? y') && (y' <? y + height)
            then truthy color else pixel_at self x' y').
Proof.
  intros Hd. rewrite rect_as_pixels.
  destruct (draw_all_step (rect_coords x y width height true) color self Hd)
    as (self' & Hrun & Hd' & Hsame & Hat).
  exists self'. repeat (split; [assumption|]).
  intros x' y' Hin. rewrite (Hat x' y' Hin).
  erewrite hits_cond; [reflexivity|].
  rewrite rect_fill_coords_In, !andb_true_iff, !Z.leb_le, !Z.ltb_lt. tauto.
Qed.

Lemma rect_fill_draws_witness :
  drawable fresh_panel
  /\ pixel_at (snd (rect 42 17 19 4 1 true fresh_panel)) 60 20 = true
  /\ pixel_at (snd (rect 42 17 19 4 1 true fresh_panel)) 61 20 = false.
Proof.
  split; [exact fresh_panel_drawable|].
  destruct (rect_fill_draws fresh_panel 42 17 19 4 1 fresh_panel_drawable)
    as (s & Hs & _ & _ & Hat).
  rewrite Hs. cbn [snd].
  split; rewrite Hat by panel_range; reflexivity.
Defined.

(** X7: An outline [rect] gives the colour to exactly the on-panel pixels of
    its top row, its bottom row [y + height - 1], its left column and its
    right column [x + width - 1], and leaves the inside alone. *)
Theorem rect_outline_draws (self : SSD1306) (x y width height color : Z) :
  drawable self ->
  exists self',
    rect x y width height color false self = (Ok tt, self')
    /\ drawable self' /\ same_panel self self'
    /\ (forall x' y', in_range self x' y' ->
          pixel_at self' x' y'
          = if ((y' =? y) || (y' =? y + height - 1)) && (x <=? x') && (x' <? x + width)
               || ((x' =? x) || (x' =? x + width - 1)) && (y <=? y') && (y' <? y + height)
            then truthy color else pixel_at self x' y').
Proof.
  intros Hd. rewrite rect_as_pixels.
  destruct (draw_all_step (rect_coords x y width height false) color self Hd)
    as (self' & Hrun & Hd' & Hsame & Hat).
  exists self'. repeat (split; [assumption|]).
  intros x' y' Hin. rewrite (Hat x' y' Hin).
  erewrite hits_cond; [reflexivity|].
  rewrite rect_outline_coords_In, !orb_true_iff, !andb_true_iff, !orb_true_iff,
      !Z.eqb_eq, !Z.leb_le, !Z.ltb_lt. tauto.
Qed.

Lemma rect_outline_draws_witness :
  drawable fresh_panel
  /\ pixel_at (snd (rect 40 15 80 8 1 false fresh_panel)) 119 22 = true
  /\ pixel_at (snd (rect 40 15 80 8 1 false fresh_panel)) 41 16 = false.
Proof.
  split; [exact fresh_panel_drawable|].
  destruct (rect_outline_draws fresh_panel 40 15 80 8 1 fresh_panel_drawable)
    as (s & Hs & _ & _ & Hat).
  rewrite Hs. cbn [snd].
  split; rewrite Hat by panel_range; reflexivity.
Defined.

End PictureFacts.

(** ** Text and the welcome screen *)

Section TextFacts.
Import Py Display.
Local Open Scope py_scope.

(** X8: [text] never raises on a drawable object, leaves geometry and bus
    alone, and gives the colour to exactly the on-panel pixels that a
    glyph of the string covers with a set bit: character [k] sits at
    column [x + 6k], its glyph column [i] at [x + 6k + i], bit [j] of
    that column at row [y + j]. Every other pixel keeps its value, the
    background of the glyphs included. *)
Theorem text_draws (self : SSD1306) (str : string) (x y color : Z) :
  drawable self ->
  exists self',
    text str x y color self = (Ok tt, self')
    /\ drawable self' /\ same_panel self self'
    /\ (forall x' y', in_range self x' y' ->
          (painted str x y x' y' -> pixel_at self' x' y' = truthy color)
          /\ (~ painted str x y x' y' -> pixel_at self' x' y' = pixel_at self x' y')).
Proof.
  intros Hd. unfold text. rewrite text_as_pixels.
  destruct (draw_all_step (text_coords str x y) color self Hd)
    as (self' & Hrun & Hd' & Hsame & Hat).
  exists self'. repeat (split; [assumption|]).
  intros x' y' Hin. rewrite (Hat x' y' Hin).
  pose proof (existsb_hits (text_coords str x y) x' y') as Hhit.
  rewrite text_coords_In in Hhit.
  destruct (existsb _ (text_coords str x y)).
  - split; [reflexivity|]. intros Hno. exfalso. apply Hno, Hhit. reflexivity.
  - split; [|reflexivity]. intros Hyes. apply Hhit in Hyes. discriminate.
Qed.

Lemma text_draws_witness :
  drawable fresh_panel
  /\ painted "0"%string 0 0 0 1
  /\ pixel_at (snd (text "0"%string 0 0 1 fresh_panel)) 0 1 = true
  /\ take 5 (buf (snd (text "0"%string 0 0 1 fresh_panel))) = [0x3E; 0x51; 0x49; 0x45; 0x3E].
Proof.
  assert (Hp : painted "0"%string 0 0 0 1).
  { exists 0%nat, "0"%char, [0x3E; 0x51; 0x49; 0x45; 0x3E], 0x3E.
    repeat split; try reflexivity; lia. }
  split; [exact fresh_panel_drawable|]. split; [exact Hp|].
  split; [|vm_compute; reflexivity].
  destruct (text_draws fresh_panel "0"%string 0 0 1 fresh_panel_drawable)
    as (s & Hs & _ & _ & Hat).
  rewrite Hs. cbn [snd].
  apply (Hat 0 1); [|exact Hp].
  unfold in_range. change (width fresh_panel) with 128.
  change (height fresh_panel) with 64. lia.
Defined.

Lemma space_glyph_draws_nothing (cx y color : Z) (self : SSD1306) :
  draw_glyph [0x00; 0x00; 0x00; 0x00; 0x00] cx y color self = (Ok tt, self).
Proof. rewrite glyph_as_pixels. reflexivity. Qed.

(** X9: A character that has no glyph is drawn like a space: nothing is
    painted and the cursor moves on by 6 columns. *)
Theorem text_unsupported_blank (self : SSD1306) (str : string) (x y color : Z) :
  text str x y color self = text (blank_unsupported str) x y color self.
Proof.
  unfold text. revert x self.
  induction str as [|char rest IH]; intros x self; cbn [blank_unsupported text_from].
  - reflexivity.
  - unfold bind. destruct (font_get font_data char) as [cols|] eqn:Hf.
    + rewrite Hf. destruct (draw_glyph cols x y color self) as [[[]|e] s1];
        [apply IH | reflexivity].
    + change (font_get font_data " "%char) with (Some [0x00; 0x00; 0x00; 0x00; 0x00]).
      cbv beta iota. rewrite space_glyph_draws_nothing. apply IH.
Qed.

(** X10: Drawing a concatenation is drawing the first string and then the
    second one 6 columns further right per character of the first. *)
Theorem text_concat (self : SSD1306) (s1 s2 : string) (x y color : Z) :
  text (String.append s1 s2) x y color self
  = bind (text s1 x y color)
         (fun _ => text s2 (x + 6 * Z.of_nat (String.length s1)) y color) self.
Proof.
  unfold text. revert x self.
  induction s1 as [|char rest IH]; intros x self.
  2: change (String.append (String char rest) s2)
       with (String char (String.append rest s2)).
  all: cbn [String.append String.length text_from].
  - unfold bind, ret. replace (x + 6 * Z.of_nat 0) with x by lia. reflexivity.
  - unfold bind.
    destruct (match font_get font_data char with
              | Some cols => draw_glyph cols x y color
              | None => ret tt
              end self) as [[[]|e] s']; [|reflexivity].
    rewrite IH. unfold bind.
    replace (x + 6 + 6 * Z.of_nat (String.length rest))
      with (x + 6 * Z.of_nat (S (String.length rest))) by lia.
    reflexivity.
Qed.

Lemma text_runs (self : SSD1306) (str : string) (x y color : Z) :
  drawable self ->
  exists self',
    text str x y color self = (Ok tt, self') /\ drawable self' /\ same_panel self self'.
Proof.
  intros Hd. unfold text. rewrite text_as_pixels.
  destruct (draw_all_step (text_coords str x y) color self Hd) as (self' & H & Hd' & Hs & _).
  eauto.
Qed.

Lemma hline_runs (self : SSD1306) (x y width color : Z) :
  drawable self ->
  exists self',
    hline x y width color self = (Ok tt, self') /\ drawable self' /\ same_panel self self'.
Proof.
  intros Hd. rewrite hline_as_pixels.
  destruct (draw_all_step (hline_coords x y width) color self Hd) as (self' & H & Hd' & Hs & _).
  eauto.
Qed.

Lemma drawable_cleared (self : SSD1306) :
  drawable self -> drawable (set_buf (repeat 0 (length (buf self))) self).
Proof.
  intros ([Hp Hl] & _ & H8). split; [split|split].
  - exact Hp.
  - cbn [set_buf buf pages width]. rewrite repeat_length. exact Hl.
  - unfold bytes_ok. cbn [set_buf buf]. apply List.Forall_forall.
    intros b Hb. apply repeat_spec in Hb. lia.
  - exact H8.
Qed.

Lemma drawable_push_frames (fs : list frame) (self : SSD1306) :
  drawable self -> drawable (push_frames fs self).
Proof. intros H. exact H. Qed.

(** X12: [show_welcome] does nothing on an uninitialised display. On an
    initialised one with 8 pages it never raises and sends the panel
    twice: first the 32 frames of an all-zero buffer, then, after
    drawing, the 32 frames of the buffer it leaves behind. *)
Theorem show_welcome_sends_two_frames (d : Display) :
  (initialized d = false -> show_welcome d = (Ok tt, d))
  /\ (forall o : SSD1306,
        initialized d = true -> oled d = Some o -> drawable o -> pages o = 8 ->
        exists o',
          show_welcome d = (Ok tt, mkDisplay (Some o') true)
          /\ drawable o'
          /\ i2c o'
             = i2c o
               ++ flat_map (page_frames (set_buf (repeat 0 (length (buf o))) o))
                    [0; 1; 2; 3; 4; 5; 6; 7]
               ++ flat_map (page_frames o') [0; 1; 2; 3; 4; 5; 6; 7]).
Proof.
  split.
  - intros Hinit. unfold show_welcome, bind, get. rewrite Hinit. reflexivity.
  - intros o Hinit Hol Hd H8. destruct d as [ol ini]. cbn [initialized oled] in *.
    subst ol ini.
    set (cleared := set_buf (repeat 0 (length (buf o))) o).
    set (F1 := flat_map (page_frames cleared) [0; 1; 2; 3; 4; 5; 6; 7]).
    assert (Hclear : clear o = (Ok tt, push_frames F1 cleared))
      by (rewrite clear_is_show; apply show_8_pages; exact H8).
    assert (Hd0 : drawable (push_frames F1 cleared))
      by (apply drawable_push_frames, drawable_cleared, Hd).
    destruct (text_runs _ "MICROPAD v1.0"%string 20 5 1 Hd0) as (o1 & H1 & Hd1 & Hs1).
    destruct (text_runs _ "XIAO RP2040"%string 25 20 1 Hd1) as (o2 & H2 & Hd2 & Hs2).
    destruct (hline_runs _ 0 35 128 1 Hd2) as (o3 & H3 & Hd3 & Hs3).
    destruct (text_runs _ "6 Keys + Encoder"%string 15 42 1 Hd3) as (o4 & H4 & Hd4 & Hs4).
    pose proof (same_panel_trans _ _ _ Hs1 (same_panel_trans _ _ _ Hs2
                  (same_panel_trans _ _ _ Hs3 Hs4))) as (_ & _ & _ & Hp4 & Hi4).
    cbn [push_frames pages i2c set_buf cleared] in Hp4, Hi4.
    assert (Hshow : show o4
                    = (Ok tt, push_frames (flat_map (page_frames o4) [0; 1; 2; 3; 4; 5; 6; 7]) o4))
      by (apply show_8_pages; congruence).
    exists (push_frames (flat_map (page_frames o4) [0; 1; 2; 3; 4; 5; 6; 7]) o4).
    split; [|split].
    + unfold show_welcome, bind, get, with_oled. cbn [initialized oled negb].
      rewrite Hclear. cbn [oled initialized]. rewrite H1. cbn [oled initialized].
      rewrite H2. cbn [oled initialized]. rewrite H3. cbn [oled initialized].
      rewrite H4. cbn [oled initialized]. rewrite Hshow. reflexivity.
    + apply drawable_push_frames, Hd4.
    + cbn [push_frames i2c]. rewrite Hi4. rewrite <- app_assoc. reflexivity.
Qed.

Lemma show_welcome_sends_two_frames_witness :
  initialized Display_new = true
  /\ oled Display_new = Some fresh_panel
  /\ drawable fresh_panel /\ pages fresh_panel = 8
  /\ exists o',
       show_welcome Display_new = (Ok tt, mkDisplay (Some o') true)
       /\ length (i2c o') = 65%nat.
Proof.
  split; [reflexivity|]. split; [reflexivity|].
  split; [exact fresh_panel_drawable|]. split; [reflexivity|].
  destruct (proj2 (show_welcome_sends_two_frames Display_new) fresh_panel
              eq_refl eq_refl fresh_panel_drawable eq_refl) as (o' & Hrun & _ & Hbus).
  exists o'. split; [exact Hrun|].
  rewrite Hbus, !length_app. reflexivity.
Defined.

End TextFacts.

(** ** More on the HID dispatcher *)

Section DispatcherFacts.
Import Py Hid.
Local Open Scope py_scope.

(** X13: The constructor enables the dispatcher exactly when [usb_hid] was
    imported and lists a device; the device it keeps is then one of the
    listed ones: the first with the consumer usage page 0x0C if there is
    one, the first of the list otherwise. *)
Theorem new_selects_device (HID_AVAILABLE : bool) (devices : list Device) :
  log (new HID_AVAILABLE devices) = []
  /\ (enabled (new HID_AVAILABLE devices) = true
      <-> HID_AVAILABLE = true /\ devices <> [])
  /\ (enabled (new HID_AVAILABLE devices) = false ->
      keyboard (new HID_AVAILABLE devices) = None)
  /\ (enabled (new HID_AVAILABLE devices) = true ->
      exists device,
        keyboard (new HID_AVAILABLE devices) = Some device
        /\ In device devices
        /\ (usage_page device = 0x0C
            \/ (Forall (fun d => usage_page d <> 0x0C) devices
                /\ head devices = Some device))
        /\ (forall before d after,
              devices = before ++ d :: after -> usage_page d = 0x0C ->
              Forall (fun d' => usage_page d' <> 0x0C) before -> device = d)).
Proof.
  unfold new. destruct HID_AVAILABLE; [|cbn; intuition discriminate].
  destruct devices as [|first rest]; [cbn; intuition congruence|].
  destruct (List.find (fun device => usage_page device =? 0x0C) (first :: rest))
    as [device|] eqn:Hfind; cbn [log enabled keyboard].
  - split; [reflexivity|]. split; [intuition congruence|]. split; [discriminate|].
    intros _. exists device. split; [reflexivity|].
    pose proof (find_some _ _ Hfind) as [Hin Hpage]. apply Z.eqb_eq in Hpage.
    split; [exact Hin|]. split; [left; exact Hpage|].
    intros before d after Heq Hd Hbefore. rewrite Heq in Hfind.
    clear Heq Hin. induction Hbefore as [|b before Hb _ IH]; cbn [app List.find] in Hfind.
    + rewrite (proj2 (Z.eqb_eq _ _) Hd) in Hfind. congruence.
    + rewrite (proj2 (Z.eqb_neq _ _) Hb) in Hfind. exact (IH Hfind).
  - split; [reflexivity|]. split; [intuition congruence|]. split; [discriminate|].
    intros _. exists first. split; [reflexivity|]. split; [left; reflexivity|].
    assert (Hnone : Forall (fun d => usage_page d <> 0x0C) (first :: rest)).
    { apply List.Forall_forall. intros d Hd Hpage.
      pose proof (find_none _ _ Hfind d Hd) as Hno. cbn beta in Hno.
      rewrite (proj2 (Z.eqb_eq _ _) Hpage) in Hno. discriminate. }
    split; [right; split; [exact Hnone | reflexivity]|].
    intros before d after Heq Hd _. exfalso.
    rewrite List.Forall_forall in Hnone. apply (Hnone d); [|exact Hd].
    rewrite Heq. apply in_elt.
Qed.

Lemma new_selects_device_witness :
  enabled (new true [bare_device; sending_device]) = true
  /\ keyboard (new true [mkDevice 0x01 None None; sending_device]) = Some sending_device
  /\ keyboard (new true [mkDevice 0x01 None None]) = Some (mkDevice 0x01 None None)
  /\ keyboard (new true []) = None.
Proof.
  split; [reflexivity|].
  destruct (new_selects_device true [mkDevice 0x01 None None; sending_device])
    as (_ & _ & _ & Hsel).
  destruct (Hsel eq_refl) as (device & Hkb & _ & _ & Hfirst).
  split.
  - rewrite Hkb. f_equal.
    apply (Hfirst [mkDevice 0x01 None None] sending_device []);
      [reflexivity | reflexivity | repeat constructor; discriminate].
  - split; [reflexivity|].
    apply (proj1 (proj2 (proj2 (new_selects_device true [])))). reflexivity.
Defined.

(** X14: A report carries the usage code in little-endian order, low byte
    first, then a zero byte; every report is three bytes in range. *)
Theorem report_carries_code (code : Z) :
  (exists lo hi,
     report_of code = [lo; hi; 0] /\ 0 <= lo < 256 /\ 0 <= hi < 256
     /\ (0 <= code < 65536 -> lo + 256 * hi = code))
  /\ bytes (report_of code) = Ok (report_of code).
Proof.
  split.
  - exists (Z.land code 0xFF), (Z.land (Z.shiftr code 8) 0xFF). unfold report_of.
    change 0xFF with (Z.ones 8). rewrite !Z.land_ones, Z.shiftr_div_pow2 by lia.
    change (2 ^ 8) with 256.
    pose proof (Z.mod_pos_bound code 256 eq_refl).
    pose proof (Z.mod_pos_bound (code / 256) 256 eq_refl).
    split; [reflexivity|]. split; [lia|]. split; [lia|].
    intros Hc. rewrite (Z.mod_small (code / 256) 256).
    + rewrite (Z.div_mod code 256) at 3 by lia. lia.
    + split; [apply Z.div_pos; lia | apply Z.div_lt_upper_bound; lia].
  - unfold bytes. rewrite report_of_is_bytes. reflexivity.
Qed.

Lemma report_carries_code_witness :
  report_of 0x1E9 = [0xE9; 0x01; 0] /\ 0xE9 + 256 * 0x01 = 0x1E9.
Proof.
  destruct (report_carries_code 0x1E9) as ((lo & hi & Hrep & _ & _ & Hval) & _).
  split; [reflexivity|].
  assert (Hlo : lo = 0xE9 /\ hi = 0x01) by (vm_compute in Hrep; split; congruence).
  destruct Hlo as [-> ->]. apply Hval. lia.
Defined.

(** With a device whose [send] returns, any code goes out as press,
    50 ms, release. *)
Lemma send_action_two_sends (code : Z) (self : MediaControl) (device : Device)
    (f : primitive) :
  enabled self = true -> keyboard self = Some device -> send device = Some f ->
  (forall l r, f l r = None) ->
  send_action code self
  = (Ok true,
     mkMediaControl true (Some device)
       (log self ++ [EvSend (report_of code); EvSleep 50; EvSend [0; 0; 0]])).
Proof.
  intros Hen Hkb Hsend Hf.
  destruct self as [en kb lg]. cbn [enabled keyboard log] in *. subst en kb.
  unfold send_action, _send_media_command, call_primitive, sleep_50ms, record_event,
    try_except, bind, get, lift, bytes, modify, raise, ret.
  cbv beta iota zeta. cbn [enabled keyboard log negb orb].
  rewrite report_of_is_bytes, bool_decide_eq_true_2 by eauto.
  cbv beta iota zeta. cbn [enabled keyboard log negb orb].
  repeat (first [rewrite Hsend | rewrite Hf | rewrite <- app_assoc];
          cbv beta iota zeta; cbn [enabled keyboard log app]).
  reflexivity.
Qed.

(** X15: Each of the six operations sends its own consumer-control code:
    0xE9, 0xEA, 0xE2, 0xCD, 0xB5 and 0xB6, as the low byte of the press
    report, and then the all-zero release. *)
Theorem each_action_sends_its_code (self : MediaControl) (device : Device)
    (f : primitive) :
  enabled self = true -> keyboard self = Some device -> send device = Some f ->
  (forall l r, f l r = None) ->
  let sent (low : Z) :=
    (Ok true,
     mkMediaControl true (Some device)
       (log self ++ [EvSend [low; 0x00; 0x00]; EvSleep 50; EvSend [0x00; 0x00; 0x00]])) in
  volume_up self = sent 0xE9 /\ volume_down self = sent 0xEA
  /\ volume_mute self = sent 0xE2 /\ play_pause self = sent 0xCD
  /\ next_track self = sent 0xB5 /\ prev_track self = sent 0xB6.
Proof.
  intros Hen Hkb Hsend Hf sent. subst sent. cbv beta.
  unfold volume_up, volume_down, volume_mute, play_pause, next_track, prev_track.
  rewrite !(fun code => send_action_two_sends code self device f Hen Hkb Hsend Hf).
  repeat split; reflexivity.
Qed.

Lemma each_action_sends_its_code_witness :
  enabled (new true [sending_device]) = true
  /\ volume_down (new true [sending_device])
     = (Ok true,
        mkMediaControl true (Some sending_device)
          [EvSend [0xEA; 0x00; 0x00]; EvSleep 50; EvSend [0x00; 0x00; 0x00]])
  /\ prev_track (new true [sending_device])
     = (Ok true,
        mkMediaControl true (Some sending_device)
          [EvSend [0xB6; 0x00; 0x00]; EvSleep 50; EvSend [0x00; 0x00; 0x00]]).
Proof.
  split; [reflexivity|].
  destruct (each_action_sends_its_code (new true [sending_device]) sending_device
              (fun _ _ => None) eq_refl eq_refl eq_refl (fun _ _ => eq_refl))
    as (_ & Hdown & _ & _ & _ & Hprev).
  split; [exact Hdown | exact Hprev].
Defined.

End DispatcherFacts.

(** ** More on the encoder *)

Section EncoderRuns.
Import Py Encoder.
Local Open Scope py_scope.
Context {W : Type}.
Implicit Types (self : EC11Encoder W) (w : W).

Lemma rotation_stamp self w (now clk dt : Z) :
  Pins.ENCODER_DEBOUNCE_TIME <= now - last_interrupt_time self ->
  last_interrupt_time (fst (snd (_handle_rotation now clk dt (self, w)))) = now.
Proof.
  intros H. rewrite rotation_accepted by exact H. cbn zeta.
  destruct (negb (clk =? last_clk self) && (clk =? 0)); [|reflexivity].
  destruct (callback_rotate self) as [cb|]; [|reflexivity].
  destruct (cb _ w) as [[[]|e] w']; reflexivity.
Qed.

Lemma button_stamp self w (now sw : Z) :
  50 <= now - button_press_time self ->
  button_press_time (fst (snd (_handle_button now sw (self, w)))) = now.
Proof.
  intros H. rewrite button_accepted by exact H.
  destruct (sw =? 0); [|reflexivity].
  destruct (callback_button self); reflexivity.
Qed.

(** X16: Inside the debounce window that an accepted edge opens, every
    further edge is discarded whole: no callback runs and the encoder
    object stays as the accepted edge left it. The window is 2 ms for
    rotation and 50 ms for the button. *)
Theorem encoder_bounce_discarded self w (t1 t2 clk dt clk' dt' sw sw' : Z) :
  (Pins.ENCODER_DEBOUNCE_TIME <= t1 - last_interrupt_time self ->
   t2 - t1 < Pins.ENCODER_DEBOUNCE_TIME ->
   _handle_rotation t2 clk' dt' (snd (_handle_rotation t1 clk dt (self, w)))
   = (Ok tt, snd (_handle_rotation t1 clk dt (self, w))))
  /\ (50 <= t1 - button_press_time self ->
      t2 - t1 < 50 ->
      _handle_button t2 sw' (snd (_handle_button t1 sw (self, w)))
      = (Ok tt, snd (_handle_button t1 sw (self, w)))).
Proof.
  split.
  - intros H1 H2. pose proof (rotation_stamp self w t1 clk dt H1) as Hs.
    destruct (snd (_handle_rotation t1 clk dt (self, w))) as [s1 w1]. cbn [fst] in Hs.
    apply rotation_rejected. rewrite Hs. exact H2.
  - intros H1 H2. pose proof (button_stamp self w t1 sw H1) as Hs.
    destruct (snd (_handle_button t1 sw (self, w))) as [s1 w1]. cbn [fst] in Hs.
    apply button_rejected. rewrite Hs. exact H2.
Qed.

(** X17: After an interrupt that was accepted and ended normally, the CLK
    level it sampled is the reference: the next accepted interrupt that
    samples the same level calls nothing. A falling edge is therefore
    reported once. *)
Theorem one_tick_per_falling_edge self w (s1 : EC11Encoder W) (w1 : W)
    (t1 t2 clk dt1 dt2 : Z) :
  Pins.ENCODER_DEBOUNCE_TIME <= t1 - last_interrupt_time self ->
  _handle_rotation t1 clk dt1 (self, w) = (Ok tt, (s1, w1)) ->
  Pins.ENCODER_DEBOUNCE_TIME <= t2 - t1 ->
  last_clk s1 = clk
  /\ _handle_rotation t2 clk dt2 (s1, w1)
     = (Ok tt, (set_last_clk_dt clk dt2 (set_last_interrupt_time t2 s1), w1)).
Proof.
  intros H1 Hrun H2.
  assert (Hs1 : last_clk s1 = clk /\ last_interrupt_time s1 = t1).
  { rewrite (rotation_accepted self w t1 clk dt1 H1) in Hrun. cbn zeta in Hrun.
    destruct (negb (clk =? last_clk self) && (clk =? 0)).
    - destruct (callback_rotate self) as [cb|].
      + destruct (cb _ w) as [[[]|e] w']; [|discriminate].
        injection Hrun as <- _. split; reflexivity.
      + injection Hrun as <- _. split; reflexivity.
    - injection Hrun as <- _. split; reflexivity. }
  destruct Hs1 as [Hclk Hstamp]. split; [exact Hclk|].
  rewrite rotation_accepted by (rewrite Hstamp; exact H2). cbn zeta.
  rewrite Hclk, Z.eqb_refl. reflexivity.
Qed.

End EncoderRuns.

Section EncoderRunsConcrete.
Import Py Encoder.

Lemma encoder_bounce_discarded_witness :
  50 <= 200 - button_press_time (idle_at 100)
  /\ snd (snd (_handle_button 210 0 (snd (_handle_button 200 0 (idle_at 100, [])))))
     = [Press]
  /\ snd (snd (_handle_rotation 201 1 1 (snd (_handle_rotation 200 0 1 (idle_at 100, [])))))
     = [Tick 1].
Proof.
  assert (Hb : 50 <= 200 - button_press_time (idle_at 100)) by (vm_compute; discriminate).
  assert (Hr : Pins.ENCODER_DEBOUNCE_TIME <= 200 - last_interrupt_time (idle_at 100))
    by (vm_compute; discriminate).
  split; [exact Hb|].
  destruct (encoder_bounce_discarded (idle_at 100) [] 200 210 0 1 1 1 0 0) as [_ Hbtn].
  destruct (encoder_bounce_discarded (idle_at 100) [] 200 201 0 1 1 1 0 0) as [Hrot _].
  split.
  - rewrite (Hbtn Hb ltac:(lia)). reflexivity.
  - rewrite (Hrot Hr ltac:(vm_compute; reflexivity)). reflexivity.
Defined.

Lemma one_tick_per_falling_edge_witness :
  _handle_rotation 10 0 1 (idle_at 0, [])
  = (Ok tt, (set_last_clk_dt 0 1 (set_last_interrupt_time 10 (idle_at 0)), [Tick 1]))
  /\ snd (snd (_handle_rotation 20 0 1
                 (set_last_clk_dt 0 1 (set_last_interrupt_time 10 (idle_at 0)), [Tick 1])))
     = [Tick 1].
Proof.
  assert (Hrun : _handle_rotation 10 0 1 (idle_at 0, [])
                 = (Ok tt, (set_last_clk_dt 0 1 (set_last_interrupt_time 10 (idle_at 0)),
                            [Tick 1]))) by reflexivity.
  split; [exact Hrun|].
  destruct (one_tick_per_falling_edge (idle_at 0) [] _ _ 10 20 0 1 1
              ltac:(vm_compute; discriminate) Hrun ltac:(vm_compute; discriminate))
    as [_ Hnext].
  rewrite Hnext. reflexivity.
Defined.

End EncoderRunsConcrete.

(** ** More on the switch handler *)

Section SwitchRuns.
Import Py Main.
Local Open Scope py_scope.
Context {W : Type}.
Implicit Types (self : SwitchHandler W) (w : W).

Lemma switch_after_accept self w (name : string) (now last : Z) :
  last_press_time self !! name = Some last ->
  Pins.DEBOUNCE_TIME <= now - last ->
  fst (snd (_handle_switch_press name now (self, w))) = pressed name now self.
Proof.
  intros Hl H. rewrite (switch_accepted self w name now last Hl H).
  destruct (press_callbacks self !! name); reflexivity.
Qed.

(** X18: Inside the 20 ms after an accepted press of a switch, a further
    press of that switch is discarded whole: the callback does not run
    again and the handler object is unchanged. The other switches keep
    their own time stamps. *)
Theorem switch_bounce_discarded self w (name : string) (t1 t2 last : Z) :
  last_press_time self !! name = Some last ->
  Pins.DEBOUNCE_TIME <= t1 - last ->
  (t2 - t1 < Pins.DEBOUNCE_TIME ->
   _handle_switch_press name t2 (snd (_handle_switch_press name t1 (self, w)))
   = (Ok tt, snd (_handle_switch_press name t1 (self, w))))
  /\ (forall other,
        other <> name ->
        last_press_time (fst (snd (_handle_switch_press name t1 (self, w)))) !! other
        = last_press_time self !! other).
Proof.
  intros Hl H1. pose proof (switch_after_accept self w name t1 last Hl H1) as Hafter.
  destruct (snd (_handle_switch_press name t1 (self, w))) as [s1 w1]. cbn [fst] in *.
  subst s1. split.
  - intros H2. apply (switch_rejected _ _ _ _ t1); [|exact H2].
    cbn [pressed set_states set_last_press_time last_press_time]. apply lookup_insert_eq.
  - intros other Hne. cbn [pressed set_states set_last_press_time last_press_time].
    apply lookup_insert_ne. congruence.
Qed.

Lemma dict_get_In {V} (k : string) (v : V) (d : list (string * V)) :
  NoDup (map fst d) -> (dict_get k d = Some v <-> In (k, v) d).
Proof.
  induction d as [|[k' v'] d IH]; cbn [map fst dict_get In]; intros Hnd.
  - split; [discriminate | contradiction].
  - apply NoDup_cons in Hnd as [Hfresh Hnd].
    destruct (String.eqb_spec k k') as [->|Hne].
    + split.
      * intros [= ->]. left. reflexivity.
      * intros [[= ->] | Hin]; [reflexivity|].
        exfalso. apply Hfresh. apply list_elem_of_In. apply (in_map fst) in Hin. exact Hin.
    + rewrite (IH Hnd). split; [tauto|]. intros [[= -> ->] | Hin]; [congruence | exact Hin].
Qed.

(** X19: [get_active_switches] lists exactly the switches whose flag is
    true. *)
Theorem active_switches_are_true_flags self (name : string) :
  NoDup (map fst (states self)) ->
  (In name (get_active_switches self) <-> dict_get name (states self) = Some true).
Proof.
  intros Hnd. unfold get_active_switches. rewrite (dict_get_In _ _ _ Hnd), in_map_iff.
  split.
  - intros ([k b] & <- & Hin). apply filter_In in Hin as [Hin Hb].
    cbn [fst snd] in *. subst b. exact Hin.
  - intros Hin. exists (name, true). split; [reflexivity|].
    apply filter_In. split; [exact Hin | reflexivity].
Qed.

Lemma dict_set_keys {V} (k : string) (v : V) (d : list (string * V)) :
  In k (map fst d) -> map fst (dict_set k v d) = map fst d.
Proof.
  induction d as [|[k' v'] d IH]; cbn [map fst dict_set In]; [contradiction|].
  intros Hin. destruct (String.eqb_spec k k') as [->|Hne]; cbn [map fst].
  - reflexivity.
  - f_equal. apply IH. destruct Hin as [Heq|Hin]; [congruence | exact Hin].
Qed.

Lemma reset_loop_frame (names : list string) self :
  (forall n, In n names -> In n (map fst (states self))) ->
  let self' := fold_left
                 (fun s n => set_states (dict_set n false (states s)) s) names self in
  map fst (states self') = map fst (states self)
  /\ pins self' = pins self /\ last_press_time self' = last_press_time self
  /\ press_callbacks self' = press_callbacks self.
Proof.
  revert self. induction names as [|n names IH]; intros self Hin; cbn [fold_left].
  - repeat split.
  - cbn zeta in IH.
    destruct (IH (set_states (dict_set n false (states self)) self)) as (Hk & Hp & Hl & Hc).
    { intros m Hm. cbn [states set_states]. rewrite dict_set_keys by (apply Hin; left; reflexivity).
      apply Hin. right. exact Hm. }
    cbn [states set_states pins last_press_time press_callbacks] in *.
    rewrite dict_set_keys in Hk by (apply Hin; left; reflexivity).
    repeat split; assumption.
Qed.

End SwitchRuns.

Section SwitchResets.
Import Py Main.
Local Open Scope py_scope.
Context {W : Type}.
Implicit Types (self : SwitchHandler W) (w : W).

(** X20: [reset_states] turns every flag off, so the active list is empty
    afterwards, and touches nothing else: the switches and their order,
    the pins, the debounce time stamps and the callbacks stay. *)
Theorem reset_clears_all self :
  NoDup (map fst (states self)) ->
  get_active_switches (reset_states self) = []
  /\ map fst (states (reset_states self)) = map fst (states self)
  /\ pins (reset_states self) = pins self
  /\ last_press_time (reset_states self) = last_press_time self
  /\ press_callbacks (reset_states self) = press_callbacks self.
Proof.
  intros Hnd.
  destruct (reset_loop_frame (map fst (states self)) self (fun n H => H))
    as (Hk & Hp & Hl & Hc).
  fold (reset_states self) in Hk, Hp, Hl, Hc.
  split; [|repeat split; assumption].
  destruct (get_active_switches (reset_states self)) as [|name rest] eqn:Hact;
    [reflexivity|].
  assert (Hin : In name (get_active_switches (reset_states self)))
    by (rewrite Hact; left; reflexivity).
  unfold get_active_switches in Hin. apply in_map_iff in Hin as ([k b] & <- & Hin).
  apply filter_In in Hin as [Hin Hb]. cbn [fst snd] in *. subst b.
  apply dict_get_In in Hin; [|rewrite Hk; exact Hnd].
  rewrite reset_states_flag in Hin.
  destruct (dict_get k (states self)); discriminate.
Qed.

(** X21: [register_callback] ignores a name that is not a configured switch;
    for a configured one it stores the callback, replacing any earlier
    one, and the next accepted press of that switch runs it once with
    the switch name. *)
Theorem register_then_press self w (name : string) (cb : string -> M W unit) :
  (pins self !! name = None -> register_callback name cb self = self)
  /\ (forall pin now last,
        pins self !! name = Some pin ->
        last_press_time self !! name = Some last ->
        Pins.DEBOUNCE_TIME <= now - last ->
        press_callbacks (register_callback name cb self) !! name = Some cb
        /\ _handle_switch_press name now (register_callback name cb self, w)
           = (fst (cb name w),
              (pressed name now (register_callback name cb self), snd (cb name w)))).
Proof.
  unfold register_callback. split.
  - intros ->. reflexivity.
  - intros pin now last -> Hl Hpass.
    assert (Hcb : press_callbacks
                    (set_press_callbacks (<[name := cb]> (press_callbacks self)) self)
                  !! name = Some cb) by apply lookup_insert_eq.
    split; [exact Hcb|].
    rewrite (switch_accepted
               (set_press_callbacks (<[name := cb]> (press_callbacks self)) self)
               w name now last Hl Hpass).
    cbn [press_callbacks set_press_callbacks]. rewrite lookup_insert_eq. reflexivity.
Qed.

End SwitchResets.

Section SwitchRunsConcrete.
Import Py Main Encoder.

Lemma handler_new_keys {W} :
  NoDup (map fst (states (@SwitchHandler_new W))).
Proof. apply NoDup_ListNoDup. vm_compute. repeat constructor; cbn; intuition discriminate. Qed.

Lemma switch_bounce_discarded_witness :
  last_press_time (@SwitchHandler_new (list emitted)) !! "switch_2"%string = Some 0
  /\ Pins.DEBOUNCE_TIME <= 100 - 0
  /\ _handle_switch_press "switch_2" 110
       (snd (_handle_switch_press "switch_2" 100 (@SwitchHandler_new (list emitted), [])))
     = (Ok tt, snd (_handle_switch_press "switch_2" 100
                      (@SwitchHandler_new (list emitted), []))).
Proof.
  split; [reflexivity|]. split; [vm_compute; discriminate|].
  apply (switch_bounce_discarded (@SwitchHandler_new (list emitted)) [] "switch_2" 100 110 0
           eq_refl ltac:(vm_compute; discriminate)).
  reflexivity.
Defined.

Lemma active_switches_are_true_flags_witness :
  NoDup (map fst (states (pressed "switch_3" 50 (@SwitchHandler_new (list emitted)))))
  /\ In "switch_3"%string (get_active_switches (pressed "switch_3" 50 (@SwitchHandler_new (list emitted))))
  /\ get_active_switches (pressed "switch_3" 50 (pressed "switch_5" 40 (@SwitchHandler_new (list emitted))))
     = ["switch_3"%string; "switch_5"%string].
Proof.
  assert (Hnd : NoDup (map fst (states (pressed "switch_3" 50
                                          (@SwitchHandler_new (list emitted)))))).
  { apply NoDup_ListNoDup. vm_compute. repeat constructor; cbn; intuition discriminate. }
  split; [exact Hnd|]. split; [|reflexivity].
  apply (active_switches_are_true_flags _ "switch_3" Hnd). reflexivity.
Defined.

Lemma reset_clears_all_witness :
  NoDup (map fst (states (pressed "switch_3" 50 (@SwitchHandler_new (list emitted)))))
  /\ get_active_switches (reset_states (pressed "switch_3" 50 (@SwitchHandler_new (list emitted))))
     = []
  /\ last_press_time (reset_states (pressed "switch_3" 50 (@SwitchHandler_new (list emitted))))
     !! "switch_3"%string = Some 50.
Proof.
  assert (Hnd : NoDup (map fst (states (pressed "switch_3" 50
                                          (@SwitchHandler_new (list emitted)))))).
  { apply NoDup_ListNoDup. vm_compute. repeat constructor; cbn; intuition discriminate. }
  destruct (reset_clears_all _ Hnd) as (Hact & _ & _ & Hl & _).
  split; [exact Hnd|]. split; [exact Hact|]. rewrite Hl. reflexivity.
Defined.

Lemma register_then_press_witness :
  register_callback "switch_9" (fun _ => record_press) (@SwitchHandler_new (list emitted))
  = SwitchHandler_new
  /\ snd (snd (_handle_switch_press "switch_1" 30
                 (register_callback "switch_1" (fun _ => record_press)
                    (@SwitchHandler_new (list emitted)), [])))
     = [Press].
Proof.
  destruct (register_then_press (@SwitchHandler_new (list emitted)) []
              "switch_9" (fun _ => record_press)) as [Hunknown _].
  destruct (register_then_press (@SwitchHandler_new (list emitted)) []
              "switch_1" (fun _ => record_press)) as [_ Hknown].
  split; [apply Hunknown; reflexivity|].
  destruct (Hknown 0 30 0 eq_refl eq_refl ltac:(vm_compute; discriminate)) as [_ Hrun].
  rewrite Hrun. reflexivity.
Defined.

End SwitchRunsConcrete.

(** ** The running system, with the callbacks of [main] *)

Section SystemFacts.
Import Py Main.
Local Open Scope py_scope.

Variable show_status : Z -> list string -> M Display.Display unit.
Variable show_key_press : string -> M Display.Display unit.

Local Abbreviation wired' := (wired show_key_press).
Local Abbreviation react' := (react show_status).

(** *** What the three callbacks do to the globals *)

Lemma on_encoder_rotate_globals (direction : Z) (g : Globals) :
  exists mc',
    snd (on_encoder_rotate direction g)
    = mkGlobals (display g) mc' (encoder_value g + direction) (last_display_update g).
Proof.
  destruct g as [dsp [mc|] v ldu];
    unfold on_encoder_rotate, bind, modify, get, ret, with_media_control, media_ready;
    cbn -[Hid.volume_up Hid.volume_down Z.add Z.gtb]; [|eexists; reflexivity].
  destruct (Hid.enabled mc); [|eexists; reflexivity].
  destruct (direction >? 0); cbn -[Hid.volume_up Hid.volume_down Z.add Z.gtb].
  - destruct (Hid.volume_up mc) as [[b|e] mc']; eexists; reflexivity.
  - destruct (Hid.volume_down mc) as [[b|e] mc']; eexists; reflexivity.
Qed.

Lemma on_switch_press_not_ready (name : string) (g : Globals) :
  display_ready g = false -> on_switch_press show_key_press name g = (Ok tt, g).
Proof. intros H. unfold on_switch_press, bind, get. rewrite H. reflexivity. Qed.

Lemma on_switch_press_globals (name : string) (g : Globals) :
  exists d', snd (on_switch_press show_key_press name g) = set_display d' g.
Proof.
  destruct g as [[d|] mc v ldu];
    unfold on_switch_press, bind, get, ret, with_display, display_ready;
    cbn [display].
  - destruct (Display.initialized d); cbn [display]; [|eexists; reflexivity].
    destruct (show_key_press name d) as [r d']. eexists; reflexivity.
  - eexists; reflexivity.
Qed.

(** *** What one reaction does to the globals and the callbacks *)

Lemma react_rotation_globals (st : System) (t c d : Z) :
  wired' st ->
  globals (snd (react' (IrqRotation t c d) st)) = globals st
  \/ exists direction,
       (direction = 1 \/ direction = -1)
       /\ globals (snd (react' (IrqRotation t c d) st))
          = snd (on_encoder_rotate direction (globals st)).
Proof.
  intros (Hrot & _ & _). unfold react.
  destruct (Z.lt_ge_cases (t - Encoder.last_interrupt_time (encoder st))
              Pins.ENCODER_DEBOUNCE_TIME) as [Hlt|Hge].
  - left. rewrite rotation_rejected by exact Hlt. reflexivity.
  - rewrite (rotation_accepted (encoder st) (globals st) t c d Hge). cbn zeta.
    rewrite Hrot.
    destruct (negb (c =? Encoder.last_clk (encoder st)) && (c =? 0));
      [|left; reflexivity].
    right. exists (if d =? 1 then 1 else -1).
    split; [destruct (d =? 1); auto|].
    destruct (on_encoder_rotate (if d =? 1 then 1 else -1) (globals st)) as [[[]|e] g'];
      reflexivity.
Qed.

Lemma react_button_globals (st : System) (t s : Z) :
  wired' st ->
  globals (snd (react' (IrqButton t s) st)) = globals st
  \/ (50 <= t - Encoder.button_press_time (encoder st) /\ s = 0
      /\ globals (snd (react' (IrqButton t s) st)) = set_encoder_value 0 (globals st)).
Proof.
  intros (_ & Hbtn & _). unfold react.
  destruct (Z.lt_ge_cases (t - Encoder.button_press_time (encoder st)) 50) as [Hlt|Hge].
  - left. rewrite button_rejected by exact Hlt. reflexivity.
  - rewrite (button_accepted (encoder st) (globals st) t s Hge), Hbtn.
    destruct (Z.eqb_spec s 0) as [->|]; [|left; reflexivity].
    right. split; [exact Hge|]. split; reflexivity.
Qed.

Lemma react_switch_globals (st : System) (n : string) (t : Z) :
  wired' st ->
  globals (snd (react' (IrqSwitch n t) st)) = globals st
  \/ globals (snd (react' (IrqSwitch n t) st))
     = snd (on_switch_press show_key_press n (globals st)).
Proof.
  intros (_ & _ & Hsw). unfold react.
  destruct (last_press_time (switch_handler st) !! n) as [last|] eqn:Hl.
  - destruct (Z.lt_ge_cases (t - last) Pins.DEBOUNCE_TIME) as [Hlt|Hge].
    + left. rewrite (switch_rejected _ _ _ _ _ Hl Hlt). reflexivity.
    + rewrite (switch_accepted _ _ _ _ _ Hl Hge).
      destruct (press_callbacks (switch_handler st) !! n) as [cb|] eqn:Hcb;
        [|left; reflexivity].
      right. rewrite (Hsw n cb Hcb). reflexivity.
  - left. rewrite (switch_unknown _ _ _ _ Hl). reflexivity.
Qed.

Lemma react_encoder_callbacks (st : System) (i : input) :
  Encoder.callback_rotate (encoder (snd (react' i st)))
  = Encoder.callback_rotate (encoder st)
  /\ Encoder.callback_button (encoder (snd (react' i st)))
     = Encoder.callback_button (encoder st).
Proof.
  destruct i as [n t | t c d | t s | t]; unfold react.
  - destruct (_handle_switch_press n t (switch_handler st, globals st)) as [r [sh g]].
    split; reflexivity.
  - destruct (Z.lt_ge_cases (t - Encoder.last_interrupt_time (encoder st))
                Pins.ENCODER_DEBOUNCE_TIME) as [Hlt|Hge].
    + rewrite rotation_rejected by exact Hlt. split; reflexivity.
    + rewrite (rotation_accepted (encoder st) (globals st) t c d Hge). cbn zeta.
      destruct (if negb (c =? Encoder.last_clk (encoder st)) && (c =? 0)
                then Encoder.callback_rotate (encoder st) else None) as [cb|];
        [|split; reflexivity].
      destruct (cb _ (globals st)) as [[[]|e] g']; split; reflexivity.
  - destruct (Z.lt_ge_cases (t - Encoder.button_press_time (encoder st)) 50) as [Hlt|Hge].
    + rewrite button_rejected by exact Hlt. split; reflexivity.
    + rewrite (button_accepted (encoder st) (globals st) t s Hge).
      destruct (s =? 0); [|split; reflexivity].
      destruct (Encoder.callback_button (encoder st)) eqn:E; split; cbn; congruence.
  - fold (react' (Poll t) st).
    destruct (Z.le_gt_cases (t - last_display_update (globals st)) 500) as [Hle|Hgt].
    { rewrite poll_too_early by exact Hle. split; reflexivity. }
    destruct (display_ready (globals st)) eqn:Hready.
    2: { rewrite poll_no_display by assumption. split; reflexivity. }
    unfold display_ready in Hready.
    destruct (display (globals st)) as [d|] eqn:Hd; [|discriminate].
    rewrite (poll_renders show_status st t d Hgt Hd Hready).
    destruct (show_status _ _ d) as [[[]|e] d']; split; reflexivity.
Qed.

Lemma react_press_callbacks (st : System) (i : input) :
  press_callbacks (switch_handler (snd (react' i st)))
  = press_callbacks (switch_handler st).
Proof.
  destruct i as [n t | t c d | t s | t].
  - destruct (react_switch show_status st n t) as [-> | (last & _ & _ & ->)]; reflexivity.
  - now rewrite react_rotation.
  - now rewrite react_button.
  - destruct (react_poll show_status st t) as [-> | (d & d' & _ & _ & _ & _ & _ & ->)];
      [reflexivity|].
    apply (reset_loop_frame (map fst (states (switch_handler st))) (switch_handler st)
             (fun n H => H)).
Qed.

Lemma react_wired (st : System) (i : input) :
  wired' st -> wired' (snd (react' i st)).
Proof.
  intros (Hrot & Hbtn & Hsw).
  destruct (react_encoder_callbacks st i) as [Hr Hb].
  split; [congruence|]. split; [congruence|].
  intros name cb. rewrite react_press_callbacks. apply Hsw.
Qed.

Lemma react_poll_globals (st : System) (t : Z) :
  globals (snd (react' (Poll t) st)) = globals st
  \/ (500 < t - last_display_update (globals st)
      /\ (globals (snd (react' (Poll t) st)) = set_last_display_update t (globals st)
          \/ exists d',
               display_ready (globals st) = true
               /\ globals (snd (react' (Poll t) st))
                  = set_display (Some d') (set_last_display_update t (globals st)))).
Proof.
  destruct (Z.le_gt_cases (t - last_display_update (globals st)) 500) as [Hle|Hgt].
  { left. now rewrite poll_too_early. }
  right. split; [exact Hgt|].
  destruct (display_ready (globals st)) eqn:Hready.
  2: { left. now rewrite poll_no_display. }
  pose proof Hready as Hready'. unfold display_ready in Hready'.
  destruct (display (globals st)) as [d|] eqn:Hd; [|discriminate].
  rewrite (poll_renders show_status st t d Hgt Hd Hready').
  destruct (show_status _ _ d) as [[[]|e] d']; right; exists d'; split; reflexivity.
Qed.

(** X22: The encoder accumulator moves only through the encoder: a rotation
    interrupt changes it by +1, by -1 or not at all, a button interrupt
    leaves it or sets it to 0, and neither a switch interrupt nor the
    polling loop touches it. *)
Theorem encoder_value_steps (st : System) (i : input) :
  wired' st ->
  let v := encoder_value (globals st) in
  let v' := encoder_value (globals (snd (react' i st))) in
  match i with
  | IrqRotation _ _ _ => v' = v \/ v' = v + 1 \/ v' = v - 1
  | IrqButton _ _ => v' = v \/ v' = 0
  | IrqSwitch _ _ | Poll _ => v' = v
  end.
Proof.
  intros Hw v v'. subst v v'. destruct i as [n t | t c d | t s | t].
  - destruct (react_switch_globals st n t Hw) as [-> | ->]; [reflexivity|].
    destruct (on_switch_press_globals n (globals st)) as [d' ->]. reflexivity.
  - destruct (react_rotation_globals st t c d Hw) as [-> | (dir & Hdir & ->)];
      [left; reflexivity|].
    destruct (on_encoder_rotate_globals dir (globals st)) as [mc' ->].
    cbn [encoder_value]. destruct Hdir as [-> | ->]; [right; left | right; right]; lia.
  - destruct (react_button_globals st t s Hw) as [-> | (_ & _ & ->)];
      [left | right]; reflexivity.
  - destruct (react_poll_globals st t) as [-> | (_ & [-> | (d' & _ & ->)])]; reflexivity.
Qed.

Lemma on_encoder_rotate_sends (direction : Z) (g : Globals) (mc : Hid.MediaControl)
    (device : Hid.Device) (f : Hid.primitive) :
  media_control g = Some mc -> Hid.enabled mc = true ->
  Hid.keyboard mc = Some device -> Hid.send device = Some f ->
  (forall l r, f l r = None) ->
  on_encoder_rotate direction g
  = (Ok tt,
     mkGlobals (display g)
       (Some (Hid.mkMediaControl true (Some device)
                (Hid.log mc
                 ++ [Hid.EvSend [if direction >? 0 then 0xE9 else 0xEA; 0x00; 0x00];
                     Hid.EvSleep 50; Hid.EvSend [0x00; 0x00; 0x00]])))
       (encoder_value g + direction) (last_display_update g)).
Proof.
  intros Hmc Hen Hkb Hsend Hf. destruct g as [dsp m v ldu]. cbn [media_control] in Hmc.
  subst m.
  unfold on_encoder_rotate, bind, modify, get, ret, with_media_control, media_ready.
  cbn -[Hid.volume_up Hid.volume_down Z.add Z.gtb]. rewrite Hen.
  unfold Hid.volume_up, Hid.volume_down.
  destruct (direction >? 0); cbn -[Hid.send_action Z.add];
    rewrite (send_action_two_sends _ mc device f Hen Hkb Hsend Hf); reflexivity.
Qed.

(** X23: End to end: with a working HID device, an accepted falling CLK edge
    with DT high adds 1 to the accumulator and sends the volume-up press
    and release, with the 50 ms sleep between them inside the interrupt
    handler; with DT low it subtracts 1 and sends volume-down. *)
Theorem rotation_turns_volume (st : System) (t dt : Z) (mc : Hid.MediaControl)
    (device : Hid.Device) (f : Hid.primitive) :
  wired' st ->
  media_control (globals st) = Some mc -> Hid.enabled mc = true ->
  Hid.keyboard mc = Some device -> Hid.send device = Some f ->
  (forall l r, f l r = None) ->
  Pins.ENCODER_DEBOUNCE_TIME <= t - Encoder.last_interrupt_time (encoder st) ->
  Encoder.last_clk (encoder st) <> 0 ->
  react' (IrqRotation t 0 dt) st
  = (Ok tt,
     mkSystem (switch_handler st)
       (Encoder.set_last_clk_dt 0 dt (Encoder.set_last_interrupt_time t (encoder st)))
       (mkGlobals (display (globals st))
          (Some (Hid.mkMediaControl true (Some device)
                   (Hid.log mc
                    ++ [Hid.EvSend [if dt =? 1 then 0xE9 else 0xEA; 0x00; 0x00];
                        Hid.EvSleep 50; Hid.EvSend [0x00; 0x00; 0x00]])))
          (encoder_value (globals st) + (if dt =? 1 then 1 else -1))
          (last_display_update (globals st)))).
Proof.
  intros (Hrot & _ & _) Hmc Hen Hkb Hsend Hf Hpass Hclk. unfold react.
  rewrite (rotation_accepted (encoder st) (globals st) t 0 dt Hpass). cbn zeta.
  rewrite (proj2 (Z.eqb_neq 0 (Encoder.last_clk (encoder st)))) by congruence.
  cbn [negb andb Z.eqb]. rewrite Hrot.
  rewrite (on_encoder_rotate_sends _ (globals st) mc device f Hmc Hen Hkb Hsend Hf).
  destruct (dt =? 1); reflexivity.
Qed.

(** X24: [update_display] takes the time stamp as soon as it is more than
    500 ms past the previous one, whether or not it can draw, so a
    further turn within 500 ms of that does nothing at all. *)
Theorem poll_rate_limit (st : System) (t1 t2 : Z) :
  500 < t1 - last_display_update (globals st) ->
  last_display_update (globals (snd (react' (Poll t1) st))) = t1
  /\ (t2 - t1 <= 500 ->
      react' (Poll t2) (snd (react' (Poll t1) st)) = (Ok tt, snd (react' (Poll t1) st))).
Proof.
  intros Hgt.
  assert (Hstamp : last_display_update (globals (snd (react' (Poll t1) st))) = t1).
  { destruct (react_poll_globals st t1) as [Heq | (_ & [-> | (d' & _ & ->)])];
      [|reflexivity|reflexivity].
    exfalso. destruct (display_ready (globals st)) eqn:Hready.
    - pose proof Hready as Hr. unfold display_ready in Hr.
      destruct (display (globals st)) as [d|] eqn:Hd; [|discriminate].
      rewrite (poll_renders show_status st t1 d Hgt Hd Hr) in Heq.
      destruct (show_status _ _ d) as [[[]|e] d']; cbn in Heq;
        apply (f_equal last_display_update) in Heq; cbn in Heq; lia.
    - rewrite poll_no_display in Heq by assumption. cbn in Heq.
      apply (f_equal last_display_update) in Heq. cbn in Heq. lia. }
  split; [exact Hstamp|].
  intros Hle. apply poll_too_early. rewrite Hstamp. exact Hle.
Qed.

Lemma react_without_display (st : System) (i : input) (name : string) :
  wired' st -> display_ready (globals st) = false ->
  display_ready (globals (snd (react' i st))) = false
  /\ (flag name st = Some true -> flag name (snd (react' i st)) = Some true).
Proof.
  intros Hw Hno. unfold flag. destruct i as [n t | t c d | t s | t].
  - split.
    + destruct (react_switch_globals st n t Hw) as [-> | ->]; [exact Hno|].
      rewrite on_switch_press_not_ready by exact Hno. exact Hno.
    + destruct (react_switch show_status st n t) as [-> | (last & _ & _ & ->)];
        [tauto|].
      intros Hon. cbn [pressed states set_states set_last_press_time].
      rewrite dict_get_set. destruct (String.eqb name n); [reflexivity | exact Hon].
  - split; [|rewrite react_rotation; tauto].
    destruct (react_rotation_globals st t c d Hw) as [-> | (dir & _ & ->)]; [exact Hno|].
    destruct (on_encoder_rotate_globals dir (globals st)) as [mc' ->]. exact Hno.
  - split; [|rewrite react_button; tauto].
    destruct (react_button_globals st t s Hw) as [-> | (_ & _ & ->)]; exact Hno.
  - split.
    + destruct (react_poll_globals st t) as [-> | (_ & [-> | (d' & Hready & _)])];
        [exact Hno | exact Hno | congruence].
    + destruct (react_poll show_status st t)
        as [-> | (d & d' & _ & Hd & Hinit & _)]; [tauto|].
      unfold display_ready in Hno. rewrite Hd, Hinit in Hno. discriminate.
Qed.

(** X25: Without an initialised display nothing ever resets a switch flag:
    whatever interrupts and polling turns follow, a flag that is true
    stays true. *)
Theorem flags_stick_without_display (st : System) (inputs : list input) (name : string) :
  wired' st -> display_ready (globals st) = false ->
  flag name st = Some true ->
  flag name (run_inputs show_status inputs st) = Some true
  /\ display_ready (globals (run_inputs show_status inputs st)) = false.
Proof.
  revert st. induction inputs as [|i inputs IH]; intros st Hw Hno Hon; cbn [run_inputs fold_left].
  - split; assumption.
  - destruct (react_without_display st i name Hw Hno) as [Hno' Hon'].
    apply IH; [apply react_wired; exact Hw | exact Hno' | exact (Hon' Hon)].
Qed.

End SystemFacts.

Section SystemRuns.
Import Py Main.

Lemma register_fold_callbacks {W} (cb0 : string -> M W unit) (names : list string)
    (sh : SwitchHandler W) :
  (forall n cb, press_callbacks sh !! n = Some cb -> cb = cb0) ->
  forall n cb,
    press_callbacks (fold_left (fun sh n => register_callback n cb0 sh) names sh) !! n
    = Some cb ->
    cb = cb0.
Proof.
  revert sh. induction names as [|m names IH]; intros sh Hsh; cbn [fold_left].
  - exact Hsh.
  - apply IH. intros n cb. unfold register_callback.
    destruct (pins sh !! m); [|apply Hsh].
    cbn [press_callbacks set_press_callbacks]. rewrite lookup_insert.
    case_decide; [congruence | apply Hsh].
Qed.

Lemma demo_wired : wired (fun _ => flush_screen) demo_system.
Proof.
  split; [reflexivity|]. split; [reflexivity|].
  unfold demo_system, main_init.
  destruct (flush_screen Display.Display_new) as [r d']. cbn [snd switch_handler].
  apply register_fold_callbacks. intros n cb H.
  change (press_callbacks SwitchHandler_new) with (∅ : gmap string (string -> M Globals unit)) in H.
  rewrite lookup_empty in H. discriminate.
Qed.

Lemma encoder_value_steps_witness :
  wired (fun _ => flush_screen) demo_system
  /\ (let v := encoder_value (globals demo_system) in
      let v' := encoder_value
                  (globals (snd (react (fun _ _ => flush_screen)
                                   (IrqRotation 10 0 0) demo_system))) in
      v' = v \/ v' = v + 1 \/ v' = v - 1)
  /\ encoder_value
       (globals (snd (react (fun _ _ => flush_screen) (IrqRotation 10 0 0) demo_system)))
     = -1.
Proof.
  split; [exact demo_wired|]. split; [|vm_compute; reflexivity].
  exact (encoder_value_steps (fun _ _ => flush_screen) (fun _ => flush_screen)
           demo_system (IrqRotation 10 0 0) demo_wired).
Defined.

Lemma rotation_turns_volume_witness :
  wired (fun _ => flush_screen) demo_system
  /\ media_control (globals demo_system) = Some (Hid.new true [Hid.sending_device])
  /\ Pins.ENCODER_DEBOUNCE_TIME <= 10 - Encoder.last_interrupt_time (encoder demo_system)
  /\ Encoder.last_clk (encoder demo_system) <> 0
  /\ media_control
       (globals (snd (react (fun _ _ => flush_screen) (IrqRotation 10 0 1) demo_system)))
     = Some (Hid.mkMediaControl true (Some Hid.sending_device)
               [Hid.EvSend [0xE9; 0x00; 0x00]; Hid.EvSleep 50;
                Hid.EvSend [0x00; 0x00; 0x00]])
  /\ encoder_value
       (globals (snd (react (fun _ _ => flush_screen) (IrqRotation 10 0 1) demo_system)))
     = 1.
Proof.
  assert (Hmc : media_control (globals demo_system) = Some (Hid.new true [Hid.sending_device]))
    by reflexivity.
  assert (Hpass : Pins.ENCODER_DEBOUNCE_TIME
                  <= 10 - Encoder.last_interrupt_time (encoder demo_system))
    by (vm_compute; discriminate).
  assert (Hclk : Encoder.last_clk (encoder demo_system) <> 0) by (vm_compute; discriminate).
  split; [exact demo_wired|]. split; [exact Hmc|]. split; [exact Hpass|].
  split; [exact Hclk|].
  rewrite (rotation_turns_volume (fun _ _ => flush_screen) (fun _ => flush_screen)
             demo_system 10 1 (Hid.new true [Hid.sending_device]) Hid.sending_device
             (fun _ _ => None) demo_wired Hmc eq_refl eq_refl eq_refl
             (fun _ _ => eq_refl) Hpass Hclk).
  split; reflexivity.
Defined.

Lemma poll_rate_limit_witness :
  500 < 501 - last_display_update (globals demo_system)
  /\ last_display_update
       (globals (snd (react (fun _ _ => flush_screen) (Poll 501) demo_system))) = 501
  /\ react (fun _ _ => flush_screen) (Poll 1001)
       (snd (react (fun _ _ => flush_screen) (Poll 501) demo_system))
     = (Ok tt, snd (react (fun _ _ => flush_screen) (Poll 501) demo_system)).
Proof.
  assert (Hgt : 500 < 501 - last_display_update (globals demo_system))
    by (vm_compute; reflexivity).
  destruct (poll_rate_limit (fun _ _ => flush_screen) demo_system 501 1001 Hgt)
    as [Hstamp Hnext].
  split; [exact Hgt|]. split; [exact Hstamp|]. apply Hnext. lia.
Defined.

Lemma flags_stick_without_display_witness :
  let blind := mkSystem (pressed "switch_1" 30 (switch_handler demo_system))
                 (encoder demo_system) (set_display None (globals demo_system)) in
  wired (fun _ => flush_screen) blind
  /\ display_ready (globals blind) = false
  /\ flag "switch_1" blind = Some true
  /\ flag "switch_1"
       (run_inputs (fun _ _ => flush_screen)
          [Poll 600; IrqSwitch "switch_2" 700; Poll 1300; IrqRotation 1400 0 1] blind)
     = Some true.
Proof.
  intros blind.
  assert (Hw : wired (fun _ => flush_screen) blind).
  { destruct demo_wired as (Hr & Hb & Hs). split; [exact Hr|]. split; [exact Hb|].
    exact Hs. }
  assert (Hon : flag "switch_1" blind = Some true) by (vm_compute; reflexivity).
  split; [exact Hw|]. split; [reflexivity|]. split; [exact Hon|].
  apply (flags_stick_without_display (fun _ _ => flush_screen) (fun _ => flush_screen)
           blind _ "switch_1" Hw eq_refl Hon).
Defined.

End SystemRuns.

(** ** Order of pixels; the picture after clear and fill *)

Section PictureOrder.
Import Py Display.
Local Open Scope py_scope.

Lemma bit_writes_commute (old b1 b2 s1 s2 : Z) :
  0 <= b1 -> 0 <= b2 -> b1 <> b2 ->
  (if truthy s2
   then Z.lor (if truthy s1 then Z.lor old (Z.shiftl 1 b1)
               else Z.land old (Z.lnot (Z.shiftl 1 b1))) (Z.shiftl 1 b2)
   else Z.land (if truthy s1 then Z.lor old (Z.shiftl 1 b1)
                else Z.land old (Z.lnot (Z.shiftl 1 b1))) (Z.lnot (Z.shiftl 1 b2)))
  = (if truthy s1
     then Z.lor (if truthy s2 then Z.lor old (Z.shiftl 1 b2)
                 else Z.land old (Z.lnot (Z.shiftl 1 b2))) (Z.shiftl 1 b1)
     else Z.land (if truthy s2 then Z.lor old (Z.shiftl 1 b2)
                  else Z.land old (Z.lnot (Z.shiftl 1 b2))) (Z.lnot (Z.shiftl 1 b1))).
Proof.
  intros H1 H2 Hne. apply Z.bits_inj'. intros n Hn.
  destruct (truthy s1), (truthy s2);
    rewrite ?testbit_set, ?testbit_clear by lia;
    rewrite ?testbit_set, ?testbit_clear by lia;
    destruct (Z.eqb_spec b1 n), (Z.eqb_spec b2 n), (Z.testbit old n);
    cbn [andb orb negb]; try reflexivity; lia.
Qed.

Lemma pixel_twice (self : SSD1306) (x1 y1 s1 x2 y2 s2 : Z) :
  drawable self -> in_range self x1 y1 -> in_range self x2 y2 ->
  exists old1 old2,
    buf self !! pixel_index self x1 y1 = Some old1
    /\ buf self !! pixel_index self x2 y2 = Some old2
    /\ bind (pixel x1 y1 s1) (fun _ => pixel x2 y2 s2) self
       = (Ok tt,
          set_buf
            (let v1 := if truthy s1 then Z.lor old1 (Z.shiftl 1 (y1 mod 8))
                       else Z.land old1 (Z.lnot (Z.shiftl 1 (y1 mod 8))) in
             let old2' := if decide (pixel_index self x1 y1 = pixel_index self x2 y2)
                          then v1 else old2 in
             <[pixel_index self x2 y2 :=
                 if truthy s2 then Z.lor old2' (Z.shiftl 1 (y2 mod 8))
                 else Z.land old2' (Z.lnot (Z.shiftl 1 (y2 mod 8)))]>
               (<[pixel_index self x1 y1 := v1]> (buf self)))
            self).
Proof.
  intros Hd Hin1 Hin2. pose proof Hd as (Hwf & Hb & H8).
  destruct (pixel_in_range self x1 y1 s1 Hwf Hb H8 (proj1 Hin1) (proj2 Hin1))
    as (old1 & Hold1 & _ & Hp1).
  destruct (pixel_in_range self x2 y2 s2 Hwf Hb H8 (proj1 Hin2) (proj2 Hin2))
    as (old2 & Hold2 & _ & _).
  destruct (pixel_step self x1 y1 s1 Hd) as (mid & Hmid & Hdmid & _ & _).
  rewrite Hp1 in Hmid. injection Hmid as Hmid.
  destruct Hdmid as (Hwf' & Hb' & H8'). rewrite <- Hmid in Hwf', Hb', H8'.
  set (v1 := if truthy s1 then Z.lor old1 (Z.shiftl 1 (y1 mod 8))
             else Z.land old1 (Z.lnot (Z.shiftl 1 (y1 mod 8)))) in *.
  destruct (pixel_in_range _ x2 y2 s2 Hwf' Hb' H8' (proj1 Hin2) (proj2 Hin2))
    as (old2' & Hold2' & _ & Hp2).
  change (pixel_index (set_buf _ self) x2 y2) with (pixel_index self x2 y2) in *.
  cbn [set_buf buf] in Hold2'.
  assert (Hi1 : (pixel_index self x1 y1 < length (buf self))%nat)
    by (eapply lookup_lt_Some; exact Hold1).
  exists old1, old2. split; [exact Hold1|]. split; [exact Hold2|].
  assert (Hval : old2' = if decide (pixel_index self x1 y1 = pixel_index self x2 y2)
                         then v1 else old2).
  { case_decide as Hidx.
    - rewrite <- Hidx in Hold2'. rewrite list_lookup_insert_eq in Hold2' by exact Hi1.
      congruence.
    - rewrite list_lookup_insert_ne in Hold2' by exact Hidx. congruence. }
  unfold bind. rewrite Hp1, Hp2, Hval. reflexivity.
Qed.

(** X3: Two [pixel] calls on different coordinates can be swapped: the
    object is the same afterwards, also when both pixels share a byte. *)
Theorem pixels_commute (self : SSD1306) (x1 y1 s1 x2 y2 s2 : Z) :
  drawable self -> x1 <> x2 \/ y1 <> y2 ->
  bind (pixel x1 y1 s1) (fun _ => pixel x2 y2 s2) self
  = bind (pixel x2 y2 s2) (fun _ => pixel x1 y1 s1) self.
Proof.
  intros Hd Hne.
  destruct (in_range_dec self x1 y1) as [Hin1|Hout1].
  2: { unfold bind. rewrite (pixel_outside self x1 y1 s1 Hout1).
       destruct (pixel_step self x2 y2 s2 Hd) as (s' & -> & _ & Hsame & _).
       rewrite pixel_outside; [reflexivity|].
       intros Hin. apply Hout1. destruct Hsame as (Hw & Hh & _).
       unfold in_range in *. rewrite Hw, Hh in Hin. exact Hin. }
  destruct (in_range_dec self x2 y2) as [Hin2|Hout2].
  2: { unfold bind. rewrite (pixel_outside self x2 y2 s2 Hout2).
       destruct (pixel_step self x1 y1 s1 Hd) as (s' & -> & _ & Hsame & _).
       rewrite pixel_outside; [reflexivity|].
       intros Hin. apply Hout2. destruct Hsame as (Hw & Hh & _).
       unfold in_range in *. rewrite Hw, Hh in Hin. exact Hin. }
  destruct (pixel_twice self x1 y1 s1 x2 y2 s2 Hd Hin1 Hin2)
    as (old1 & old2 & Ho1 & Ho2 & ->).
  destruct (pixel_twice self x2 y2 s2 x1 y1 s1 Hd Hin2 Hin1)
    as (old2' & old1' & Ho2' & Ho1' & ->).
  rewrite Ho1 in Ho1'. rewrite Ho2 in Ho2'. injection Ho1' as <-. injection Ho2' as <-.
  f_equal. f_equal. cbv zeta.
  assert (Hb1 : 0 <= y1 mod 8 < 8) by (apply Z.mod_pos_bound; lia).
  assert (Hb2 : 0 <= y2 mod 8 < 8) by (apply Z.mod_pos_bound; lia).
  destruct (decide (pixel_index self x1 y1 = pixel_index self x2 y2)) as [Hidx|Hidx].
  - rewrite decide_True by congruence.
    assert (Hbits : y1 mod 8 <> y2 mod 8).
    { intros Hm. destruct (pixel_index_inj self x2 y2 x1 y1 Hin2 Hin1 Hidx Hm). lia. }
    rewrite <- Hidx in Ho2. rewrite Ho1 in Ho2. injection Ho2 as <-.
    rewrite <- Hidx, !list_insert_insert_eq. f_equal.
    apply bit_writes_commute; lia.
  - rewrite decide_False by congruence.
    apply list_insert_insert_ne. congruence.
Qed.

Lemma pixels_commute_witness :
  drawable fresh_panel
  /\ bind (pixel 3 10 1) (fun _ => pixel 3 12 1) fresh_panel
     = bind (pixel 3 12 1) (fun _ => pixel 3 10 1) fresh_panel
  /\ buf (snd (bind (pixel 3 10 1) (fun _ => pixel 3 12 1) fresh_panel)) !! 131%nat
     = Some 20.
Proof.
  split; [exact fresh_panel_drawable|]. split; [|vm_compute; reflexivity].
  apply (pixels_commute fresh_panel 3 10 1 3 12 1 fresh_panel_drawable). right. lia.
Defined.

Lemma for_each_keeps {S A} (keeps : S -> S -> Prop) (l : list A) (body : A -> M S unit) :
  (forall s, keeps s s) ->
  (forall s1 s2 s3, keeps s1 s2 -> keeps s2 s3 -> keeps s1 s3) ->
  (forall a s, keeps s (snd (body a s))) ->
  forall s, keeps s (snd (for_each l body s)).
Proof.
  intros Hrefl Htrans Hbody. induction l as [|a l IH]; intros s; cbn [for_each].
  - apply Hrefl.
  - unfold bind. pose proof (Hbody a s) as Ha.
    destruct (body a s) as [[[]|e] s1]; cbn [snd] in *; [|exact Ha].
    eapply Htrans; [exact Ha | apply IH].
Qed.

(** [show] writes to the bus and to nothing else, however it ends. *)
Lemma show_keeps_buffer (self : SSD1306) :
  buf (snd (show self)) = buf self
  /\ width (snd (show self)) = width self /\ height (snd (show self)) = height self
  /\ pages (snd (show self)) = pages self.
Proof.
  unfold show, bind, get.
  apply (for_each_keeps
           (fun s s' => buf s' = buf s /\ width s' = width s /\ height s' = height s
                        /\ pages s' = pages s)).
  - intros s. repeat split.
  - intros s1 s2 s3 (? & ? & ? & ?) (? & ? & ? & ?). repeat split; congruence.
  - intros p s. unfold show_page, write_cmd, write_data, i2c_writeto, bind, lift, bytes,
      modify, get.
    cbn [forallb]. destruct (is_byte (Z.lor SETPAGE p)); cbn; repeat split.
Qed.

Lemma lookup_repeat (v : Z) (n i : nat) :
  (i < n)%nat -> repeat v n !! i = Some v.
Proof.
  revert i. induction n as [|n IH]; intros [|i] Hi; cbn; try lia; [reflexivity|].
  apply IH. lia.
Qed.

(** X11: After [clear] every pixel of the panel is dark, and after [fill]
    every pixel is lit for a non-zero colour and dark for colour 0. *)
Theorem clear_fill_picture (self : SSD1306) (color x y : Z) :
  drawable self -> in_range self x y ->
  pixel_at (snd (clear self)) x y = false
  /\ pixel_at (snd (fill color self)) x y = truthy color.
Proof.
  intros (Hwf & Hb & H8) [Hx Hy].
  pose proof (pixel_index_in_buffer self x y Hwf H8 Hx Hy) as Hi.
  assert (Hbit : 0 <= y mod 8 < 8) by (apply Z.mod_pos_bound; lia).
  rewrite clear_is_show, fill_is_show. unfold pixel_at, pixel_index.
  split.
  - destruct (show_keeps_buffer (set_buf (repeat 0 (length (buf self))) self))
      as (-> & -> & _). cbn [set_buf buf width].
    rewrite lookup_repeat by lia. apply Z.bits_0.
  - destruct (show_keeps_buffer
                (set_buf (repeat (if color =? 0 then 0x00 else 0xFF) (length (buf self))) self))
      as (-> & -> & _). cbn [set_buf buf width].
    rewrite lookup_repeat by lia. unfold truthy.
    destruct (color =? 0); cbn [negb]; [apply Z.bits_0|].
    change 0xFF with (Z.ones 8). apply Z.ones_spec_low. lia.
Qed.

Lemma clear_fill_picture_witness :
  drawable lit_panel /\ in_range lit_panel 0 0
  /\ pixel_at lit_panel 0 0 = true
  /\ pixel_at (snd (clear lit_panel)) 0 0 = false
  /\ pixel_at (snd (fill 7 lit_panel)) 0 0 = true.
Proof.
  assert (Hd : drawable lit_panel).
  { split; [split; reflexivity|]. split; [|reflexivity].
    unfold bytes_ok. apply Forall_insert; [apply fresh_panel_well_formed | lia]. }
  assert (Hin : in_range lit_panel 0 0) by (split; split; (lia || reflexivity)).
  destruct (clear_fill_picture lit_panel 7 0 0 Hd Hin) as [Hc Hf].
  split; [exact Hd|]. split; [exact Hin|]. split; [reflexivity|].
  split; [exact Hc | exact Hf].
Defined.

End PictureOrder.
